(** * terraform-provider-posthog: the reconciliation adapter, embedded

    A shallow embedding of the PostHog client ([internal/posthog]) and of the
    two Terraform resources ([internal/provider]), followed by the properties
    the specification states about them.

    Conventions of the embedding:
    - a Go [uint64] is an [N] with the wrap-around written out ([wrap64]);
    - a Go [string] is a [string] (a sequence of bytes);
    - a Go slice is a [slice A]: [None] is the nil slice, [Some l] a non-nil
      slice with elements [l] (the two differ once marshalled to JSON);
    - a Go [(value, error)] pair is a pair whose second component is
      [option error], so that the value returned next to a non-nil error is
      kept (some callers read it);
    - the Terraform state is a finite map from attribute names to values. *)

From Stdlib Require Import NArith String Ascii List Lia Bool Permutation Sorted.
From stdpp Require Import base option list sorting strings gmap.
Import ListNotations.

Local Open Scope string_scope.
Local Open Scope list_scope.
Local Open Scope N_scope.

(** ** Go slices *)

Definition slice (A : Type) : Type := option (list A).

(** The elements a [for _, x := range s] loop visits. *)
Definition elems {A : Type} (s : slice A) : list A :=
  match s with
  | None => []
  | Some l => l
  end.

(** [append(s, x)]: the result is never nil. *)
Definition append {A : Type} (s : slice A) (x : A) : slice A :=
  Some (elems s ++ [x]).

(** [append(s, xs...)]: appending no element to a nil slice leaves it nil. *)
Definition appendAll {A : Type} (s : slice A) (xs : slice A) : slice A :=
  match s, elems xs with
  | None, [] => None
  | _, l => Some (elems s ++ l)
  end.


(** ** Package strconv (base 10, 64 bits), as the identifiers use it *)

Module strconv.

Inductive ErrKind : Type := ErrSyntax | ErrRange.

(** [*strconv.NumError]: the failing function, its input and the cause. *)
Record NumError : Type := mkNumError {
  Func : string;
  Num : string;
  Err : ErrKind
}.

Definition maxUint64 : N := 2 ^ 64 - 1.

Definition wrap64 (n : N) : N := n mod 2 ^ 64.

(** The smallest number such that [cutoff * 10 > maxUint64]. *)
Definition cutoff : N := maxUint64 / 10 + 1.

Definition syntaxError (s0 : string) : NumError := mkNumError "ParseUint" s0 ErrSyntax.
Definition rangeError (s0 : string) : NumError := mkNumError "ParseUint" s0 ErrRange.

(** ['0' <= c && c <= '9'] *)
Definition isDigit (c : ascii) : bool :=
  (48 <=? N_of_ascii c) && (N_of_ascii c <=? 57).

(** ['a' <= lower(c) && lower(c) <= 'z'], with [lower(c) = c | ('x' - 'X')] *)
Definition isLetter (c : ascii) : bool :=
  let l := N.lor (N_of_ascii c) 32 in (97 <=? l) && (l <=? 122).

(** The loop of [ParseUint] over the bytes of its input, for base 10 and
    bit size 64.  A letter is a digit of some larger base and a syntax
    error in base 10, like any other byte that is not a decimal digit. *)
Fixpoint parseDigits (s0 : string) (bs : list ascii) (n : N) : N * option NumError :=
  match bs with
  | [] => (n, None)
  | c :: rest =>
      if isDigit c then
        let d := N_of_ascii c - 48 in
        if cutoff <=? n then (maxUint64, Some (rangeError s0))
        else
          let n' := wrap64 (n * 10) in
          let n1 := wrap64 (n' + d) in
          if (n1 <? n') || (maxUint64 <? n1) then (maxUint64, Some (rangeError s0))
          else parseDigits s0 rest n1
      else if isLetter c then (0, Some (syntaxError s0))
      else (0, Some (syntaxError s0))
  end.

(** [strconv.ParseUint(s, 10, 64)] *)
Definition ParseUint (s : string) : N * option NumError :=
  match s with
  | EmptyString => (0, Some (syntaxError s))
  | _ => parseDigits s (list_ascii_of_string s) 0
  end.

Definition digitChar (d : N) : ascii := ascii_of_N (48 + d).

(** The digit loop of [formatBits] for base 10: digits are written from the
    least significant one, right to left, into a buffer that [fuel] bounds. *)
Fixpoint formatBits (fuel : nat) (u : N) (acc : list ascii) : list ascii :=
  match fuel with
  | O => acc
  | S fuel' =>
      if u <? 10 then digitChar u :: acc
      else formatBits fuel' (u / 10) (digitChar (u mod 10) :: acc)
  end.

(** A [uint64] has at most 20 decimal digits. *)
Definition maxDigits : nat := 20.

(** [strconv.FormatUint(u, 10)] *)
Definition FormatUint (u : N) : string :=
  string_of_list_ascii (formatBits maxDigits u []).

End strconv.

(** ** Go errors

    The errors the client and the provider build.  The cause of an error
    raised outside this repository (transport, URL parsing, JSON syntax) is
    kept as its message. *)

Inductive error : Type :=
| ErrNum (e : strconv.NumError)
| ErrCreatingRequest (cause : string)
| ErrDoingRequest (cause : string)
| ErrUnexpectedStatus (expected got : Z) (serverResponse : string)
| ErrDecodingReply (cause : string)
| ErrImportIDForm
| ErrInvalidProjectID (cause : strconv.NumError)
| ErrInvalidActionID (cause : strconv.NumError).

#[global] Instance ErrKind_eq_dec : EqDecision strconv.ErrKind.
Proof. solve_decision. Defined.

#[global] Instance NumError_eq_dec : EqDecision strconv.NumError.
Proof. solve_decision. Defined.

#[global] Instance error_eq_dec : EqDecision error.
Proof. solve_decision. Defined.

(** ** JSON documents, as [encoding/json] writes them *)

#[local] Set Warnings "-register-all".

Inductive JSON : Type :=
| JNull
| JBool (b : bool)
| JNumber (n : N)
| JString (s : string)
| JArray (items : list JSON)
| JObject (fields : list (string * JSON)).

(** A string field tagged [omitempty] is left out when it is empty. *)
Definition omitempty (name : string) (v : string) : list (string * JSON) :=
  if String.eqb v "" then [] else [(name, JString v)].

(** A nil slice is written [null], a non-nil one as an array. *)
Definition marshalSlice {A : Type} (f : A -> JSON) (s : slice A) : JSON :=
  match s with
  | None => JNull
  | Some l => JArray (map f l)
  end.

Fixpoint lookupField (name : string) (fields : list (string * JSON)) : option JSON :=
  match fields with
  | [] => None
  | (k, v) :: rest => if String.eqb k name then Some v else lookupField name rest
  end.

(** The member [name] of a JSON object. *)
Definition member (name : string) (j : JSON) : option JSON :=
  match j with
  | JObject fields => lookupField name fields
  | _ => None
  end.

(** ** Packages net/url and net/http, as far as the client uses them *)

Module url.

(** [shouldEscape(c, encodePathSegment)] *)
Definition shouldEscape (c : ascii) : bool :=
  let n := N_of_ascii c in
  if ((97 <=? n) && (n <=? 122)) || ((65 <=? n) && (n <=? 90))
     || ((48 <=? n) && (n <=? 57))
  then false
  else if existsb (Ascii.eqb c) ["-"; "_"; "."; "~"]%char then false
  else if existsb (Ascii.eqb c) ["$"; "&"; "+"; ":"; "="; "@"]%char then false
  else true.

Definition upperhex (d : N) : ascii :=
  if d <? 10 then ascii_of_N (48 + d) else ascii_of_N (55 + d).

Fixpoint escape (s : string) : string :=
  match s with
  | EmptyString => EmptyString
  | String c rest =>
      if shouldEscape c
      then String "%" (String (upperhex (N_of_ascii c / 16))
                         (String (upperhex (N_of_ascii c mod 16)) (escape rest)))
      else String c (escape rest)
  end.

(** [url.PathEscape] *)
Definition PathEscape (s : string) : string := escape s.

End url.

Module http.

Record Request : Type := mkRequest {
  Method : string;
  URL : string;
  Body : option JSON;
  Header : list (string * string)
}.

(** [req.Header.Add(key, value)] *)
Definition Header_Add (key value : string) (req : Request) : Request :=
  mkRequest (Method req) (URL req) (Body req) (Header req ++ [(key, value)]).

Record Response : Type := mkResponse {
  StatusCode : Z;
  ResponseBody : string
}.

Definition StatusOK : Z := 200.
Definition StatusCreated : Z := 201.
Definition StatusNoContent : Z := 204.

End http.

(** ** Package posthog: the API client *)

Module posthog.

(** *** Identifiers ([api_project.go], [api_action.go]) *)

(** [type ProjectID uint64] and [type ActionID uint64] *)
Definition ProjectID : Type := N.
Definition ActionID : Type := N.

Definition ProjectID_String (i : ProjectID) : string := strconv.FormatUint i.

Definition ProjectIDFromString (s : string) : ProjectID * option strconv.NumError :=
  let '(res, err) := strconv.ParseUint s in (res, err).

Definition ActionID_String (i : ActionID) : string := strconv.FormatUint i.

Definition ActionIDFromString (s : string) : ActionID * option strconv.NumError :=
  let '(res, err) := strconv.ParseUint s in (res, err).

(** *** Payloads *)

Definition TextMatching : Type := string.
Definition TextMatchingExact : TextMatching := "exact".
Definition TextMatchingContains : TextMatching := "contains".
Definition TextMatchingRegex : TextMatching := "regex".

(** A [time.Time], kept as the RFC 3339 text the JSON codec reads and
    writes. *)
Definition Time : Type := string.
Definition zeroTime : Time := "0001-01-01T00:00:00Z".

(** The field [TextMatching] of a step is written [TextMatching_]: the type
    of matching strategies has its name. *)
Module CreateActionStepRequest.
Record t : Type := mk {
  Event : string;
  URL : string;
  URLMatching : TextMatching;
  Text : string;
  TextMatching_ : TextMatching;
  Href : string;
  HrefMatching : TextMatching;
  Selector : string
}.

Definition MarshalJSON (s : t) : JSON :=
  JObject ([("event", JString (Event s))]
           ++ omitempty "url" (URL s)
           ++ omitempty "url_matching" (URLMatching s)
           ++ omitempty "text" (Text s)
           ++ omitempty "text_matching" (TextMatching_ s)
           ++ omitempty "href" (Href s)
           ++ omitempty "href_matching" (HrefMatching s)
           ++ omitempty "selector" (Selector s)).
End CreateActionStepRequest.

Module CreateActionRequest.
Record t : Type := mk {
  Name : string;
  Description : string;
  Tags : slice string;
  PostToSlack : bool;
  SlackMessageFormat : string;
  Steps : slice CreateActionStepRequest.t
}.

Definition MarshalJSON (a : t) : JSON :=
  JObject ([("name", JString (Name a))]
           ++ omitempty "description" (Description a)
           ++ [("tags", marshalSlice JString (Tags a));
               ("post_to_slack", JBool (PostToSlack a))]
           ++ omitempty "slack_message_format" (SlackMessageFormat a)
           ++ [("steps", marshalSlice CreateActionStepRequest.MarshalJSON (Steps a))]).
End CreateActionRequest.

Module ActionStep.
Record t : Type := mk {
  ID : string;
  Event : string;
  URL : string;
  URLMatching : TextMatching;
  Text : string;
  TextMatching_ : TextMatching;
  Href : string;
  HrefMatching : TextMatching;
  Selector : string
}.

Definition MarshalJSON (s : t) : JSON :=
  JObject ([("id", JString (ID s)); ("event", JString (Event s))]
           ++ omitempty "url" (URL s)
           ++ omitempty "url_matching" (URLMatching s)
           ++ omitempty "text" (Text s)
           ++ omitempty "text_matching" (TextMatching_ s)
           ++ omitempty "href" (Href s)
           ++ omitempty "href_matching" (HrefMatching s)
           ++ omitempty "selector" (Selector s)).
End ActionStep.

Module Action.
Record t : Type := mk {
  ID : ActionID;
  Name : string;
  Description : string;
  Tags : slice string;
  PostToSlack : bool;
  SlackMessageFormat : string;
  Steps : slice ActionStep.t;
  Deleted : bool;
  IsCalculating : bool;
  CreatedAt : Time;
  LastCalculatedAt : Time
}.

(** The zero value [Action{}]. *)
Definition zero : t :=
  mk 0 "" "" None false "" None false false zeroTime zeroTime.

Definition MarshalJSON (a : t) : JSON :=
  JObject [("id", JNumber (ID a));
           ("name", JString (Name a));
           ("description", JString (Description a));
           ("tags", marshalSlice JString (Tags a));
           ("post_to_slack", JBool (PostToSlack a));
           ("slack_message_format", JString (SlackMessageFormat a));
           ("steps", marshalSlice ActionStep.MarshalJSON (Steps a));
           ("deleted", JBool (Deleted a));
           ("is_calculating", JBool (IsCalculating a));
           ("created_at", JString (CreatedAt a));
           ("last_calculated_at", JString (LastCalculatedAt a))].
End Action.

Definition ProjectToolbarMode : Type := string.
Definition ProjectToolbarModeDisabled : ProjectToolbarMode := "disabled".
Definition ProjectToolbarModeToolbar : ProjectToolbarMode := "toolbar".

Definition ProjectSessionRecordingVersion : Type := string.
Definition ProjectSessionRecordingVersionV1 : string := "v1".
Definition ProjectSessionRecordingVersionV2 : string := "v2".

Module CreateProjectRequest.
Record t : Type := mk {
  Name : string;
  AutocaptureOptOut : bool;
  Timezone : string;
  AppURLs : slice string;
  DataAttributes : slice string;
  PersonDisplayNameProperties : slice string;
  SlackIncomingWebhook : string;
  AnonymizeIPs : bool;
  ToolbarMode : ProjectToolbarMode;
  CapturePerformanceOptIn : bool;
  CaptureConsoleLogOptIn : bool;
  SessionRecordingOptIn : bool;
  SessionRecordingVersion : ProjectSessionRecordingVersion;
  RecordingDomains : slice string;
  AccessControl : bool;
  CompletedSnippetOnboarding : bool
}.

Definition MarshalJSON (p : t) : JSON :=
  JObject [("name", JString (Name p));
           ("autocapture_opt_out", JBool (AutocaptureOptOut p));
           ("timezone", JString (Timezone p));
           ("app_urls", marshalSlice JString (AppURLs p));
           ("data_attributes", marshalSlice JString (DataAttributes p));
           ("person_display_name_properties",
             marshalSlice JString (PersonDisplayNameProperties p));
           ("slack_incoming_webhook", JString (SlackIncomingWebhook p));
           ("anonymize_ips", JBool (AnonymizeIPs p));
           ("toolbar_mode", JString (ToolbarMode p));
           ("capture_performance_opt_in", JBool (CapturePerformanceOptIn p));
           ("capture_console_log_opt_in", JBool (CaptureConsoleLogOptIn p));
           ("session_recording_opt_in", JBool (SessionRecordingOptIn p));
           ("session_recording_version", JString (SessionRecordingVersion p));
           ("recording_domains", marshalSlice JString (RecordingDomains p));
           ("access_control", JBool (AccessControl p));
           ("completed_snippet_onboarding", JBool (CompletedSnippetOnboarding p))].
End CreateProjectRequest.

Module Project.
Record t : Type := mk {
  ID : ProjectID;
  Name : string;
  AutocaptureOptOut : bool;
  Timezone : string;
  AppURLs : slice string;
  DataAttributes : slice string;
  PersonDisplayNameProperties : slice string;
  SlackIncomingWebhook : string;
  AnonymizeIPs : bool;
  ToolbarMode : ProjectToolbarMode;
  CapturePerformanceOptIn : bool;
  CaptureConsoleLogOptIn : bool;
  SessionRecordingOptIn : bool;
  SessionRecordingVersion : ProjectSessionRecordingVersion;
  RecordingDomains : slice string;
  AccessControl : bool;
  APIToken : string;
  CompletedSnippetOnboarding : bool;
  CreatedAt : Time;
  UpdatedAt : Time
}.

(** The zero value [Project{}]. *)
Definition zero : t :=
  mk 0 "" false "" None None None "" false "" false false false "" None
     false "" false zeroTime zeroTime.

Definition MarshalJSON (p : t) : JSON :=
  JObject [("id", JNumber (ID p));
           ("name", JString (Name p));
           ("autocapture_opt_out", JBool (AutocaptureOptOut p));
           ("timezone", JString (Timezone p));
           ("app_urls", marshalSlice JString (AppURLs p));
           ("data_attributes", marshalSlice JString (DataAttributes p));
           ("person_display_name_properties",
             marshalSlice JString (PersonDisplayNameProperties p));
           ("slack_incoming_webhook", JString (SlackIncomingWebhook p));
           ("anonymize_ips", JBool (AnonymizeIPs p));
           ("toolbar_mode", JString (ToolbarMode p));
           ("capture_performance_opt_in", JBool (CapturePerformanceOptIn p));
           ("capture_console_log_opt_in", JBool (CaptureConsoleLogOptIn p));
           ("session_recording_opt_in", JBool (SessionRecordingOptIn p));
           ("session_recording_version", JString (SessionRecordingVersion p));
           ("recording_domains", marshalSlice JString (RecordingDomains p));
           ("access_control", JBool (AccessControl p));
           ("api_token", JString (APIToken p));
           ("completed_snippet_onboarding", JBool (CompletedSnippetOnboarding p));
           ("created_at", JString (CreatedAt p));
           ("updated_at", JString (UpdatedAt p))].

Definition setToolbarMode (m : ProjectToolbarMode) (p : t) : t :=
  mk (ID p) (Name p) (AutocaptureOptOut p) (Timezone p) (AppURLs p)
     (DataAttributes p) (PersonDisplayNameProperties p) (SlackIncomingWebhook p)
     (AnonymizeIPs p) m (CapturePerformanceOptIn p) (CaptureConsoleLogOptIn p)
     (SessionRecordingOptIn p) (SessionRecordingVersion p) (RecordingDomains p)
     (AccessControl p) (APIToken p) (CompletedSnippetOnboarding p)
     (CreatedAt p) (UpdatedAt p).
End Project.

(** The values passed as [apiRequest.Input]. *)
Inductive Payload : Type :=
| InCreateAction (a : CreateActionRequest.t)
| InAction (a : Action.t)
| InCreateProject (p : CreateProjectRequest.t)
| InProject (p : Project.t).

(** [json.Marshal(r.Input)].  Strings, booleans, numbers and slices of them
    always marshal, and a [Time] is already its text, so that no error is
    produced. *)
Definition json_Marshal (i : Payload) : JSON :=
  match i with
  | InCreateAction a => CreateActionRequest.MarshalJSON a
  | InAction a => Action.MarshalJSON a
  | InCreateProject p => CreateProjectRequest.MarshalJSON p
  | InProject p => Project.MarshalJSON p
  end.


(** *** The client ([api.go]) *)

(** What the client takes from outside the repository:
    - the check [http.NewRequestWithContext] makes on a method and a URL,
      with the message of its error;
    - [Decoder.readValue] of [encoding/json]: the text of the first JSON
      value of a stream, or the message of the syntax error (an empty stream
      and a value cut short included);
    - the reflective decoding of the text of a value that is not [null]
      into a fresh struct: the struct as the decoding leaves it, and the
      message of the error when there is one (a field of the wrong type is
      skipped and reported at the end, so that the struct is then partly
      filled). *)
Record Lib : Type := mkLib {
  NewRequestError : string -> string -> option string;
  ReadValue : string -> string + string;
  UnmarshalAction : string -> Action.t * option string;
  UnmarshalRawProject : string -> Project.t * option string
}.

(** [Project.UnmarshalJSON]: the plain decoding, whose error is returned as
    it is; then the toolbar mode is filled in when the reply left it out. *)
Definition Project_UnmarshalJSON (lib : Lib) (b : string) : Project.t * option string :=
  let '(p, err) := UnmarshalRawProject lib b in
  match err with
  | Some err => (p, Some err)
  | None =>
      if String.eqb (Project.ToolbarMode p) ""
      then (Project.setToolbarMode ProjectToolbarModeToolbar p, None)
      else (p, None)
  end.

(** The white space of JSON: space, tab, carriage return, line feed. *)
Definition isSpace (c : ascii) : bool :=
  let n := N_of_ascii c in
  (n =? 32) || (n =? 9) || (n =? 13) || (n =? 10).

Fixpoint skipSpace (s : string) : string :=
  match s with
  | String c rest => if isSpace c then skipSpace rest else s
  | EmptyString => s
  end.

Fixpoint hasPrefix (p s : string) : bool :=
  match p with
  | EmptyString => true
  | String a p' =>
      match s with
      | String b s' => Ascii.eqb a b && hasPrefix p' s'
      | EmptyString => false
      end
  end.

(** The first value of a stream is the literal [null]: the scanner skips
    white space, and at top level the literal ends with its fourth byte,
    whatever follows. *)
Definition firstValueIsNull (body : string) : bool :=
  hasPrefix "null" (skipSpace body).

(** Decoding a stream into a pointer variable ([var res *T], passed as
    [&res]), as the new value of the pointer and the message of the error.
    A syntax error leaves the pointer as it was, nil; the literal [null]
    sets it to nil; any other value is decoded into a fresh [T], which the
    pointer is left with, also when the decoding reports an error. *)
Definition Decoder (T : Type) : Type := string -> option T * option string.

Definition decodePointer {T : Type} (lib : Lib) (unmarshal : string -> T * option string)
  : Decoder T :=
  fun body =>
    if firstValueIsNull body then (None, None)
    else match ReadValue lib body with
         | inl err => (None, Some err)
         | inr value => let '(v, err) := unmarshal value in (Some v, err)
         end.

Section Client.
Context {W : Type} (lib : Lib).

(** A request handed to the transport and what came back. *)
Record Exchange : Type := mkExchange {
  sent : http.Request;
  received : string + http.Response
}.

(** The remote side (a [W]) and the transcript of the round trips so far. *)
Record NetState : Type := mkNetState {
  world : W;
  transcript : list Exchange
}.

Definition Net (A : Type) : Type := NetState -> A * NetState.

Definition ret {A : Type} (a : A) : Net A := fun st => (a, st).

Definition bind {A B : Type} (m : Net A) (k : A -> Net B) : Net B :=
  fun st => let '(a, st') := m st in k a st'.

(** [HTTPClient] is the transport: it answers a request, or fails, and
    moves the remote side on. *)
Record Client : Type := mkClient {
  HTTPClient : http.Request -> W -> (string + http.Response) * W;
  Host : string;
  APIKey : string
}.

(** [c.HTTPClient.Do(req)] *)
Definition HTTPClient_Do (c : Client) (req : http.Request) : Net (string + http.Response) :=
  fun st =>
    let '(res, w') := HTTPClient c req (world st) in
    (res, mkNetState w' (transcript st ++ [mkExchange req res])).

Record apiRequest (T : Type) : Type := mkApiRequest {
  Method : string;
  Path : string;
  ExpectedCode : Z;
  Input : option Payload;
  Output : option (Decoder T);
  OutputNilIf404 : bool
}.
Arguments mkApiRequest {T}.
Arguments Method {T}.
Arguments Path {T}.
Arguments ExpectedCode {T}.
Arguments Input {T}.
Arguments Output {T}.
Arguments OutputNilIf404 {T}.

(** [http.NewRequestWithContext(ctx, method, url, body)] *)
Definition NewRequestWithContext (method url : string) (body : option JSON)
  : string + http.Request :=
  match NewRequestError lib method url with
  | Some err => inl err
  | None => inr (http.mkRequest method url body [])
  end.

(** The end of [do]: [json.NewDecoder(responseBody).Decode(r.Output)].
    The result is the value left in the variable [r.Output] points to,
    and the error. *)
Definition decodeOutput {T : Type} (r : apiRequest T) (responseBody : string)
  : option T * option error :=
  match Output r with
  | None => (None, None)
  | Some decode =>
      let '(v, err) := decode responseBody in
      (v, option_map ErrDecodingReply err)
  end.

Definition do {T : Type} (c : Client) (r : apiRequest T) : Net (option T * option error) :=
  let body :=
    match Input r with
    | Some i => Some (json_Marshal i)
    | None => None
    end in
  match NewRequestWithContext (Method r) (Host c +:+ "/api" +:+ Path r) body with
  | inl err => ret (None, Some (ErrCreatingRequest err))
  | inr req =>
      let req :=
        match body with
        | Some _ => http.Header_Add "Content-Type" "application/json" req
        | None => req
        end in
      let req :=
        match Output r with
        | Some _ => http.Header_Add "Accept" "application/json" req
        | None => req
        end in
      let req := http.Header_Add "Authorization" ("Bearer " +:+ APIKey c) req in
      bind (HTTPClient_Do c req) (fun res =>
        match res with
        | inl err => ret (None, Some (ErrDoingRequest err))
        | inr res =>
            if OutputNilIf404 r && (http.StatusCode res =? 404)%Z then
              (* nothing to unmarshal, output will be nil *)
              ret (decodeOutput r "null")
            else if negb (http.StatusCode res =? ExpectedCode r)%Z then
              ret (None, Some (ErrUnexpectedStatus (ExpectedCode r) (http.StatusCode res)
                                 (http.ResponseBody res)))
            else
              ret (decodeOutput r (http.ResponseBody res))
        end)
  end.

(** [nilSliceToEmpty(&v)], as the new value of [v]. *)
Definition nilSliceToEmpty {A : Type} (v : slice A) : slice A :=
  match v with
  | None => Some []
  | Some l => Some l
  end.

Definition CreateAction (c : Client) (projectID : ProjectID) (a : CreateActionRequest.t)
  : Net (option Action.t * option error) :=
  let a := CreateActionRequest.mk
             (CreateActionRequest.Name a) (CreateActionRequest.Description a)
             (nilSliceToEmpty (CreateActionRequest.Tags a))
             (CreateActionRequest.PostToSlack a)
             (CreateActionRequest.SlackMessageFormat a)
             (nilSliceToEmpty (CreateActionRequest.Steps a)) in
  do c {| Method := "POST";
          Path := "/projects/" +:+ url.PathEscape (ProjectID_String projectID) +:+ "/actions";
          Input := Some (InCreateAction a);
          ExpectedCode := http.StatusCreated;
          Output := Some (decodePointer lib (UnmarshalAction lib));
          OutputNilIf404 := false |}.

Definition UpdateAction (c : Client) (projectID : ProjectID) (a : Action.t)
  : Net (option Action.t * option error) :=
  let a := Action.mk
             (Action.ID a) (Action.Name a) (Action.Description a)
             (nilSliceToEmpty (Action.Tags a))
             (Action.PostToSlack a) (Action.SlackMessageFormat a)
             (nilSliceToEmpty (Action.Steps a))
             (Action.Deleted a) (Action.IsCalculating a)
             (Action.CreatedAt a) (Action.LastCalculatedAt a) in
  do c {| Method := "PATCH";
          Path := "/projects/" +:+ url.PathEscape (ProjectID_String projectID)
                  +:+ "/actions/" +:+ url.PathEscape (ActionID_String (Action.ID a));
          Input := Some (InAction a);
          ExpectedCode := http.StatusOK;
          Output := Some (decodePointer lib (UnmarshalAction lib));
          OutputNilIf404 := false |}.

Definition GetAction (c : Client) (projectID : ProjectID) (actionID : ActionID)
  : Net (option Action.t * option error) :=
  do c {| Method := "GET";
          Path := "/projects/" +:+ url.PathEscape (ProjectID_String projectID)
                  +:+ "/actions/" +:+ url.PathEscape (ActionID_String actionID);
          Input := None;
          ExpectedCode := http.StatusOK;
          Output := Some (decodePointer lib (UnmarshalAction lib));
          OutputNilIf404 := true |}.

Definition CreateProject (c : Client) (p : CreateProjectRequest.t)
  : Net (option Project.t * option error) :=
  let p := CreateProjectRequest.mk
             (CreateProjectRequest.Name p) (CreateProjectRequest.AutocaptureOptOut p)
             (CreateProjectRequest.Timezone p)
             (nilSliceToEmpty (CreateProjectRequest.AppURLs p))
             (nilSliceToEmpty (CreateProjectRequest.DataAttributes p))
             (nilSliceToEmpty (CreateProjectRequest.PersonDisplayNameProperties p))
             (CreateProjectRequest.SlackIncomingWebhook p)
             (CreateProjectRequest.AnonymizeIPs p) (CreateProjectRequest.ToolbarMode p)
             (CreateProjectRequest.CapturePerformanceOptIn p)
             (CreateProjectRequest.CaptureConsoleLogOptIn p)
             (CreateProjectRequest.SessionRecordingOptIn p)
             (CreateProjectRequest.SessionRecordingVersion p)
             (nilSliceToEmpty (CreateProjectRequest.RecordingDomains p))
             (CreateProjectRequest.AccessControl p)
             (CreateProjectRequest.CompletedSnippetOnboarding p) in
  do c {| Method := "POST";
          Path := "/projects/";
          Input := Some (InCreateProject p);
          ExpectedCode := http.StatusCreated;
          Output := Some (decodePointer lib (Project_UnmarshalJSON lib));
          OutputNilIf404 := false |}.

Definition UpdateProject (c : Client) (p : Project.t)
  : Net (option Project.t * option error) :=
  let p := Project.mk
             (Project.ID p) (Project.Name p) (Project.AutocaptureOptOut p)
             (Project.Timezone p)
             (nilSliceToEmpty (Project.AppURLs p))
             (nilSliceToEmpty (Project.DataAttributes p))
             (nilSliceToEmpty (Project.PersonDisplayNameProperties p))
             (Project.SlackIncomingWebhook p) (Project.AnonymizeIPs p)
             (Project.ToolbarMode p) (Project.CapturePerformanceOptIn p)
             (Project.CaptureConsoleLogOptIn p) (Project.SessionRecordingOptIn p)
             (Project.SessionRecordingVersion p)
             (nilSliceToEmpty (Project.RecordingDomains p))
             (Project.AccessControl p) (Project.APIToken p)
             (Project.CompletedSnippetOnboarding p)
             (Project.CreatedAt p) (Project.UpdatedAt p) in
  do c {| Method := "PATCH";
          Path := "/projects/" +:+ url.PathEscape (ProjectID_String (Project.ID p));
          Input := Some (InProject p);
          ExpectedCode := http.StatusOK;
          Output := Some (decodePointer lib (Project_UnmarshalJSON lib));
          OutputNilIf404 := false |}.

Definition GetProject (c : Client) (projectID : ProjectID)
  : Net (option Project.t * option error) :=
  do c {| Method := "GET";
          Path := "/projects/" +:+ url.PathEscape (ProjectID_String projectID);
          Input := None;
          ExpectedCode := http.StatusOK;
          Output := Some (decodePointer lib (Project_UnmarshalJSON lib));
          OutputNilIf404 := true |}.

Definition DeleteProject (c : Client) (projectID : ProjectID) : Net (option error) :=
  bind (do (T := unit) c
          {| Method := "DELETE";
             Path := "/projects/" +:+ url.PathEscape (ProjectID_String projectID);
             Input := None;
             ExpectedCode := http.StatusNoContent;
             Output := None;
             OutputNilIf404 := false |})
       (fun out => ret (snd out)).

End Client.

Arguments mkApiRequest {T}.
Arguments Method {T}.
Arguments Path {T}.
Arguments ExpectedCode {T}.
Arguments Input {T}.
Arguments Output {T}.
Arguments OutputNilIf404 {T}.
Arguments Exchange : clear implicits.
Arguments NetState : clear implicits.
Arguments Client : clear implicits.

End posthog.

(** ** Packages strings and sort, as far as the provider uses them *)

(** The first occurrence of the byte [sep] cuts [s] in two. *)
Fixpoint cut (sep : ascii) (s : string) : option (string * string) :=
  match s with
  | EmptyString => None
  | String c rest =>
      if Ascii.eqb c sep then Some (EmptyString, rest)
      else match cut sep rest with
           | Some (before, after) => Some (String c before, after)
           | None => None
           end
  end.

(** [strings.SplitN(s, sep, n)] for a separator of one byte and [n >= 0]: at
    most [n] substrings, the last one being the remainder left unsplit. *)
Fixpoint strings_SplitN (s : string) (sep : ascii) (n : nat) : list string :=
  match n with
  | O => []
  | S O => [s]
  | S n' =>
      match cut sep s with
      | None => [s]
      | Some (before, after) => before :: strings_SplitN after sep n'
      end
  end.

(** The order [<=] of Go strings: byte by byte, a proper prefix first. *)
Definition string_le (a b : string) : Prop := String.leb a b = true.

#[global] Instance string_le_dec (a b : string) : Decision (string_le a b).
Proof. unfold string_le. apply _. Defined.

(** [sort.Strings(x)]: the elements of [x] in increasing order, in place.
    Two strings that compare equal are the same string, so that the sorting
    algorithm cannot be observed; a merge sort stands for it. *)
Definition sort_Strings (x : slice string) : slice string :=
  match x with
  | None => None
  | Some l => Some (merge_sort string_le l)
  end.

(** ** The Terraform plugin framework, as far as the resources use it *)

Module diag.

Inductive Severity : Type := SeverityError | SeverityWarning.

(** The detail text of a diagnostic, kept by the way it was built. *)
Inductive Detail : Type :=
| ErrorText (e : error)                                   (* err.Error() *)
| Sprintf (format : string) (arg : string) (e : error)    (* fmt.Sprintf(format, arg, err) *)
| Text (s : string).

Record Diagnostic : Type := mkDiagnostic {
  severity : Severity;
  Summary : string;
  detail : Detail
}.

Definition Diagnostics : Type := list Diagnostic.

Definition isError (d : Diagnostic) : bool :=
  match severity d with
  | SeverityError => true
  | SeverityWarning => false
  end.

Definition HasError (ds : Diagnostics) : bool := existsb isError ds.

#[global] Instance Severity_eq_dec : EqDecision Severity.
Proof. solve_decision. Defined.

#[global] Instance Detail_eq_dec : EqDecision Detail.
Proof. solve_decision. Defined.

#[global] Instance Diagnostic_eq_dec : EqDecision Diagnostic.
Proof. solve_decision. Defined.

Definition Contains (ds : Diagnostics) (d : Diagnostic) : bool := bool_decide (d ∈ ds).

(** [diags.Append(in...)]: a diagnostic already present is not added again. *)
Definition Append (ds more : Diagnostics) : Diagnostics :=
  fold_left (fun acc d => if Contains acc d then acc else acc ++ [d]) more ds.

Definition AddError (summary : string) (d : Detail) (ds : Diagnostics) : Diagnostics :=
  Append ds [mkDiagnostic SeverityError summary d].

End diag.

Module types.

Inductive String : Type :=
| StringNull
| StringUnknown
| StringValue (s : string).

Definition ValueString (v : String) : string :=
  match v with
  | StringValue s => s
  | _ => ""
  end.

Inductive Bool : Type :=
| BoolNull
| BoolUnknown
| BoolValue (b : bool).

Definition ValueBool (v : Bool) : bool :=
  match v with
  | BoolValue b => b
  | _ => false
  end.

(** A list value whose elements are known and already have their Go type. *)
Inductive List (A : Type) : Type :=
| ListNull
| ListUnknown
| ListValue (l : list A).
Arguments ListNull {A}.
Arguments ListUnknown {A}.
Arguments ListValue {A}.

(** [types.ListValueFrom(ctx, elemType, elements)] for a slice whose element
    type matches [elemType], as it does at every call of the provider: a
    nil slice gives the null list, and no diagnostic is produced. *)
Definition ListValueFrom {A : Type} (elements : slice A) : List A :=
  match elements with
  | None => ListNull
  | Some l => ListValue l
  end.

(** [l.ElementsAs(ctx, &target, allowUnhandled)], as the new value of a nil
    [target] and the diagnostics: a null list leaves the slice nil; an
    unknown list is an error unless [allowUnhandled]. *)
Definition ElementsAs {A : Type} (l : List A) (allowUnhandled : bool)
  : slice A * diag.Diagnostics :=
  match l with
  | ListNull => (None, [])
  | ListUnknown =>
      if allowUnhandled then (None, [])
      else (None, [diag.mkDiagnostic diag.SeverityError "Value Conversion Error"
                     (diag.Text "Received unknown value, however the target type cannot handle unknown values.")])
  | ListValue l => (Some l, [])
  end.

End types.

(** The state of a resource, read as a whole into a model of type [M]
    ([State.Get], with the diagnostics of the conversion). *)
Record tfState (M : Type) : Type := mkTfState {
  State_Get : M;
  State_GetDiags : diag.Diagnostics
}.
Arguments mkTfState {M}.
Arguments State_Get {M}.
Arguments State_GetDiags {M}.


(** ** Package provider: the action resource ([action_resource.go]) *)

Module provider.

Import posthog.

Record matchableValue : Type := mkMatchableValue {
  Value : string;
  Matching : TextMatching
}.

Record matchCustomEvent : Type := mkMatchCustomEvent {
  ce_ID : string;
  ce_Event : string
}.

Record matchPageViewEvent : Type := mkMatchPageViewEvent {
  pv_ID : string;
  pv_URL : matchableValue
}.

Record matchAutocaptureEvent : Type := mkMatchAutocaptureEvent {
  ac_ID : string;
  ac_URL : matchableValue;
  ac_ElementText : matchableValue;
  ac_LinkHref : matchableValue;
  ac_Selector : string
}.

Module actionResourceModel.
Record t : Type := mk {
  ID : types.String;
  ProjectID : types.String;
  Name : types.String;
  Description : types.String;
  Tags : types.List string;
  PostToWebhook : types.Bool;
  WebhookMessageFormat : types.String;
  MatchCustomEvents : types.List matchCustomEvent;
  MatchPageViews : types.List matchPageViewEvent;
  MatchAutocaptures : types.List matchAutocaptureEvent
}.
End actionResourceModel.

Definition sortedStrings (strs : slice string) : slice string :=
  let res := appendAll None strs in
  sort_Strings res.

(** The three lists the loop of [updateActionModel] fills. *)
Record stepLists : Type := mkStepLists {
  matchCustomEventSteps : slice matchCustomEvent;
  matchPageViewEventSteps : slice matchPageViewEvent;
  matchAutocaptureEventSteps : slice matchAutocaptureEvent
}.

(** One turn of the loop: the [switch ev.Event]. *)
Definition partitionStep (acc : stepLists) (ev : ActionStep.t) : stepLists :=
  if String.eqb (ActionStep.Event ev) "$autocapture" then
    mkStepLists (matchCustomEventSteps acc) (matchPageViewEventSteps acc)
      (append (matchAutocaptureEventSteps acc)
         (mkMatchAutocaptureEvent (ActionStep.ID ev)
            (mkMatchableValue (ActionStep.URL ev) (ActionStep.URLMatching ev))
            (mkMatchableValue (ActionStep.Text ev) (ActionStep.TextMatching_ ev))
            (mkMatchableValue (ActionStep.Href ev) (ActionStep.HrefMatching ev))
            (ActionStep.Selector ev)))
  else if String.eqb (ActionStep.Event ev) "$pageview" then
    mkStepLists (matchCustomEventSteps acc)
      (append (matchPageViewEventSteps acc)
         (mkMatchPageViewEvent (ActionStep.ID ev)
            (mkMatchableValue (ActionStep.URL ev) (ActionStep.URLMatching ev))))
      (matchAutocaptureEventSteps acc)
  else
    mkStepLists
      (append (matchCustomEventSteps acc)
         (mkMatchCustomEvent (ActionStep.ID ev) (ActionStep.Event ev)))
      (matchPageViewEventSteps acc) (matchAutocaptureEventSteps acc).

Definition partitionSteps (steps : slice ActionStep.t) : stepLists :=
  fold_left partitionStep (elems steps) (mkStepLists None None None).

(** [updateActionModel(ctx, model, apiAction)]: the model after the call and
    the diagnostics.  [types.ListValueFrom] gives no diagnostic here, so the
    early returns of the source are never taken. *)
Definition updateActionModel (model : actionResourceModel.t) (apiAction : Action.t)
  : actionResourceModel.t * diag.Diagnostics :=
  let lists := partitionSteps (Action.Steps apiAction) in
  (actionResourceModel.mk
     (types.StringValue (ActionID_String (Action.ID apiAction)))
     (actionResourceModel.ProjectID model)
     (types.StringValue (Action.Name apiAction))
     (types.StringValue (Action.Description apiAction))
     (types.ListValueFrom (sortedStrings (Action.Tags apiAction)))
     (types.BoolValue (Action.PostToSlack apiAction))
     (types.StringValue (Action.SlackMessageFormat apiAction))
     (types.ListValueFrom (matchCustomEventSteps lists))
     (types.ListValueFrom (matchPageViewEventSteps lists))
     (types.ListValueFrom (matchAutocaptureEventSteps lists)),
   []).

(** The three loops of [actionFromModel] that rebuild [action.Steps]. *)
Definition appendCustomEvents (steps : slice ActionStep.t) (evs : slice matchCustomEvent)
  : slice ActionStep.t :=
  fold_left (fun steps ev =>
    append steps (ActionStep.mk (ce_ID ev) (ce_Event ev) "" "" "" "" "" "" ""))
    (elems evs) steps.

Definition appendPageViews (steps : slice ActionStep.t) (evs : slice matchPageViewEvent)
  : slice ActionStep.t :=
  fold_left (fun steps ev =>
    append steps (ActionStep.mk (pv_ID ev) "$pageview"
                    (Value (pv_URL ev)) (Matching (pv_URL ev)) "" "" "" "" ""))
    (elems evs) steps.

Definition appendAutocaptures (steps : slice ActionStep.t) (evs : slice matchAutocaptureEvent)
  : slice ActionStep.t :=
  fold_left (fun steps ev =>
    append steps (ActionStep.mk (ac_ID ev) "$autocapture"
                    (Value (ac_URL ev)) (Matching (ac_URL ev))
                    (Value (ac_ElementText ev)) (Matching (ac_ElementText ev))
                    (Value (ac_LinkHref ev)) (Matching (ac_LinkHref ev))
                    (ac_Selector ev)))
    (elems evs) steps.

Definition actionFromModel (data : actionResourceModel.t)
  : ProjectID * Action.t * diag.Diagnostics :=
  let diags : diag.Diagnostics := [] in
  let '(projectID, err) :=
    ProjectIDFromString (types.ValueString (actionResourceModel.ProjectID data)) in
  match err with
  | Some e => (0, Action.zero, diag.AddError "Invalid project ID" (diag.ErrorText (ErrNum e)) diags)
  | None =>
  let '(actionID, err) :=
    ActionIDFromString (types.ValueString (actionResourceModel.ID data)) in
  match err with
  | Some e => (0, Action.zero, diag.AddError "Invalid action ID" (diag.ErrorText (ErrNum e)) diags)
  | None =>
  let '(tags, d) := types.ElementsAs (actionResourceModel.Tags data) false in
  let diags := diag.Append diags d in
  if diag.HasError diags then (0, Action.zero, diags) else
  (* Decode custom event steps *)
  let '(matchCustomEvents, d) :=
    types.ElementsAs (actionResourceModel.MatchCustomEvents data) false in
  let diags := diag.Append diags d in
  if diag.HasError diags then (0, Action.zero, diags) else
  let steps := appendCustomEvents None matchCustomEvents in
  (* Decode page view steps *)
  let '(matchPageViewEvents, d) :=
    types.ElementsAs (actionResourceModel.MatchPageViews data) false in
  let diags := diag.Append diags d in
  if diag.HasError diags then (0, Action.zero, diags) else
  let steps := appendPageViews steps matchPageViewEvents in
  (* Decode autocapture steps *)
  let '(matchAutocaptureEvents, d) :=
    types.ElementsAs (actionResourceModel.MatchAutocaptures data) false in
  let diags := diag.Append diags d in
  if diag.HasError diags then (0, Action.zero, diags) else
  let steps := appendAutocaptures steps matchAutocaptureEvents in
  (projectID,
   Action.mk actionID
     (types.ValueString (actionResourceModel.Name data))
     (types.ValueString (actionResourceModel.Description data))
     tags false "" steps false false zeroTime zeroTime,
   diags)
  end
  end.

Section Resources.
Context {W : Type} (lib : Lib).

Record actionResource : Type := mkActionResource {
  client : Client W
}.

Record DeleteRequest : Type := mkDeleteRequest {
  dr_State : tfState actionResourceModel.t
}.

Record DeleteResponse : Type := mkDeleteResponse {
  dp_Diagnostics : diag.Diagnostics
}.

(** [actionResource.Delete] *)
Definition Delete (r : actionResource) (req : DeleteRequest) (resp : DeleteResponse)
  : Net (W := W) DeleteResponse :=
  let data := State_Get (dr_State req) in
  let resp := mkDeleteResponse
                (diag.Append (dp_Diagnostics resp) (State_GetDiags (dr_State req))) in
  if diag.HasError (dp_Diagnostics resp) then ret resp else
  let '(projectID, action, diags) := actionFromModel data in
  let resp := mkDeleteResponse (diag.Append (dp_Diagnostics resp) diags) in
  if diag.HasError (dp_Diagnostics resp) then ret resp else
  let action := Action.mk
                  (Action.ID action) (Action.Name action) (Action.Description action)
                  (Action.Tags action) (Action.PostToSlack action)
                  (Action.SlackMessageFormat action) (Action.Steps action)
                  true (Action.IsCalculating action)
                  (Action.CreatedAt action) (Action.LastCalculatedAt action) in
  bind (UpdateAction lib (client r) projectID action) (fun out =>
    match snd out with
    | Some err =>
        ret (mkDeleteResponse
               (diag.AddError "Client Error"
                  (diag.Sprintf "Error deleting action %s: %s"
                     (ActionID_String (Action.ID action)) err)
                  (dp_Diagnostics resp)))
    | None => ret resp
    end).

End Resources.

Definition parseImportID (s : string) : ProjectID * ActionID * option error :=
  let tokens := strings_SplitN s "/" 2 in
  match tokens with
  | [token0; token1] =>
      let '(projectID, err) := ProjectIDFromString token0 in
      match err with
      | Some e => (0, 0, Some (ErrInvalidProjectID e))
      | None =>
          let '(actionID, err) := ActionIDFromString token1 in
          match err with
          | Some e => (0, 0, Some (ErrInvalidActionID e))
          | None => (projectID, actionID, None)
          end
      end
  | _ => (0, 0, Some ErrImportIDForm)
  end.

Record ImportStateRequest : Type := mkImportStateRequest {
  ir_ID : string
}.

(** The state under construction is a map from root attributes to the
    strings set so far. *)
Record ImportStateResponse : Type := mkImportStateResponse {
  ip_Diagnostics : diag.Diagnostics;
  ip_State : gmap string string
}.

(** [resp.Diagnostics.Append(resp.State.SetAttribute(ctx, path.Root(name), value)...)]
    for a string attribute of the schema: the attribute is written and no
    diagnostic is produced. *)
Definition SetAttribute (name value : string) (resp : ImportStateResponse)
  : ImportStateResponse :=
  mkImportStateResponse (diag.Append (ip_Diagnostics resp) [])
    (<[name := value]> (ip_State resp)).

(** [actionResource.ImportState] *)
Definition actionResource_ImportState (req : ImportStateRequest) (resp : ImportStateResponse)
  : ImportStateResponse :=
  let '(projectID, actionID, err) := parseImportID (ir_ID req) in
  let resp :=
    match err with
    | Some e =>
        mkImportStateResponse
          (diag.AddError "Invalid import ID" (diag.ErrorText e) (ip_Diagnostics resp))
          (ip_State resp)
    | None => resp
    end in
  let resp := SetAttribute "id" (ActionID_String actionID) resp in
  if diag.HasError (ip_Diagnostics resp) then resp else
  SetAttribute "project_id" (ProjectID_String projectID) resp.

(** ** Package provider: the project resource ([project_resource.go]) *)

Module projectResourceModel.
Record t : Type := mk {
  ID : types.String;
  Name : types.String;
  DisableAutocapture : types.Bool;
  Timezone : types.String;
  AuthorizedURLs : types.List string;
  DataAttributes : types.List string;
  PersonDisplayNameProperties : types.List string;
  WebhookURL : types.String;
  AnonymizeIPs : types.Bool;
  EnableToolbar : types.Bool;
  RecordUserSessions : types.Bool;
  CaptureConsoleLogs : types.Bool;
  CaptureNetworkPerformance : types.Bool;
  UseSessionRecorderV2 : types.Bool;
  AuthorizedSessionRecordingURLs : types.List string;
  EnableAccessControl : types.Bool;
  APIToken : types.String
}.
End projectResourceModel.

(** [updateProjectModel(ctx, model, apiProject)]; as for the action model,
    [types.ListValueFrom] gives no diagnostic. *)
Definition updateProjectModel (model : projectResourceModel.t) (apiProject : Project.t)
  : projectResourceModel.t * diag.Diagnostics :=
  (projectResourceModel.mk
     (types.StringValue (ProjectID_String (Project.ID apiProject)))
     (types.StringValue (Project.Name apiProject))
     (types.BoolValue (Project.AutocaptureOptOut apiProject))
     (types.StringValue (Project.Timezone apiProject))
     (types.ListValueFrom (sortedStrings (Project.AppURLs apiProject)))
     (types.ListValueFrom (sortedStrings (Project.DataAttributes apiProject)))
     (types.ListValueFrom (sortedStrings (Project.PersonDisplayNameProperties apiProject)))
     (types.StringValue (Project.SlackIncomingWebhook apiProject))
     (types.BoolValue (Project.AnonymizeIPs apiProject))
     (types.BoolValue (String.eqb (Project.ToolbarMode apiProject) ProjectToolbarModeToolbar))
     (types.BoolValue (Project.SessionRecordingOptIn apiProject))
     (types.BoolValue (Project.CaptureConsoleLogOptIn apiProject))
     (types.BoolValue (Project.CapturePerformanceOptIn apiProject))
     (types.BoolValue (String.eqb (Project.SessionRecordingVersion apiProject)
                         ProjectSessionRecordingVersionV2))
     (types.ListValueFrom (sortedStrings (Project.RecordingDomains apiProject)))
     (types.BoolValue (Project.AccessControl apiProject))
     (types.StringValue (Project.APIToken apiProject)),
   []).

(** [projectResource.ImportState] *)
Definition projectResource_ImportState (req : ImportStateRequest) (resp : ImportStateResponse)
  : ImportStateResponse :=
  let '(projectID, err) := ProjectIDFromString (ir_ID req) in
  let resp :=
    match err with
    | Some e =>
        mkImportStateResponse
          (diag.AddError "Invalid project ID" (diag.ErrorText (ErrNum e)) (ip_Diagnostics resp))
          (ip_State resp)
    | None => resp
    end in
  SetAttribute "id" (ProjectID_String projectID) resp.

End provider.


(** ** Notions the statements use *)

(** Decimal digits without a superfluous leading zero. *)
Definition noLeadingZeroL (l : list ascii) : bool :=
  match l with
  | c :: _ :: _ => negb (Ascii.eqb c "0")
  | _ => true
  end.

Definition noLeadingZero (s : string) : bool := noLeadingZeroL (list_ascii_of_string s).

Inductive StepKind : Type := CustomEvent | PageView | Autocapture.

(** The kind the [switch] of [updateActionModel] gives a step. *)
Definition stepKind (ev : posthog.ActionStep.t) : StepKind :=
  if String.eqb (posthog.ActionStep.Event ev) "$autocapture" then Autocapture
  else if String.eqb (posthog.ActionStep.Event ev) "$pageview" then PageView
  else CustomEvent.

Definition isKind (k : StepKind) (ev : posthog.ActionStep.t) : bool :=
  match k, stepKind ev with
  | CustomEvent, CustomEvent | PageView, PageView | Autocapture, Autocapture => true
  | _, _ => false
  end.

(** The fields of a step that the local model of its kind has: the
    identifier and the event for a custom event, the URL matcher as well for
    a page view, everything for an autocapture. *)
Definition keptFields (ev : posthog.ActionStep.t) : posthog.ActionStep.t :=
  match stepKind ev with
  | Autocapture => ev
  | PageView =>
      posthog.ActionStep.mk (posthog.ActionStep.ID ev) (posthog.ActionStep.Event ev)
        (posthog.ActionStep.URL ev) (posthog.ActionStep.URLMatching ev) "" "" "" "" ""
  | CustomEvent =>
      posthog.ActionStep.mk (posthog.ActionStep.ID ev) (posthog.ActionStep.Event ev)
        "" "" "" "" "" "" ""
  end.

(** The ordering convention of a flat step list: custom events, then page
    views, then autocaptures. *)
Definition followsConvention (steps : list posthog.ActionStep.t) : Prop :=
  exists cs ps acs,
    steps = cs ++ ps ++ acs
    /\ Forall (fun ev => stepKind ev = CustomEvent) cs
    /\ Forall (fun ev => stepKind ev = PageView) ps
    /\ Forall (fun ev => stepKind ev = Autocapture) acs.

(** The steps regrouped by kind, each reduced to the fields of its kind. *)
Definition regrouped (l : list posthog.ActionStep.t) : list posthog.ActionStep.t :=
  map keptFields (List.filter (isKind CustomEvent) l ++ List.filter (isKind PageView) l
                  ++ List.filter (isKind Autocapture) l).

(** The local entries the loop of [updateActionModel] builds from a step. *)
Definition toCustom (ev : posthog.ActionStep.t) : provider.matchCustomEvent :=
  provider.mkMatchCustomEvent (posthog.ActionStep.ID ev) (posthog.ActionStep.Event ev).

Definition toPageView (ev : posthog.ActionStep.t) : provider.matchPageViewEvent :=
  provider.mkMatchPageViewEvent (posthog.ActionStep.ID ev)
    (provider.mkMatchableValue (posthog.ActionStep.URL ev) (posthog.ActionStep.URLMatching ev)).

Definition toAutocapture (ev : posthog.ActionStep.t) : provider.matchAutocaptureEvent :=
  provider.mkMatchAutocaptureEvent (posthog.ActionStep.ID ev)
    (provider.mkMatchableValue (posthog.ActionStep.URL ev) (posthog.ActionStep.URLMatching ev))
    (provider.mkMatchableValue (posthog.ActionStep.Text ev) (posthog.ActionStep.TextMatching_ ev))
    (provider.mkMatchableValue (posthog.ActionStep.Href ev) (posthog.ActionStep.HrefMatching ev))
    (posthog.ActionStep.Selector ev).

(** What [do] answers once the transport has come back with [res]. *)
Definition answerTo {T : Type} (r : posthog.apiRequest T) (res : string + http.Response)
  : option T * option error :=
  match res with
  | inl err => (None, Some (ErrDoingRequest err))
  | inr res =>
      if posthog.OutputNilIf404 r && (http.StatusCode res =? 404)%Z
      then posthog.decodeOutput r "null"
      else if negb (http.StatusCode res =? posthog.ExpectedCode r)%Z then
        (None, Some (ErrUnexpectedStatus (posthog.ExpectedCode r) (http.StatusCode res)
                       (http.ResponseBody res)))
      else posthog.decodeOutput r (http.ResponseBody res)
  end.

(** The action [Delete] sends: the one of the state, marked deleted. *)
Definition markedDeleted (action : posthog.Action.t) : posthog.Action.t :=
  posthog.Action.mk (posthog.Action.ID action) (posthog.Action.Name action)
    (posthog.Action.Description action) (posthog.Action.Tags action)
    (posthog.Action.PostToSlack action) (posthog.Action.SlackMessageFormat action)
    (posthog.Action.Steps action) true (posthog.Action.IsCalculating action)
    (posthog.Action.CreatedAt action) (posthog.Action.LastCalculatedAt action).

(** ** Test doubles

    A library whose request check always passes, and transports that answer
    every request the same way, over a remote side without state. *)

Module double.

Import posthog.

Definition sampleAction : Action.t :=
  Action.mk 7 "Signed up" "" (Some ["web"; "growth"]) false ""
    (Some [ActionStep.mk "s1" "signup" "" "" "" "" "" "" "";
           ActionStep.mk "s2" "$pageview" "/signup" "contains" "" "" "" "" "";
           ActionStep.mk "s3" "$autocapture" "/signup" "contains" "Sign up" "exact"
             "" "" ".button"])
    false false zeroTime zeroTime.

(** A library that takes any stream for one value, and decodes any value
    to the same action and to the same project, whose toolbar mode is
    empty. *)
Definition lib : Lib :=
  mkLib (fun _ _ => None)
        (fun body => inr body)
        (fun _ => (sampleAction, None))
        (fun _ => (Project.mk 1 "t" false "UTC" None None None "" false ""
                     false false true "v2" None false "phc_token" true
                     zeroTime zeroTime, None)).

Definition answering (status : Z) (body : string) : Client unit :=
  mkClient (fun _ w => (inr (http.mkResponse status body), w))
           "https://app.posthog.com" "phx_key".

Definition start : NetState unit := mkNetState tt [].

Definition sampleModel : provider.actionResourceModel.t :=
  provider.actionResourceModel.mk
    (types.StringValue "5") (types.StringValue "42")
    (types.StringValue "Signed up") (types.StringValue "")
    types.ListNull (types.BoolValue false) (types.StringValue "")
    (types.ListValue [provider.mkMatchCustomEvent "s1" "signup"])
    types.ListNull types.ListNull.

End double.


(** ** Package provider: creating, reading and updating

    The operations of the two resources next to [Delete] and [ImportState],
    the translation of a project model, and the configuration of the
    provider. *)

(** What the resources take from [fmt] and from the framework to word a
    diagnostic: [fmt.Sprintf(format, err)] for a format with one verb, and
    the [String] method of a [types.String]. *)
Record Fmt : Type := mkFmt {
  Sprintf_err : string -> error -> string;
  String_String : types.String -> string
}.

(** An operation returns, or stops on a nil pointer dereference. *)
Inductive completion (A : Type) : Type :=
| Returns (a : A)
| Panics.
Arguments Returns {A}.
Arguments Panics {A}.

Module resource.

(** [req.Plan.Get] and [req.State.Get] read a model of type [M]. *)
Record CreateRequest (M : Type) : Type := mkCreateRequest { cq_Plan : tfState M }.
Record ReadRequest (M : Type) : Type := mkReadRequest { rq_State : tfState M }.
Record UpdateRequest (M : Type) : Type := mkUpdateRequest { uq_Plan : tfState M }.
Record DeleteRequest (M : Type) : Type := mkDeleteRequest { dq_State : tfState M }.
Arguments mkCreateRequest {M}.
Arguments cq_Plan {M}.
Arguments mkReadRequest {M}.
Arguments rq_State {M}.
Arguments mkUpdateRequest {M}.
Arguments uq_Plan {M}.
Arguments mkDeleteRequest {M}.
Arguments dq_State {M}.

(** The response of an operation: its diagnostics and the state it leaves,
    [None] once [State.RemoveResource] was called (and before a creation),
    [Some data] after [State.Set(ctx, &data)], which gives no diagnostic for
    a model that matches the schema. *)
Record Response (M : Type) : Type := mkResponse {
  Diagnostics : diag.Diagnostics;
  State : option M
}.
Arguments mkResponse {M}.
Arguments Diagnostics {M}.
Arguments State {M}.

End resource.

Module typeutil.

Definition IsNull (v : types.String) : bool :=
  match v with
  | types.StringNull => true
  | _ => false
  end.

Definition IsUnknown (v : types.String) : bool :=
  match v with
  | types.StringUnknown => true
  | _ => false
  end.

Definition IsStringValueUnset (v : types.String) : bool :=
  IsNull v || IsUnknown v || String.eqb (types.ValueString v) "".

Definition NullableStringValue (s : string) : types.String :=
  if String.eqb s "" then types.StringNull else types.StringValue s.

End typeutil.

Module action_resource.

Import posthog provider.

(** The three loops of [Create] that build [createActionRequest.Steps]. *)
Definition createCustomEvents (steps : slice CreateActionStepRequest.t)
  (evs : slice matchCustomEvent) : slice CreateActionStepRequest.t :=
  fold_left (fun steps ev =>
    append steps (CreateActionStepRequest.mk (ce_Event ev) "" "" "" "" "" "" ""))
    (elems evs) steps.

Definition createPageViews (steps : slice CreateActionStepRequest.t)
  (evs : slice matchPageViewEvent) : slice CreateActionStepRequest.t :=
  fold_left (fun steps ev =>
    append steps (CreateActionStepRequest.mk "$pageview"
                    (Value (pv_URL ev)) (Matching (pv_URL ev)) "" "" "" "" ""))
    (elems evs) steps.

Definition createAutocaptures (steps : slice CreateActionStepRequest.t)
  (evs : slice matchAutocaptureEvent) : slice CreateActionStepRequest.t :=
  fold_left (fun steps ev =>
    append steps (CreateActionStepRequest.mk "$autocapture"
                    (Value (ac_URL ev)) (Matching (ac_URL ev))
                    (Value (ac_ElementText ev)) (Matching (ac_ElementText ev))
                    (Value (ac_LinkHref ev)) (Matching (ac_LinkHref ev))
                    (ac_Selector ev)))
    (elems evs) steps.

Section Operations.
Context {W : Type} (lib : Lib) (fmt : Fmt).

(** [actionResource.Create].  [updateActionModel] reads the fields of the
    action the client returned: a nil action stops the operation. *)
Definition Create (r : actionResource (W := W))
  (req : resource.CreateRequest actionResourceModel.t) (resp : resource.Response actionResourceModel.t)
  : Net (W := W) (completion (resource.Response actionResourceModel.t)) :=
  let data := State_Get (resource.cq_Plan req) in
  let diags := diag.Append (resource.Diagnostics resp) (State_GetDiags (resource.cq_Plan req)) in
  if diag.HasError diags then ret (Returns (resource.mkResponse diags (resource.State resp))) else
  let '(tags, d) := types.ElementsAs (actionResourceModel.Tags data) false in
  let diags := diag.Append diags d in
  if diag.HasError diags then ret (Returns (resource.mkResponse diags (resource.State resp))) else
  (* Decode custom event steps *)
  let '(matchCustomEvents, d) :=
    types.ElementsAs (actionResourceModel.MatchCustomEvents data) true in
  let diags := diag.Append diags d in
  if diag.HasError diags then ret (Returns (resource.mkResponse diags (resource.State resp))) else
  let steps := createCustomEvents None matchCustomEvents in
  (* Decode page view steps *)
  let '(matchPageViewEvents, d) :=
    types.ElementsAs (actionResourceModel.MatchPageViews data) true in
  let diags := diag.Append diags d in
  if diag.HasError diags then ret (Returns (resource.mkResponse diags (resource.State resp))) else
  let steps := createPageViews steps matchPageViewEvents in
  (* Decode autocapture steps *)
  let '(matchAutocaptureEvents, d) :=
    types.ElementsAs (actionResourceModel.MatchAutocaptures data) true in
  let diags := diag.Append diags d in
  if diag.HasError diags then ret (Returns (resource.mkResponse diags (resource.State resp))) else
  let steps := createAutocaptures steps matchAutocaptureEvents in
  let createActionRequest :=
    CreateActionRequest.mk
      (types.ValueString (actionResourceModel.Name data))
      (types.ValueString (actionResourceModel.Description data))
      tags
      (types.ValueBool (actionResourceModel.PostToWebhook data))
      (types.ValueString (actionResourceModel.WebhookMessageFormat data))
      steps in
  (* Create the action *)
  let '(projectID, err) :=
    ProjectIDFromString (types.ValueString (actionResourceModel.ProjectID data)) in
  match err with
  | Some e =>
      ret (Returns (resource.mkResponse
                      (diag.AddError "Invalid project ID" (diag.ErrorText (ErrNum e)) diags)
                      (resource.State resp)))
  | None =>
      bind (CreateAction lib (client r) projectID createActionRequest) (fun out =>
        match snd out with
        | Some err =>
            ret (Returns (resource.mkResponse
                            (diag.AddError "Client Error"
                               (diag.Text (Sprintf_err fmt "Error creating action: %s" err))
                               diags)
                            (resource.State resp)))
        | None =>
            match fst out with
            | None => ret Panics
            | Some res =>
                let '(data, d) := updateActionModel data res in
                let diags := diag.Append diags d in
                if diag.HasError diags
                then ret (Returns (resource.mkResponse diags (resource.State resp)))
                else ret (Returns (resource.mkResponse (diag.Append diags []) (Some data)))
            end
        end)
  end.

(** [actionResource.Read] *)
Definition Read (r : actionResource (W := W))
  (req : resource.ReadRequest actionResourceModel.t) (resp : resource.Response actionResourceModel.t)
  : Net (W := W) (completion (resource.Response actionResourceModel.t)) :=
  let data := State_Get (resource.rq_State req) in
  let diags := diag.Append (resource.Diagnostics resp) (State_GetDiags (resource.rq_State req)) in
  if diag.HasError diags then ret (Returns (resource.mkResponse diags (resource.State resp))) else
  let '(projectID, err) :=
    ProjectIDFromString (types.ValueString (actionResourceModel.ProjectID data)) in
  match err with
  | Some e =>
      ret (Returns (resource.mkResponse
                      (diag.AddError "Invalid project ID" (diag.ErrorText (ErrNum e)) diags)
                      (resource.State resp)))
  | None =>
  let '(actionID, err) :=
    ActionIDFromString (types.ValueString (actionResourceModel.ID data)) in
  match err with
  | Some e =>
      ret (Returns (resource.mkResponse
                      (diag.AddError "Invalid action ID" (diag.ErrorText (ErrNum e)) diags)
                      (resource.State resp)))
  | None =>
      bind (GetAction lib (client r) projectID actionID) (fun out =>
        match snd out with
        | Some err =>
            ret (Returns (resource.mkResponse
                            (diag.AddError "Client Error"
                               (diag.Sprintf "Error getting action %s: %s"
                                  (String_String fmt (actionResourceModel.ID data)) err)
                               diags)
                            (resource.State resp)))
        | None =>
            match fst out with
            | None => ret (Returns (resource.mkResponse diags None))
            | Some res =>
                let '(data, d) := updateActionModel data res in
                let diags := diag.Append diags d in
                if diag.HasError diags
                then ret (Returns (resource.mkResponse diags (resource.State resp)))
                else if Action.Deleted res
                then ret (Returns (resource.mkResponse diags None))
                else ret (Returns (resource.mkResponse (diag.Append diags []) (Some data)))
            end
        end)
  end
  end.

(** [actionResource.Update]; a nil action stops it as it stops [Create]. *)
Definition Update (r : actionResource (W := W))
  (req : resource.UpdateRequest actionResourceModel.t) (resp : resource.Response actionResourceModel.t)
  : Net (W := W) (completion (resource.Response actionResourceModel.t)) :=
  let data := State_Get (resource.uq_Plan req) in
  let diags := diag.Append (resource.Diagnostics resp) (State_GetDiags (resource.uq_Plan req)) in
  if diag.HasError diags then ret (Returns (resource.mkResponse diags (resource.State resp))) else
  let '(projectID, action, d) := actionFromModel data in
  let diags := diag.Append diags d in
  if diag.HasError diags then ret (Returns (resource.mkResponse diags (resource.State resp))) else
  bind (UpdateAction lib (client r) projectID action) (fun out =>
    match snd out with
    | Some err =>
        ret (Returns (resource.mkResponse
                        (diag.AddError "Client Error"
                           (diag.Sprintf "Error updating action %s: %s"
                              (ActionID_String (Action.ID action)) err)
                           diags)
                        (resource.State resp)))
    | None =>
        match fst out with
        | None => ret Panics
        | Some res =>
            let '(data, d) := updateActionModel data res in
            let diags := diag.Append diags d in
            if diag.HasError diags
            then ret (Returns (resource.mkResponse diags (resource.State resp)))
            else ret (Returns (resource.mkResponse (diag.Append diags []) (Some data)))
        end
    end).

End Operations.

End action_resource.

Module project_resource.

Import posthog provider.

Record projectResource {W : Type} : Type := mkProjectResource {
  client : Client W
}.
Arguments mkProjectResource {W}.

Definition projectFromModel (data : projectResourceModel.t) : Project.t * diag.Diagnostics :=
  let diags : diag.Diagnostics := [] in
  let '(projectID, err) :=
    ProjectIDFromString (types.ValueString (projectResourceModel.ID data)) in
  match err with
  | Some e =>
      (Project.zero, diag.AddError "Invalid project ID" (diag.ErrorText (ErrNum e)) diags)
  | None =>
  let '(appURLs, d) := types.ElementsAs (projectResourceModel.AuthorizedURLs data) false in
  let diags := diag.Append diags d in
  if diag.HasError diags then (Project.zero, diags) else
  let '(dataAttributes, d) := types.ElementsAs (projectResourceModel.DataAttributes data) false in
  let diags := diag.Append diags d in
  if diag.HasError diags then (Project.zero, diags) else
  let '(personDisplayNameProperties, d) :=
    types.ElementsAs (projectResourceModel.PersonDisplayNameProperties data) false in
  let diags := diag.Append diags d in
  if diag.HasError diags then (Project.zero, diags) else
  let toolbarMode :=
    if types.ValueBool (projectResourceModel.EnableToolbar data)
    then ProjectToolbarModeToolbar else ProjectToolbarModeDisabled in
  let sessionRecordingVersion :=
    if types.ValueBool (projectResourceModel.UseSessionRecorderV2 data)
    then ProjectSessionRecordingVersionV2 else ProjectSessionRecordingVersionV1 in
  let '(recordingDomains, d) :=
    types.ElementsAs (projectResourceModel.AuthorizedSessionRecordingURLs data) false in
  let diags := diag.Append diags d in
  if diag.HasError diags then (Project.zero, diags) else
  (Project.mk projectID
     (types.ValueString (projectResourceModel.Name data))
     (types.ValueBool (projectResourceModel.DisableAutocapture data))
     (types.ValueString (projectResourceModel.Timezone data))
     appURLs dataAttributes personDisplayNameProperties
     (types.ValueString (projectResourceModel.WebhookURL data))
     (types.ValueBool (projectResourceModel.AnonymizeIPs data))
     toolbarMode
     (types.ValueBool (projectResourceModel.CaptureNetworkPerformance data))
     false
     (types.ValueBool (projectResourceModel.RecordUserSessions data))
     sessionRecordingVersion
     recordingDomains
     (types.ValueBool (projectResourceModel.EnableAccessControl data))
     (types.ValueString (projectResourceModel.APIToken data))
     false zeroTime zeroTime,
   diags)
  end.

Section Operations.
Context {W : Type} (lib : Lib) (fmt : Fmt).

(** [projectResource.Create]; as for an action, [updateProjectModel] reads
    the project the client returned, and a nil project stops the
    operation. *)
Definition Create (r : projectResource (W := W))
  (req : resource.CreateRequest projectResourceModel.t)
  (resp : resource.Response projectResourceModel.t)
  : Net (W := W) (completion (resource.Response projectResourceModel.t)) :=
  let data := State_Get (resource.cq_Plan req) in
  let diags := diag.Append (resource.Diagnostics resp) (State_GetDiags (resource.cq_Plan req)) in
  if diag.HasError diags then ret (Returns (resource.mkResponse diags (resource.State resp))) else
  let '(appURLs, d) := types.ElementsAs (projectResourceModel.AuthorizedURLs data) false in
  let diags := diag.Append diags d in
  if diag.HasError diags then ret (Returns (resource.mkResponse diags (resource.State resp))) else
  let '(dataAttributes, d) := types.ElementsAs (projectResourceModel.DataAttributes data) false in
  let diags := diag.Append diags d in
  if diag.HasError diags then ret (Returns (resource.mkResponse diags (resource.State resp))) else
  let '(personDisplayNameProperties, d) :=
    types.ElementsAs (projectResourceModel.PersonDisplayNameProperties data) false in
  let diags := diag.Append diags d in
  if diag.HasError diags then ret (Returns (resource.mkResponse diags (resource.State resp))) else
  let toolbarMode :=
    if types.ValueBool (projectResourceModel.EnableToolbar data)
    then ProjectToolbarModeToolbar else ProjectToolbarModeDisabled in
  let sessionRecordingVersion :=
    if types.ValueBool (projectResourceModel.UseSessionRecorderV2 data)
    then ProjectSessionRecordingVersionV2 else ProjectSessionRecordingVersionV1 in
  let '(recordingDomains, d) :=
    types.ElementsAs (projectResourceModel.AuthorizedSessionRecordingURLs data) false in
  let diags := diag.Append diags d in
  if diag.HasError diags then ret (Returns (resource.mkResponse diags (resource.State resp))) else
  let createProjectRequest :=
    CreateProjectRequest.mk
      (types.ValueString (projectResourceModel.Name data))
      (types.ValueBool (projectResourceModel.DisableAutocapture data))
      (types.ValueString (projectResourceModel.Timezone data))
      appURLs dataAttributes personDisplayNameProperties
      (types.ValueString (projectResourceModel.WebhookURL data))
      (types.ValueBool (projectResourceModel.AnonymizeIPs data))
      toolbarMode
      (types.ValueBool (projectResourceModel.CaptureNetworkPerformance data))
      (types.ValueBool (projectResourceModel.CaptureConsoleLogs data))
      (types.ValueBool (projectResourceModel.RecordUserSessions data))
      sessionRecordingVersion
      recordingDomains
      (types.ValueBool (projectResourceModel.EnableAccessControl data))
      true in
  (* Create the project *)
  bind (CreateProject lib (client r) createProjectRequest) (fun out =>
    match snd out with
    | Some err =>
        ret (Returns (resource.mkResponse
                        (diag.AddError "Client Error"
                           (diag.Text (Sprintf_err fmt "Error creating action: %s" err))
                           diags)
                        (resource.State resp)))
    | None =>
        match fst out with
        | None => ret Panics
        | Some res =>
            let '(data, d) := updateProjectModel data res in
            let diags := diag.Append diags d in
            if diag.HasError diags
            then ret (Returns (resource.mkResponse diags (resource.State resp)))
            else ret (Returns (resource.mkResponse (diag.Append diags []) (Some data)))
        end
    end).

(** [projectResource.Read] *)
Definition Read (r : projectResource (W := W))
  (req : resource.ReadRequest projectResourceModel.t)
  (resp : resource.Response projectResourceModel.t)
  : Net (W := W) (completion (resource.Response projectResourceModel.t)) :=
  let data := State_Get (resource.rq_State req) in
  let diags := diag.Append (resource.Diagnostics resp) (State_GetDiags (resource.rq_State req)) in
  if diag.HasError diags then ret (Returns (resource.mkResponse diags (resource.State resp))) else
  let '(projectID, err) :=
    ProjectIDFromString (types.ValueString (projectResourceModel.ID data)) in
  match err with
  | Some e =>
      ret (Returns (resource.mkResponse
                      (diag.AddError "Invalid project ID" (diag.ErrorText (ErrNum e)) diags)
                      (resource.State resp)))
  | None =>
      bind (GetProject lib (client r) projectID) (fun out =>
        match snd out with
        | Some err =>
            ret (Returns (resource.mkResponse
                            (diag.AddError "Client Error"
                               (diag.Sprintf "Error getting project %s: %s"
                                  (String_String fmt (projectResourceModel.ID data)) err)
                               diags)
                            (resource.State resp)))
        | None =>
            match fst out with
            | None => ret (Returns (resource.mkResponse diags None))
            | Some res =>
                let '(data, d) := updateProjectModel data res in
                let diags := diag.Append diags d in
                if diag.HasError diags
                then ret (Returns (resource.mkResponse diags (resource.State resp)))
                else ret (Returns (resource.mkResponse (diag.Append diags []) (Some data)))
            end
        end)
  end.

(** [projectResource.Update] *)
Definition Update (r : projectResource (W := W))
  (req : resource.UpdateRequest projectResourceModel.t)
  (resp : resource.Response projectResourceModel.t)
  : Net (W := W) (completion (resource.Response projectResourceModel.t)) :=
  let data := State_Get (resource.uq_Plan req) in
  let diags := diag.Append (resource.Diagnostics resp) (State_GetDiags (resource.uq_Plan req)) in
  if diag.HasError diags then ret (Returns (resource.mkResponse diags (resource.State resp))) else
  let '(project, d) := projectFromModel data in
  let diags := diag.Append diags d in
  if diag.HasError diags then ret (Returns (resource.mkResponse diags (resource.State resp))) else
  bind (UpdateProject lib (client r) project) (fun out =>
    match snd out with
    | Some err =>
        ret (Returns (resource.mkResponse
                        (diag.AddError "Client Error"
                           (diag.Sprintf "Error updating project %s: %s"
                              (ProjectID_String (Project.ID project)) err)
                           diags)
                        (resource.State resp)))
    | None =>
        match fst out with
        | None => ret Panics
        | Some res =>
            let '(data, d) := updateProjectModel data res in
            let diags := diag.Append diags d in
            if diag.HasError diags
            then ret (Returns (resource.mkResponse diags (resource.State resp)))
            else ret (Returns (resource.mkResponse (diag.Append diags []) (Some data)))
        end
    end).

(** [projectResource.Delete] *)
Definition Delete (r : projectResource (W := W))
  (req : resource.DeleteRequest projectResourceModel.t)
  (resp : resource.Response projectResourceModel.t)
  : Net (W := W) (resource.Response projectResourceModel.t) :=
  let data := State_Get (resource.dq_State req) in
  let diags := diag.Append (resource.Diagnostics resp) (State_GetDiags (resource.dq_State req)) in
  if diag.HasError diags then ret (resource.mkResponse diags (resource.State resp)) else
  let '(project, d) := projectFromModel data in
  let diags := diag.Append diags d in
  if diag.HasError diags then ret (resource.mkResponse diags (resource.State resp)) else
  bind (DeleteProject lib (client r) (Project.ID project)) (fun err =>
    match err with
    | Some err =>
        ret (resource.mkResponse
               (diag.AddError "Client Error"
                  (diag.Sprintf "Error deleting project %s: %s"
                     (ProjectID_String (Project.ID project)) err)
                  diags)
               (resource.State resp))
    | None => ret (resource.mkResponse diags (resource.State resp))
    end).

End Operations.

End project_resource.

(** ** Package provider: the provider ([provider.go]) *)

Module provider_go.

Import posthog.

Record postHogProviderModel : Type := mkPostHogProviderModel {
  Host : types.String;
  APIKey : types.String
}.

(** A diagnostic with the attribute it is attached to, when it has one. *)
Definition PathDiagnostic : Type := (option string * diag.Diagnostic)%type.

Definition HasError (ds : list PathDiagnostic) : bool :=
  existsb (fun d => diag.isError (snd d)) ds.

(** [diags.Append(in...)], as [diag.Append]. *)
Definition Append (ds more : list PathDiagnostic) : list PathDiagnostic :=
  fold_left (fun acc d => if bool_decide (d ∈ acc) then acc else acc ++ [d]) more ds.

(** [diags.AddAttributeError(path.Root(name), summary, detail)] *)
Definition AddAttributeError (name summary detail : string) (ds : list PathDiagnostic)
  : list PathDiagnostic :=
  Append ds [(Some name, diag.mkDiagnostic diag.SeverityError summary (diag.Text detail))].

Record ConfigureRequest : Type := mkConfigureRequest {
  Config : tfState postHogProviderModel
}.

Record ConfigureResponse {W : Type} : Type := mkConfigureResponse {
  Diagnostics : list PathDiagnostic;
  DataSourceData : option (Client W);
  ResourceData : option (Client W)
}.

(** [postHogProvider.Configure]; [DefaultClient] is [http.DefaultClient]. *)
Definition Configure {W : Type}
  (DefaultClient : http.Request -> W -> (string + http.Response) * W)
  (req : ConfigureRequest) (resp : ConfigureResponse (W := W)) : ConfigureResponse (W := W) :=
  let data := State_Get (Config req) in
  let diags := Append (Diagnostics resp) (map (pair None) (State_GetDiags (Config req))) in
  if HasError diags then mkConfigureResponse W diags (DataSourceData resp) (ResourceData resp)
  else
    let diags :=
      if typeutil.IsStringValueUnset (Host data)
      then AddAttributeError "host" "Missing PostHog host"
             "The host parameter is required for this provider to manage resources." diags
      else diags in
    let diags :=
      if typeutil.IsStringValueUnset (APIKey data)
      then AddAttributeError "api_key" "Missing PostHog API key"
             "The api_key parameter is required for this provider to manage resources." diags
      else diags in
    let client := mkClient DefaultClient (types.ValueString (Host data))
                    (types.ValueString (APIKey data)) in
    mkConfigureResponse W diags (Some client) (Some client).

End provider_go.

(** ** Further notions the statements use *)

(** The request [do] hands to the transport for [r]. *)
Definition requestOf {W T : Type} (c : posthog.Client W) (r : posthog.apiRequest T)
  : http.Request :=
  http.mkRequest (posthog.Method r)
    (posthog.Host c +:+ "/api" +:+ posthog.Path r)
    (option_map posthog.json_Marshal (posthog.Input r))
    ((match posthog.Input r with
      | Some _ => [("Content-Type", "application/json")]
      | None => []
      end)
     ++ (match posthog.Output r with
         | Some _ => [("Accept", "application/json")]
         | None => []
         end)
     ++ [("Authorization", "Bearer " +:+ posthog.APIKey c)]).

(** The number a sequence of decimal digits denotes, read after [n]. *)
Definition decimalValueFrom (n : N) (l : list ascii) : N :=
  fold_left (fun n c => n * 10 + (N_of_ascii c - 48)) l n.

Definition decimalValue (s : string) : N := decimalValueFrom 0 (list_ascii_of_string s).

(** The steps [Create] sends for the three lists of a model. *)
Definition createdSteps (cs : list provider.matchCustomEvent)
  (ps : list provider.matchPageViewEvent) (acs : list provider.matchAutocaptureEvent)
  : list posthog.CreateActionStepRequest.t :=
  map (fun ev => posthog.CreateActionStepRequest.mk (provider.ce_Event ev) "" "" "" "" "" "" "") cs
  ++ map (fun ev => posthog.CreateActionStepRequest.mk "$pageview"
            (provider.Value (provider.pv_URL ev)) (provider.Matching (provider.pv_URL ev))
            "" "" "" "" "") ps
  ++ map (fun ev => posthog.CreateActionStepRequest.mk "$autocapture"
            (provider.Value (provider.ac_URL ev)) (provider.Matching (provider.ac_URL ev))
            (provider.Value (provider.ac_ElementText ev))
            (provider.Matching (provider.ac_ElementText ev))
            (provider.Value (provider.ac_LinkHref ev))
            (provider.Matching (provider.ac_LinkHref ev))
            (provider.ac_Selector ev)) acs.

(** The elements of a list value that is not unknown. *)
Definition listElems {A : Type} (l : types.List A) : list A :=
  match l with
  | types.ListValue l => l
  | _ => []
  end.

Definition isUnknownList {A : Type} (l : types.List A) : bool :=
  match l with
  | types.ListUnknown => true
  | _ => false
  end.

(** The list value of the elements [l]: null when there is none. *)
Definition listOrNull {A : Type} (l : list A) : types.List A :=
  match l with
  | [] => types.ListNull
  | _ => types.ListValue l
  end.

(** How [Create] and [Update] end once the client has answered [out]: the
    error of the client becomes a diagnostic, a nil result stops the
    operation, and any other result is translated and stored. *)
Definition settle {M R : Type} (update : M -> R -> M * diag.Diagnostics)
  (data : M) (diags : diag.Diagnostics) (state : option M)
  (detail : error -> diag.Detail) (out : option R * option error)
  : completion (resource.Response M) :=
  match snd out with
  | Some err =>
      Returns (resource.mkResponse (diag.AddError "Client Error" (detail err) diags) state)
  | None =>
      match fst out with
      | None => Panics
      | Some res =>
          if diag.HasError (diag.Append diags (snd (update data res)))
          then Returns (resource.mkResponse (diag.Append diags (snd (update data res))) state)
          else Returns (resource.mkResponse
                          (diag.Append (diag.Append diags (snd (update data res))) [])
                          (Some (fst (update data res))))
      end
  end.

(** An operation that ends with an error, without a round trip, and leaves
    the state as it was. *)
Definition stopsBeforeTheWire {W M : Type}
  (run : completion (resource.Response M) * posthog.NetState W)
  (st : posthog.NetState W) (state : option M) : Prop :=
  snd run = st
  /\ exists ds, fst run = Returns (resource.mkResponse ds state) /\ diag.HasError ds = true.

(** ** Further test doubles *)

Module fixture.

Definition fmt : Fmt :=
  mkFmt (fun format _ => format) (fun v => types.ValueString v).

Definition sampleProjectModel : provider.projectResourceModel.t :=
  provider.projectResourceModel.mk
    (types.StringValue "1") (types.StringValue "t") (types.BoolValue false)
    (types.StringValue "UTC") (types.ListValue ["https://b.example"; "https://a.example"])
    types.ListNull types.ListNull (types.StringValue "") (types.BoolValue false)
    (types.BoolValue true) (types.BoolValue true) (types.BoolValue true)
    (types.BoolValue false) (types.BoolValue true) types.ListNull (types.BoolValue false)
    (types.StringValue "phc_token").

Definition pendingModel : provider.actionResourceModel.t :=
  provider.actionResourceModel.mk
    types.StringUnknown (types.StringValue "42")
    (types.StringValue "Signed up") (types.StringValue "")
    types.ListNull (types.BoolValue true) (types.StringValue "hello")
    (types.ListValue [provider.mkMatchCustomEvent "" "signup"])
    (types.ListValue [provider.mkMatchPageViewEvent ""
                        (provider.mkMatchableValue "/signup" "contains")])
    types.ListNull.

(** A model whose webhook settings are set. *)
Definition webhookModel : provider.actionResourceModel.t :=
  provider.actionResourceModel.mk
    (types.StringValue "5") (types.StringValue "42")
    (types.StringValue "Signed up") (types.StringValue "")
    types.ListNull (types.BoolValue true) (types.StringValue "hello")
    (types.ListValue [provider.mkMatchCustomEvent "s1" "signup"])
    types.ListNull types.ListNull.

(** A model whose project identifier is not a number. *)
Definition unsavedModel : provider.actionResourceModel.t :=
  provider.actionResourceModel.mk
    (types.StringValue "5") (types.StringValue "my-project")
    (types.StringValue "Signed up") (types.StringValue "")
    types.ListNull (types.BoolValue false) (types.StringValue "")
    types.ListNull types.ListNull types.ListNull.

End fixture.

(** * Properties *)

(** ** Decimal identifiers *)

Section Decimal.
Import strconv.

Lemma N_of_digitChar d : d < 10 -> N_of_ascii (digitChar d) = 48 + d.
Proof.
  intros Hd. unfold digitChar. apply N_ascii_embedding. lia.
Qed.

Lemma isDigit_bounds c : isDigit c = true <-> 48 <= N_of_ascii c <= 57.
Proof.
  unfold isDigit. rewrite andb_true_iff, !N.leb_le. tauto.
Qed.

Lemma digitChar_of_digit c : isDigit c = true -> digitChar (N_of_ascii c - 48) = c.
Proof.
  intros Hc%isDigit_bounds. unfold digitChar.
  replace (48 + (N_of_ascii c - 48)) with (N_of_ascii c) by lia.
  apply ascii_N_embedding.
Qed.

Lemma maxUint64_val : maxUint64 = 18446744073709551615.
Proof. reflexivity. Qed.

Lemma cutoff_val : cutoff = 1844674407370955162.
Proof. reflexivity. Qed.

Lemma wrap64_small n : n <= maxUint64 -> wrap64 n = n.
Proof.
  intros Hn. unfold wrap64. apply N.mod_small.
  rewrite maxUint64_val in Hn. change (2 ^ 64) with 18446744073709551616. lia.
Qed.

(** One turn of the loop on a digit that does not overflow. *)
Lemma parseDigits_step s0 c rest n :
  isDigit c = true ->
  n * 10 + (N_of_ascii c - 48) <= maxUint64 ->
  parseDigits s0 (c :: rest) n = parseDigits s0 rest (n * 10 + (N_of_ascii c - 48)).
Proof.
  intros Hc Hn. cbn [parseDigits]. rewrite Hc.
  assert (Hcut : (cutoff <=? n) = false).
  { apply N.leb_gt. rewrite cutoff_val. rewrite maxUint64_val in Hn. lia. }
  rewrite Hcut.
  rewrite (wrap64_small (n * 10)) by lia.
  rewrite wrap64_small by lia.
  assert (H1 : (n * 10 + (N_of_ascii c - 48) <? n * 10) = false) by (apply N.ltb_ge; lia).
  assert (H2 : (maxUint64 <? n * 10 + (N_of_ascii c - 48)) = false) by (apply N.ltb_ge; lia).
  rewrite H1, H2. reflexivity.
Qed.

(** A successful turn of the loop, read backwards. *)
Lemma parseDigits_cons_ok s0 c rest n m :
  parseDigits s0 (c :: rest) n = (m, None) ->
  isDigit c = true /\ n * 10 + (N_of_ascii c - 48) <= maxUint64
  /\ parseDigits s0 rest (n * 10 + (N_of_ascii c - 48)) = (m, None).
Proof.
  cbn [parseDigits]. destruct (isDigit c) eqn:Hc.
  2: { destruct (isLetter c); discriminate. }
  destruct (cutoff <=? n) eqn:Hcut; [discriminate|].
  apply N.leb_gt in Hcut. rewrite cutoff_val in Hcut.
  apply isDigit_bounds in Hc as Hb.
  assert (Hmul : wrap64 (n * 10) = n * 10).
  { apply wrap64_small. rewrite maxUint64_val. lia. }
  rewrite Hmul.
  destruct ((wrap64 (n * 10 + (N_of_ascii c - 48)) <? n * 10)
            || (maxUint64 <? wrap64 (n * 10 + (N_of_ascii c - 48)))) eqn:Hov;
    [discriminate|].
  apply orb_false_iff in Hov as [Hlt Hmax].
  apply N.ltb_ge in Hlt, Hmax.
  assert (Hsmall : n * 10 + (N_of_ascii c - 48) <= maxUint64).
  { destruct (N.le_gt_cases (n * 10 + (N_of_ascii c - 48)) maxUint64) as [|Hbig]; [assumption|].
    exfalso. revert Hlt. unfold wrap64. change (2 ^ 64) with 18446744073709551616.
    rewrite maxUint64_val in Hbig.
    assert (Hq : (n * 10 + (N_of_ascii c - 48)) mod 18446744073709551616
                 = n * 10 + (N_of_ascii c - 48) - 18446744073709551616).
    { symmetry. apply (N.mod_unique _ _ 1); lia. }
    rewrite Hq. lia. }
  rewrite wrap64_small by assumption.
  intros H. repeat split; assumption.
Qed.

Lemma parseDigits_app s0 l1 l2 n :
  parseDigits s0 (l1 ++ l2) n =
  match parseDigits s0 l1 n with
  | (m, None) => parseDigits s0 l2 m
  | failure => failure
  end.
Proof.
  revert n. induction l1 as [|c l1 IH]; intros n; [reflexivity|].
  cbn [app parseDigits].
  destruct (isDigit c); [|destruct (isLetter c); reflexivity].
  destruct (cutoff <=? n); [reflexivity|].
  destruct (_ || _); [reflexivity|]. apply IH.
Qed.

Lemma parseDigits_mono s0 l n m : parseDigits s0 l n = (m, None) -> n <= m.
Proof.
  revert n. induction l as [|c l IH]; intros n H.
  - cbn in H. injection H as ->. lia.
  - apply parseDigits_cons_ok in H as (_ & _ & H). apply IH in H. lia.
Qed.

(** Parsing what [formatBits] wrote gives the number back. *)
Lemma parseDigits_formatBits s0 fuel : forall u acc,
  u < 10 ^ N.of_nat fuel -> u <= maxUint64 ->
  parseDigits s0 (formatBits fuel u acc) 0 = parseDigits s0 acc u.
Proof.
  induction fuel as [|fuel IH]; intros u acc Hfuel Hmax.
  - cbn in Hfuel. assert (u = 0) as -> by lia. reflexivity.
  - cbn [formatBits]. destruct (u <? 10) eqn:Hu.
    + apply N.ltb_lt in Hu.
      rewrite parseDigits_step.
      * rewrite N_of_digitChar by assumption. f_equal. lia.
      * apply isDigit_bounds. rewrite N_of_digitChar by assumption. lia.
      * rewrite N_of_digitChar by assumption. rewrite maxUint64_val. lia.
    + apply N.ltb_ge in Hu.
      assert (Hdm := N.div_mod u 10 ltac:(lia)).
      assert (Hm := N.mod_lt u 10 ltac:(lia)).
      rewrite Nat2N.inj_succ, N.pow_succ_r' in Hfuel.
      set (q := u / 10) in *. set (r := u mod 10) in *. clearbody q r.
      rewrite IH by lia.
      rewrite parseDigits_step.
      * rewrite N_of_digitChar by assumption. f_equal. lia.
      * apply isDigit_bounds. rewrite N_of_digitChar by assumption. lia.
      * rewrite N_of_digitChar by assumption. lia.
Qed.

Lemma formatBits_nonempty fuel u acc : formatBits (S fuel) u acc <> [].
Proof.
  revert u acc. induction fuel as [|fuel IH]; intros u acc; cbn [formatBits].
  - destruct (u <? 10); discriminate.
  - destruct (u <? 10); [discriminate|]. apply IH.
Qed.

Lemma ParseUint_nonempty s :
  s <> ""%string -> ParseUint s = parseDigits s (list_ascii_of_string s) 0.
Proof. destruct s; [congruence|reflexivity]. Qed.

Lemma ParseUint_FormatUint u :
  u <= maxUint64 -> ParseUint (FormatUint u) = (u, None).
Proof.
  intros Hu. rewrite ParseUint_nonempty.
  - unfold FormatUint. rewrite list_ascii_of_string_of_list_ascii.
    rewrite parseDigits_formatBits; [reflexivity| |assumption].
    rewrite maxUint64_val in Hu. unfold maxDigits.
    change (10 ^ N.of_nat 20) with 100000000000000000000. lia.
  - unfold FormatUint, maxDigits. intros H.
    apply (f_equal list_ascii_of_string) in H.
    rewrite list_ascii_of_string_of_list_ascii in H.
    exact (formatBits_nonempty _ _ _ H).
Qed.


Lemma parseDigits_positive s0 c l m :
  noLeadingZeroL (c :: l) = true -> l <> [] ->
  parseDigits s0 (c :: l) 0 = (m, None) -> 1 <= m.
Proof.
  intros Hz Hl H. destruct l as [|c' l]; [congruence|].
  cbn in Hz. apply negb_true_iff, Ascii.eqb_neq in Hz.
  apply parseDigits_cons_ok in H as (Hc & _ & H).
  apply parseDigits_mono in H.
  apply isDigit_bounds in Hc.
  assert (N_of_ascii c <> 48).
  { intros Heq. apply Hz. rewrite <- (ascii_N_embedding c), Heq. reflexivity. }
  lia.
Qed.

(** Formatting what the loop parsed gives the digits back, when they carry
    no superfluous leading zero. *)
Lemma formatBits_parseDigits s0 l : forall n,
  l <> [] -> noLeadingZeroL l = true ->
  parseDigits s0 l 0 = (n, None) ->
  forall fuel acc, n < 10 ^ N.of_nat (S fuel) ->
  formatBits (S fuel) n acc = l ++ acc.
Proof.
  induction l as [|c l IH] using rev_ind; intros n Hne Hz Hparse fuel acc Hfuel;
    [congruence|].
  rewrite parseDigits_app in Hparse.
  destruct (parseDigits s0 l 0) as [m [e|]] eqn:Hl; [discriminate|].
  apply parseDigits_cons_ok in Hparse as (Hc & Hmax & Hn).
  cbn in Hn. injection Hn as <-.
  apply isDigit_bounds in Hc as Hb.
  set (d := N_of_ascii c - 48) in *.
  assert (Hd : d < 10) by (unfold d; lia).
  assert (Hdc : digitChar d = c) by (apply digitChar_of_digit, isDigit_bounds, Hb).
  destruct l as [|c0 l].
  - cbn in Hl. injection Hl as <-.
    cbn [formatBits app].
    replace (0 * 10 + d <? 10) with true by (symmetry; apply N.ltb_lt; lia).
    replace (0 * 10 + d) with d by lia. now rewrite Hdc.
  - assert (Hz' : noLeadingZeroL (c0 :: l) = true).
    { destruct l; [reflexivity|exact Hz]. }
    assert (Hm : 1 <= m).
    { destruct l as [|c1 l].
      - apply parseDigits_cons_ok in Hl as (Hc0 & _ & Hl).
        cbn in Hl. injection Hl as <-. cbn in Hz.
        apply negb_true_iff, Ascii.eqb_neq in Hz.
        apply isDigit_bounds in Hc0.
        assert (N_of_ascii c0 <> 48).
        { intros Heq. apply Hz. rewrite <- (ascii_N_embedding c0), Heq. reflexivity. }
        lia.
      - eapply parseDigits_positive; [exact Hz'|discriminate|exact Hl]. }
    rewrite Nat2N.inj_succ, N.pow_succ_r' in Hfuel.
    destruct fuel as [|fuel]; [cbn in Hfuel; lia|].
    assert (Hq : (m * 10 + d) / 10 = m).
    { symmetry. apply (N.div_unique _ _ _ d); lia. }
    assert (Hr : (m * 10 + d) mod 10 = d).
    { symmetry. apply (N.mod_unique _ _ m); lia. }
    change (formatBits (S (S fuel)) (m * 10 + d) acc)
      with (if m * 10 + d <? 10 then digitChar (m * 10 + d) :: acc
            else formatBits (S fuel) ((m * 10 + d) / 10)
                   (digitChar ((m * 10 + d) mod 10) :: acc)).
    replace (m * 10 + d <? 10) with false by (symmetry; apply N.ltb_ge; lia).
    rewrite Hq, Hr, Hdc.
    rewrite (IH m); [now rewrite <- app_assoc|discriminate|exact Hz'|reflexivity|lia].
Qed.

Lemma FormatUint_ParseUint s n :
  noLeadingZero s = true -> ParseUint s = (n, None) -> FormatUint n = s.
Proof.
  intros Hz Hparse.
  destruct s as [|c s]; [discriminate|].
  rewrite ParseUint_nonempty in Hparse by discriminate.
  assert (Hmax : n <= maxUint64).
  { cbn [list_ascii_of_string] in Hparse.
    apply parseDigits_cons_ok in Hparse as (_ & Hle & H).
    revert H Hle. generalize (0 * 10 + (N_of_ascii c - 48)).
    generalize (list_ascii_of_string s).
    intros l. induction l as [|c1 l IH]; intros k H Hle.
    - cbn in H. injection H as <-. exact Hle.
    - apply parseDigits_cons_ok in H as (_ & Hle' & H). eapply IH; eassumption. }
  unfold FormatUint, maxDigits.
  erewrite formatBits_parseDigits with (l := list_ascii_of_string (String c s)).
  - rewrite app_nil_r. apply string_of_list_ascii_of_string.
  - discriminate.
  - exact Hz.
  - exact Hparse.
  - rewrite maxUint64_val in Hmax.
    change (10 ^ N.of_nat 20) with 100000000000000000000. lia.
Qed.

(** A byte that is not a decimal digit makes the loop fail. *)
Lemma parseDigits_nondigit s0 l : forall n c,
  In c l -> isDigit c = false -> snd (parseDigits s0 l n) <> None.
Proof.
  induction l as [|c' l IH]; intros n c Hin Hc; [destruct Hin|].
  cbn [parseDigits]. destruct (isDigit c') eqn:Hc'.
  - destruct Hin as [->|Hin]; [congruence|].
    destruct (cutoff <=? n); [discriminate|].
    destruct (_ || _); [discriminate|]. eapply IH; eassumption.
  - destruct (isLetter c'); discriminate.
Qed.

Lemma ParseUint_nondigit s c :
  In c (list_ascii_of_string s) -> isDigit c = false -> snd (ParseUint s) <> None.
Proof.
  intros Hin Hc. destruct s as [|c0 s]; [destruct Hin|].
  rewrite ParseUint_nonempty by discriminate.
  eapply parseDigits_nondigit; eassumption.
Qed.

End Decimal.

(** ** Sorting strings *)

Section StringOrder.

Lemma string_compare_refl s : String.compare s s = Eq.
Proof.
  induction s as [|c s IH]; [reflexivity|]. cbn.
  unfold Ascii.compare. now rewrite N.compare_refl.
Qed.

Lemma string_le_trans a : forall b c, string_le a b -> string_le b c -> string_le a c.
Proof.
  unfold string_le, String.leb.
  induction a as [|x a IH]; intros [|y b] [|z c]; cbn; try (intros; congruence).
  unfold Ascii.compare.
  destruct (N.compare_spec (N_of_ascii x) (N_of_ascii y)) as [Hxy|Hxy|Hxy];
    destruct (N.compare_spec (N_of_ascii y) (N_of_ascii z)) as [Hyz|Hyz|Hyz];
    try (intros; congruence).
  - rewrite Hxy, Hyz, N.compare_refl. apply IH.
  - rewrite Hxy. intros _ _. apply N.compare_lt_iff in Hyz. now rewrite Hyz.
  - rewrite <- Hyz. intros _ _. apply N.compare_lt_iff in Hxy. now rewrite Hxy.
  - intros _ _. assert (H : N_of_ascii x < N_of_ascii z) by lia.
    apply N.compare_lt_iff in H. now rewrite H.
Qed.

#[local] Instance string_le_transitive : Transitive string_le.
Proof. intros a b c. apply string_le_trans. Qed.

#[local] Instance string_le_total : Total string_le.
Proof. intros a b. apply String.leb_total. Qed.

#[local] Instance string_le_antisym : AntiSymm (=) string_le.
Proof. intros a b. apply String.leb_antisym. Qed.

Lemma sort_Strings_sorted l : Sorted string_le (merge_sort string_le l).
Proof. apply Sorted_merge_sort; apply _. Qed.

Lemma sort_Strings_perm l : merge_sort string_le l ≡ₚ l.
Proof. apply merge_sort_Permutation. Qed.

(** There is one increasing arrangement of a list of strings. *)
Lemma sorted_strings_unique l1 l2 :
  Sorted string_le l1 -> Sorted string_le l2 -> l1 ≡ₚ l2 -> l1 = l2.
Proof. apply Sorted_unique; apply _. Qed.

Lemma merge_sort_nil_inv l : merge_sort string_le l = [] -> l = [].
Proof.
  intros H. apply Permutation_nil_r. rewrite <- H. symmetry. apply sort_Strings_perm.
Qed.

End StringOrder.

Section SortedStrings.
Import provider.

Lemma sortedStrings_unfold strs :
  sortedStrings strs =
  match elems strs with
  | [] => None
  | l => Some (merge_sort string_le l)
  end.
Proof. destruct strs as [[|x l]|]; reflexivity. Qed.

Lemma sortedStrings_elems strs :
  elems (sortedStrings strs) = merge_sort string_le (elems strs).
Proof.
  rewrite sortedStrings_unfold. destruct (elems strs); reflexivity.
Qed.

Lemma sortedStrings_sorted strs : Sorted string_le (elems (sortedStrings strs)).
Proof. rewrite sortedStrings_elems. apply sort_Strings_sorted. Qed.

Lemma sortedStrings_Permutation strs : elems (sortedStrings strs) ≡ₚ elems strs.
Proof. rewrite sortedStrings_elems. apply sort_Strings_perm. Qed.

Lemma sortedStrings_ext s1 s2 :
  elems (sortedStrings s1) = elems (sortedStrings s2) -> sortedStrings s1 = sortedStrings s2.
Proof.
  rewrite !sortedStrings_elems, !sortedStrings_unfold.
  destruct (elems s1) as [|x1 l1] eqn:H1, (elems s2) as [|x2 l2] eqn:H2; intros H;
    try reflexivity.
  - symmetry in H. apply merge_sort_nil_inv in H. discriminate.
  - apply merge_sort_nil_inv in H. discriminate.
  - now rewrite H.
Qed.

Lemma sortedStrings_sorted_noop strs :
  Sorted string_le (elems strs) -> elems (sortedStrings strs) = elems strs.
Proof.
  intros Hs. apply sorted_strings_unique;
    [apply sortedStrings_sorted|exact Hs|apply sortedStrings_Permutation].
Qed.

Lemma sortedStrings_idempotent strs :
  sortedStrings (sortedStrings strs) = sortedStrings strs.
Proof.
  apply sortedStrings_ext.
  rewrite (sortedStrings_elems (sortedStrings strs)).
  apply sorted_strings_unique.
  - apply sort_Strings_sorted.
  - apply sortedStrings_sorted.
  - apply sort_Strings_perm.
Qed.

Lemma sortedStrings_order_independent s1 s2 :
  elems s1 ≡ₚ elems s2 -> sortedStrings s1 = sortedStrings s2.
Proof.
  intros Hp. apply sortedStrings_ext. apply sorted_strings_unique.
  - apply sortedStrings_sorted.
  - apply sortedStrings_sorted.
  - rewrite !sortedStrings_Permutation. exact Hp.
Qed.

End SortedStrings.

(** ** Steps through the local model *)

Section Steps.
Import posthog provider.

Lemma partitionStep_kind acc ev :
  partitionStep acc ev =
  match stepKind ev with
  | Autocapture =>
      mkStepLists (matchCustomEventSteps acc) (matchPageViewEventSteps acc)
        (append (matchAutocaptureEventSteps acc) (toAutocapture ev))
  | PageView =>
      mkStepLists (matchCustomEventSteps acc)
        (append (matchPageViewEventSteps acc) (toPageView ev))
        (matchAutocaptureEventSteps acc)
  | CustomEvent =>
      mkStepLists (append (matchCustomEventSteps acc) (toCustom ev))
        (matchPageViewEventSteps acc) (matchAutocaptureEventSteps acc)
  end.
Proof.
  unfold partitionStep, stepKind.
  destruct (String.eqb (ActionStep.Event ev) "$autocapture"); [reflexivity|].
  destruct (String.eqb (ActionStep.Event ev) "$pageview"); reflexivity.
Qed.

(** The loop of [updateActionModel] files each step under its kind and
    keeps the order of the steps of one kind. *)
Lemma partition_fold l : forall acc,
  let r := fold_left partitionStep l acc in
  elems (matchCustomEventSteps r)
    = elems (matchCustomEventSteps acc) ++ map toCustom (List.filter (isKind CustomEvent) l)
  /\ elems (matchPageViewEventSteps r)
    = elems (matchPageViewEventSteps acc) ++ map toPageView (List.filter (isKind PageView) l)
  /\ elems (matchAutocaptureEventSteps r)
    = elems (matchAutocaptureEventSteps acc)
      ++ map toAutocapture (List.filter (isKind Autocapture) l).
Proof.
  induction l as [|ev l IH]; intros acc; cbn zeta.
  - cbn. now rewrite !app_nil_r.
  - cbn [fold_left List.filter]. specialize (IH (partitionStep acc ev)). cbn zeta in IH.
    destruct IH as (Hc & Hp & Ha). rewrite Hc, Hp, Ha. clear Hc Hp Ha.
    rewrite partitionStep_kind. unfold isKind.
    destruct (stepKind ev); cbn [matchCustomEventSteps matchPageViewEventSteps
      matchAutocaptureEventSteps append elems map]; rewrite <- ?app_assoc; auto.
Qed.

Lemma appendCustomEvents_elems evs : forall steps,
  elems (appendCustomEvents steps evs)
  = elems steps ++ map (fun ev => ActionStep.mk (ce_ID ev) (ce_Event ev) "" "" "" "" "" "" "")
                     (elems evs).
Proof.
  unfold appendCustomEvents. induction (elems evs) as [|ev l IH]; intros steps; cbn.
  - now rewrite app_nil_r.
  - rewrite IH. cbn. now rewrite <- app_assoc.
Qed.

Lemma appendPageViews_elems evs : forall steps,
  elems (appendPageViews steps evs)
  = elems steps ++ map (fun ev => ActionStep.mk (pv_ID ev) "$pageview"
                          (Value (pv_URL ev)) (Matching (pv_URL ev)) "" "" "" "" "")
                     (elems evs).
Proof.
  unfold appendPageViews. induction (elems evs) as [|ev l IH]; intros steps; cbn.
  - now rewrite app_nil_r.
  - rewrite IH. cbn. now rewrite <- app_assoc.
Qed.

Lemma appendAutocaptures_elems evs : forall steps,
  elems (appendAutocaptures steps evs)
  = elems steps ++ map (fun ev => ActionStep.mk (ac_ID ev) "$autocapture"
                          (Value (ac_URL ev)) (Matching (ac_URL ev))
                          (Value (ac_ElementText ev)) (Matching (ac_ElementText ev))
                          (Value (ac_LinkHref ev)) (Matching (ac_LinkHref ev))
                          (ac_Selector ev))
                     (elems evs).
Proof.
  unfold appendAutocaptures. induction (elems evs) as [|ev l IH]; intros steps; cbn.
  - now rewrite app_nil_r.
  - rewrite IH. cbn. now rewrite <- app_assoc.
Qed.

Lemma stepKind_event ev :
  match stepKind ev with
  | Autocapture => ActionStep.Event ev = "$autocapture"
  | PageView => ActionStep.Event ev = "$pageview"
  | CustomEvent => True
  end.
Proof.
  unfold stepKind.
  destruct (String.eqb_spec (ActionStep.Event ev) "$autocapture"); [assumption|].
  destruct (String.eqb_spec (ActionStep.Event ev) "$pageview"); [assumption|exact I].
Qed.

Lemma map_filter_kept {B} k (to : ActionStep.t -> B) (from : B -> ActionStep.t) l :
  (forall ev, stepKind ev = k -> from (to ev) = keptFields ev) ->
  map from (map to (List.filter (isKind k) l)) = map keptFields (List.filter (isKind k) l).
Proof.
  intros H. rewrite map_map. apply map_ext_in. intros ev Hin.
  apply filter_In in Hin as [_ Hk]. apply H.
  unfold isKind in Hk. destruct k, (stepKind ev); congruence.
Qed.

Lemma ElementsAs_ListValueFrom {A} (s : slice A) b :
  types.ElementsAs (types.ListValueFrom s) b = (s, []).
Proof. destruct s; reflexivity. Qed.

Lemma filter_kind_all k l :
  Forall (fun ev => stepKind ev = k) l -> List.filter (isKind k) l = l.
Proof.
  induction 1 as [|ev l Hev _ IH]; [reflexivity|]. cbn.
  unfold isKind at 1. rewrite Hev, IH. destruct k; reflexivity.
Qed.

Lemma filter_kind_none k k' l :
  k <> k' -> Forall (fun ev => stepKind ev = k') l -> List.filter (isKind k) l = [].
Proof.
  intros Hk. induction 1 as [|ev l Hev _ IH]; [reflexivity|]. cbn.
  unfold isKind at 1. rewrite Hev, IH. destruct k, k'; congruence.
Qed.

(** Regrouping by kind leaves a list that follows the convention as it is. *)
Lemma regroup_convention l :
  followsConvention l ->
  List.filter (isKind CustomEvent) l ++ List.filter (isKind PageView) l
    ++ List.filter (isKind Autocapture) l = l.
Proof.
  intros (cs & ps & acs & -> & Hc & Hp & Ha).
  rewrite !List.filter_app.
  rewrite (filter_kind_all _ _ Hc), (filter_kind_all _ _ Hp), (filter_kind_all _ _ Ha).
  rewrite (filter_kind_none CustomEvent PageView ps), (filter_kind_none CustomEvent Autocapture acs),
    (filter_kind_none PageView CustomEvent cs), (filter_kind_none PageView Autocapture acs),
    (filter_kind_none Autocapture CustomEvent cs), (filter_kind_none Autocapture PageView ps);
    try assumption; try discriminate.
  now rewrite !app_nil_r.
Qed.

Lemma actionFromModel_updateActionModel model a projectID :
  Action.ID a <= strconv.maxUint64 ->
  ProjectIDFromString (types.ValueString (actionResourceModel.ProjectID model))
    = (projectID, None) ->
  exists a',
    actionFromModel (fst (updateActionModel model a)) = (projectID, a', [])
    /\ Action.ID a' = Action.ID a
    /\ Action.Name a' = Action.Name a
    /\ Action.Description a' = Action.Description a
    /\ Action.Tags a' = sortedStrings (Action.Tags a)
    /\ elems (Action.Steps a') = regrouped (elems (Action.Steps a)).
Proof.
  intros Hid Hpid. unfold updateActionModel, actionFromModel.
  cbn [fst actionResourceModel.ProjectID actionResourceModel.ID actionResourceModel.Tags
       actionResourceModel.MatchCustomEvents actionResourceModel.MatchPageViews
       actionResourceModel.MatchAutocaptures actionResourceModel.Name
       actionResourceModel.Description types.ValueString].
  rewrite Hpid.
  unfold ActionIDFromString, ActionID_String. rewrite (ParseUint_FormatUint _ Hid).
  rewrite !ElementsAs_ListValueFrom. cbn [diag.Append app diag.HasError existsb].
  eexists. split; [reflexivity|].
  cbn [Action.ID Action.Name Action.Description Action.Tags Action.Steps].
  repeat split.
  rewrite appendAutocaptures_elems, appendPageViews_elems, appendCustomEvents_elems.
  destruct (partition_fold (elems (Action.Steps a)) (mkStepLists None None None))
    as (Hc & Hp & Ha).
  unfold partitionSteps. cbn zeta in Hc, Hp, Ha. rewrite Hc, Hp, Ha. cbn [elems app matchCustomEventSteps
    matchPageViewEventSteps matchAutocaptureEventSteps].
  unfold regrouped. rewrite !map_app, <- app_assoc. f_equal; [|f_equal].
  - apply map_filter_kept. intros ev Hk. unfold keptFields. now rewrite Hk.
  - apply map_filter_kept. intros ev Hk. unfold keptFields.
    pose proof (stepKind_event ev) as He. rewrite Hk in *. cbn. now rewrite He.
  - apply map_filter_kept. intros ev Hk. unfold keptFields.
    pose proof (stepKind_event ev) as He. rewrite Hk in *. cbn. rewrite <- He.
    now destruct ev.
Qed.

End Steps.

(** ** Identifiers, lists and steps *)

Section Identifiers.
Import strconv posthog.

Lemma parseDigits_failure s0 l : forall n v e,
  parseDigits s0 l n = (v, Some e) ->
  (Err e = ErrSyntax /\ v = 0) \/ (Err e = ErrRange /\ v = maxUint64).
Proof.
  induction l as [|c l IH]; intros n v e; cbn [parseDigits]; [discriminate|].
  destruct (isDigit c).
  - destruct (cutoff <=? n); [intros [= <- <-]; now right|].
    destruct (_ || _); [intros [= <- <-]; now right|]. apply IH.
  - destruct (isLetter c); intros [= <- <-]; now left.
Qed.

Lemma ParseUint_failure s v e :
  ParseUint s = (v, Some e) ->
  (Err e = ErrSyntax /\ v = 0) \/ (Err e = ErrRange /\ v = maxUint64).
Proof.
  destruct s as [|c s]; [cbn; intros [= <- <-]; now left|].
  rewrite ParseUint_nonempty by discriminate. apply parseDigits_failure.
Qed.

(** Formatting an identifier and parsing it back gives the identifier, for
    projects and for actions. *)
Lemma IDFromString_String (id : N) :
  id <= maxUint64 ->
  ProjectIDFromString (ProjectID_String id) = (id, None)
  /\ ActionIDFromString (ActionID_String id) = (id, None).
Proof.
  intros Hid. unfold ProjectIDFromString, ActionIDFromString, ProjectID_String, ActionID_String.
  now rewrite (ParseUint_FormatUint _ Hid).
Qed.

Lemma ID_String_FromString s id :
  noLeadingZero s = true ->
  (ProjectIDFromString s = (id, None) -> ProjectID_String id = s)
  /\ (ActionIDFromString s = (id, None) -> ActionID_String id = s).
Proof.
  intros Hz. unfold ProjectIDFromString, ActionIDFromString, ProjectID_String, ActionID_String.
  destruct (ParseUint s) as [v e] eqn:Hp.
  split; intros [= -> ->]; eapply FormatUint_ParseUint; eassumption.
Qed.

End Identifiers.

(** C4 (as stated, refuted): "007" is a decimal string the parser accepts,
    and formatting the identifier it denotes gives "7", not "007". *)
Lemma C4_leading_zeros_not_restored :
  posthog.ProjectIDFromString "007" = (7, None)
  /\ posthog.ProjectID_String 7 <> "007"
  /\ posthog.ActionIDFromString "007" = (7, None)
  /\ posthog.ActionID_String 7 <> "007".
Proof. repeat split; try reflexivity; discriminate. Qed.

(** C4 (amended): for every unsigned 64-bit identifier, parsing its decimal
    rendering gives the identifier back; for every string without a
    superfluous leading zero that the parser accepts, formatting the parsed
    identifier gives the string back; a string holding a byte that is not a
    decimal digit is rejected, as are "abc", "-1", "12a", the empty string
    and a number beyond 64 bits (a range error, next to the largest
    identifier).  This holds for ProjectID and for ActionID. *)
Theorem C4_identifier_round_trip :
  (forall id : N, id <= strconv.maxUint64 ->
     posthog.ProjectIDFromString (posthog.ProjectID_String id) = (id, None)
     /\ posthog.ActionIDFromString (posthog.ActionID_String id) = (id, None))
  /\ (forall s id, noLeadingZero s = true ->
        (posthog.ProjectIDFromString s = (id, None) -> posthog.ProjectID_String id = s)
        /\ (posthog.ActionIDFromString s = (id, None) -> posthog.ActionID_String id = s))
  /\ (forall s c, In c (list_ascii_of_string s) -> strconv.isDigit c = false ->
        snd (posthog.ProjectIDFromString s) <> None
        /\ snd (posthog.ActionIDFromString s) <> None)
  /\ (forall s, In s ["abc"; "-1"; "12a"; ""] ->
        posthog.ProjectIDFromString s = (0, Some (strconv.syntaxError s))
        /\ posthog.ActionIDFromString s = (0, Some (strconv.syntaxError s)))
  /\ posthog.ProjectIDFromString "18446744073709551616"
     = (strconv.maxUint64, Some (strconv.rangeError "18446744073709551616"))
  /\ posthog.ActionIDFromString "18446744073709551616"
     = (strconv.maxUint64, Some (strconv.rangeError "18446744073709551616")).
Proof.
  split; [exact IDFromString_String|].
  split; [exact ID_String_FromString|].
  split.
  { intros s c Hin Hc. unfold posthog.ProjectIDFromString, posthog.ActionIDFromString.
    pose proof (ParseUint_nondigit s c Hin Hc) as H.
    destruct (strconv.ParseUint s) as [v e]. split; exact H. }
  split.
  { intros s Hin. cbn in Hin.
    destruct Hin as [<-|[<-|[<-|[<-|[]]]]]; split; reflexivity. }
  split; reflexivity.
Qed.

Lemma C4_identifier_round_trip_witness :
  posthog.ProjectIDFromString (posthog.ProjectID_String 42) = (42, None)
  /\ posthog.ActionID_String 7 = "7"
  /\ snd (posthog.ProjectIDFromString "4x2") <> None.
Proof.
  destruct C4_identifier_round_trip as (Hparse & Hformat & Hreject & _).
  split; [|split].
  - apply (Hparse 42). vm_compute. discriminate.
  - apply (Hformat "7" 7); reflexivity.
  - apply (Hreject "4x2" "x"%char); [cbn; tauto|reflexivity].
Defined.

(** C7: the normalization of a list on the way from the remote to the local
    model is idempotent, leaves an increasing list as it is, and gives the
    same result for every arrangement of the same elements; its result is
    the increasing arrangement of its input.  It is what [updateActionModel]
    stores for the tags and [updateProjectModel] for the four list settings. *)
Theorem C7_list_normalization :
  (forall strs, provider.sortedStrings (provider.sortedStrings strs) = provider.sortedStrings strs)
  /\ (forall strs, Sorted string_le (elems strs) ->
        elems (provider.sortedStrings strs) = elems strs)
  /\ (forall s1 s2, elems s1 ≡ₚ elems s2 -> provider.sortedStrings s1 = provider.sortedStrings s2)
  /\ (forall strs, Sorted string_le (elems (provider.sortedStrings strs))
                   /\ elems (provider.sortedStrings strs) ≡ₚ elems strs)
  /\ (forall model a,
        provider.actionResourceModel.Tags (fst (provider.updateActionModel model a))
        = types.ListValueFrom (provider.sortedStrings (posthog.Action.Tags a)))
  /\ (forall model p,
        let model' := fst (provider.updateProjectModel model p) in
        provider.projectResourceModel.AuthorizedURLs model'
          = types.ListValueFrom (provider.sortedStrings (posthog.Project.AppURLs p))
        /\ provider.projectResourceModel.DataAttributes model'
          = types.ListValueFrom (provider.sortedStrings (posthog.Project.DataAttributes p))
        /\ provider.projectResourceModel.PersonDisplayNameProperties model'
          = types.ListValueFrom
              (provider.sortedStrings (posthog.Project.PersonDisplayNameProperties p))
        /\ provider.projectResourceModel.AuthorizedSessionRecordingURLs model'
          = types.ListValueFrom (provider.sortedStrings (posthog.Project.RecordingDomains p))).
Proof.
  split; [exact sortedStrings_idempotent|].
  split; [exact sortedStrings_sorted_noop|].
  split; [exact sortedStrings_order_independent|].
  split; [intros strs; split; [apply sortedStrings_sorted|apply sortedStrings_Permutation]|].
  split; [reflexivity|]. intros model p. cbn. repeat split.
Qed.

Lemma C7_list_normalization_witness :
  elems (provider.sortedStrings (Some ["alpha"; "beta"])) = ["alpha"; "beta"]
  /\ provider.sortedStrings (Some ["web"; "growth"]) = provider.sortedStrings (Some ["growth"; "web"]).
Proof.
  destruct C7_list_normalization as (_ & Hnoop & Hperm & _).
  split.
  - apply (Hnoop (Some ["alpha"; "beta"])). cbn. repeat constructor.
  - apply (Hperm (Some ["web"; "growth"]) (Some ["growth"; "web"])). cbn. apply perm_swap.
Defined.

(** C1 (as stated, refuted): a page-view step that carries a selector
    follows the ordering convention, yet the step that comes back has lost
    the selector, so that the list that comes back is no rearrangement of
    the original. *)
Lemma C1_selector_not_kept :
  let a := posthog.Action.mk 5 "Pricing" "" None false ""
             (Some [posthog.ActionStep.mk "s1" "$pageview" "/pricing" "contains"
                      "" "" "" "" ".buy"])
             false false posthog.zeroTime posthog.zeroTime in
  followsConvention (elems (posthog.Action.Steps a))
  /\ ~ Permutation
        (elems (posthog.Action.Steps
           (snd (fst (provider.actionFromModel
                        (fst (provider.updateActionModel double.sampleModel a)))))))
        (elems (posthog.Action.Steps a)).
Proof.
  cbn zeta. split.
  - exists [], [posthog.ActionStep.mk "s1" "$pageview" "/pricing" "contains" "" "" "" "" ".buy"], [].
    repeat split; repeat constructor.
  - intros H.
    assert (Hsteps :
      elems (posthog.Action.Steps
           (snd (fst (provider.actionFromModel
                        (fst (provider.updateActionModel double.sampleModel
                          (posthog.Action.mk 5 "Pricing" "" None false ""
             (Some [posthog.ActionStep.mk "s1" "$pageview" "/pricing" "contains"
                      "" "" "" "" ".buy"])
             false false posthog.zeroTime posthog.zeroTime)))))))
      = [posthog.ActionStep.mk "s1" "$pageview" "/pricing" "contains" "" "" "" "" ""])
      by (vm_compute; reflexivity).
    rewrite Hsteps in H. cbn [elems posthog.Action.Steps] in H.
    apply Permutation_length_1 in H. discriminate H.
Qed.

(** C1 (amended): for every remote action whose step list follows the
    convention custom events, page views, autocaptures, and whose steps carry
    only the fields the local model of their kind has (a custom event its
    identifier and event; a page view also its URL matcher; an autocapture
    everything), the step list that [actionFromModel] rebuilds from the
    model [updateActionModel] filled is the original list, order included. *)
Theorem C1_steps_round_trip model a projectID :
  posthog.Action.ID a <= strconv.maxUint64 ->
  posthog.ProjectIDFromString
    (types.ValueString (provider.actionResourceModel.ProjectID model)) = (projectID, None) ->
  followsConvention (elems (posthog.Action.Steps a)) ->
  Forall (fun ev => keptFields ev = ev) (elems (posthog.Action.Steps a)) ->
  exists a',
    provider.actionFromModel (fst (provider.updateActionModel model a)) = (projectID, a', [])
    /\ elems (posthog.Action.Steps a') = elems (posthog.Action.Steps a).
Proof.
  intros Hid Hpid Hconv Hkept.
  destruct (actionFromModel_updateActionModel model a projectID Hid Hpid)
    as (a' & Heq & _ & _ & _ & _ & Hsteps).
  exists a'. split; [exact Heq|]. rewrite Hsteps. unfold regrouped.
  rewrite (regroup_convention _ Hconv).
  clear -Hkept. induction Hkept as [|ev l Hev _ IH]; [reflexivity|].
  cbn [map]. now rewrite Hev, IH.
Qed.

Lemma C1_steps_round_trip_witness :
  exists a',
    provider.actionFromModel (fst (provider.updateActionModel double.sampleModel double.sampleAction))
    = (42, a', [])
    /\ elems (posthog.Action.Steps a') = elems (posthog.Action.Steps double.sampleAction).
Proof.
  apply (C1_steps_round_trip double.sampleModel double.sampleAction 42).
  - vm_compute. discriminate.
  - reflexivity.
  - exists [posthog.ActionStep.mk "s1" "signup" "" "" "" "" "" "" ""],
           [posthog.ActionStep.mk "s2" "$pageview" "/signup" "contains" "" "" "" "" ""],
           [posthog.ActionStep.mk "s3" "$autocapture" "/signup" "contains" "Sign up" "exact"
              "" "" ".button"].
    repeat split; repeat constructor.
  - repeat constructor.
Defined.

(** ** Diagnostics *)

Section Diagnostics.
Import diag.

Lemma Append_nil ds : Append ds [] = ds.
Proof. reflexivity. Qed.

Lemma HasError_app ds more : HasError (ds ++ more) = HasError ds || HasError more.
Proof. apply existsb_app. Qed.

Lemma HasError_contains ds d : Contains ds d = true -> isError d = true -> HasError ds = true.
Proof.
  unfold Contains. intros Hin%bool_decide_eq_true Hd.
  apply existsb_exists. exists d. split; [now apply list_elem_of_In|exact Hd].
Qed.

Lemma HasError_Append ds more : HasError (Append ds more) = HasError ds || HasError more.
Proof.
  unfold Append. revert ds. induction more as [|d more IH]; intros ds; cbn [fold_left].
  - cbn. now rewrite orb_false_r.
  - rewrite IH. cbn [HasError existsb]. destruct (Contains ds d) eqn:Hc.
    + destruct (isError d) eqn:Hd; [|reflexivity].
      now rewrite (HasError_contains _ _ Hc Hd).
    + fold (HasError ds) (HasError more). rewrite HasError_app. cbn.
      now rewrite orb_false_r, orb_assoc.
Qed.

Lemma HasError_AddError summary d ds : HasError (AddError summary d ds) = true.
Proof. unfold AddError. rewrite HasError_Append. cbn. apply orb_true_r. Qed.

End Diagnostics.

(** ** The client *)

Section ClientFacts.
Import posthog.
Context {W : Type} (lib : Lib).

(** A call of [do] makes no round trip, when the request cannot be built,
    or exactly one, with the request its argument describes. *)
Lemma do_exchange {T : Type} (c : Client W) (r : apiRequest T) st out st' :
  do lib c r st = (out, st') ->
  (transcript st' = transcript st
   /\ exists err, out = (None, Some (ErrCreatingRequest err)))
  \/ (exists req res,
        transcript st' = transcript st ++ [mkExchange req res]
        /\ http.Method req = Method r
        /\ http.URL req = Host c +:+ "/api" +:+ Path r
        /\ http.Body req = option_map json_Marshal (Input r)
        /\ In ("Authorization", "Bearer " +:+ APIKey c) (http.Header req)
        /\ out = answerTo r res).
Proof.
  unfold do, NewRequestWithContext.
  destruct (NewRequestError lib (Method r) (Host c +:+ "/api" +:+ Path r)) as [err|].
  - cbn. intros [= <- <-]. left. split; [reflexivity|]. now exists err.
  - unfold bind, HTTPClient_Do.
    match goal with |- context [HTTPClient c ?q (world st)] => set (req := q) end.
    destruct (HTTPClient c req (world st)) as [res w'] eqn:Hdo.
    intros Hout. right. exists req, res.
    assert (Hreq : http.Method req = Method r
                   /\ http.URL req = Host c +:+ "/api" +:+ Path r
                   /\ http.Body req = option_map json_Marshal (Input r)
                   /\ In ("Authorization", "Bearer " +:+ APIKey c) (http.Header req)).
    { unfold req. destruct (Input r), (Output r); cbn; repeat split;
        rewrite ?in_app_iff; cbn; tauto. }
    destruct Hreq as (Hm & Hu & Hb & Hh).
    destruct res as [err|res]; cbn in Hout.
    + injection Hout as <- <-. cbn. repeat split; assumption.
    + unfold answerTo.
      destruct (OutputNilIf404 r && (http.StatusCode res =? 404)%Z);
        [|destruct (negb (http.StatusCode res =? ExpectedCode r)%Z)];
        cbn in Hout; injection Hout as <- <-; cbn; repeat split; assumption.
Qed.

Lemma transcript_grows (l : list Exchange) x : l ++ [x] <> l.
Proof.
  intros H. apply (f_equal (@List.length _)) in H. rewrite List.length_app in H.
  cbn in H. lia.
Qed.

(** The answer of [do] when its one round trip brought back [res]. *)
Lemma do_answer {T : Type} (c : Client W) (r : apiRequest T) st out st' req res :
  do lib c r st = (out, st') ->
  transcript st' = transcript st ++ [mkExchange req res] ->
  out = answerTo r res.
Proof.
  intros Hdo Htr. apply do_exchange in Hdo as [[Hsame _]|(req' & res' & Htr' & _ & _ & _ & _ & Hout)].
  - rewrite Hsame in Htr. symmetry in Htr. now apply transcript_grows in Htr.
  - rewrite Htr' in Htr. apply app_inj_tail in Htr as [_ [= _ ->]]. exact Hout.
Qed.

(** A status other than the expected one, outside the case of a read
    answered 404, is reported with both codes and the body received. *)
Lemma do_unexpected_status {T : Type} (c : Client W) (r : apiRequest T) st out st' req res :
  do lib c r st = (out, st') ->
  transcript st' = transcript st ++ [mkExchange req (inr res)] ->
  http.StatusCode res <> ExpectedCode r ->
  ~ (OutputNilIf404 r = true /\ http.StatusCode res = 404%Z) ->
  out = (None, Some (ErrUnexpectedStatus (ExpectedCode r) (http.StatusCode res)
                       (http.ResponseBody res))).
Proof.
  intros Hdo Htr Hstatus Habsent.
  rewrite (do_answer c r st out st' req (inr res) Hdo Htr). unfold answerTo.
  destruct (OutputNilIf404 r && (http.StatusCode res =? 404)%Z) eqn:H404.
  - apply andb_true_iff in H404 as [Hnil H404]. apply Z.eqb_eq in H404. tauto.
  - apply Z.eqb_neq in Hstatus. now rewrite Hstatus.
Qed.

(** A read answered 404 decodes the text [null]: a nil result, no error. *)
Lemma do_not_found {T : Type} (c : Client W) (r : apiRequest T) unmarshal st out st' req res :
  do lib c r st = (out, st') ->
  transcript st' = transcript st ++ [mkExchange req (inr res)] ->
  OutputNilIf404 r = true ->
  Output r = Some (decodePointer lib unmarshal) ->
  http.StatusCode res = 404%Z ->
  out = (None, None).
Proof.
  intros Hdo Htr Hnil Hout H404.
  rewrite (do_answer c r st out st' req (inr res) Hdo Htr). unfold answerTo.
  rewrite Hnil, H404. cbn. unfold decodeOutput. now rewrite Hout.
Qed.

End ClientFacts.

Section ClientProperties.
Import posthog.
Context {W : Type} (lib : Lib) (c : Client W).

(** C9: when the round trip of an API request brings back a status that is
    not the expected one, and the request is not a read answered 404 with
    absence asked for, the client fails with the error that carries the
    expected code, the observed code and the body of the response as it was
    received; nothing is decoded. *)
Theorem C9_unexpected_status {T : Type} (r : apiRequest T) st out st' req res :
  do lib c r st = (out, st') ->
  transcript st' = transcript st ++ [mkExchange req (inr res)] ->
  http.StatusCode res <> ExpectedCode r ->
  ~ (OutputNilIf404 r = true /\ http.StatusCode res = 404%Z) ->
  out = (None, Some (ErrUnexpectedStatus (ExpectedCode r) (http.StatusCode res)
                       (http.ResponseBody res))).
Proof. apply do_unexpected_status. Qed.

(** C2: a read (GetAction or GetProject) whose round trip brings back status
    404 returns a nil result and no error; one that brings back any status
    other than 404 and the expected 200 returns an error (and a nil
    result). *)
Theorem C2_read_absence st st' req res :
  (forall projectID actionID out,
     GetAction lib c projectID actionID st = (out, st') ->
     transcript st' = transcript st ++ [mkExchange req (inr res)] ->
     (http.StatusCode res = 404%Z -> out = (None, None))
     /\ (http.StatusCode res <> 404%Z -> http.StatusCode res <> 200%Z ->
         exists err, out = (None, Some err)))
  /\ (forall projectID out,
     GetProject lib c projectID st = (out, st') ->
     transcript st' = transcript st ++ [mkExchange req (inr res)] ->
     (http.StatusCode res = 404%Z -> out = (None, None))
     /\ (http.StatusCode res <> 404%Z -> http.StatusCode res <> 200%Z ->
         exists err, out = (None, Some err))).
Proof.
  split.
  - intros projectID actionID out Hdo Htr. unfold GetAction in Hdo. split.
    + intros H404. eapply (do_not_found lib c _ _ st out st' req res Hdo Htr); eauto.
    + intros Hn404 Hn200. eexists.
      eapply (do_unexpected_status lib c _ st out st' req res Hdo Htr); cbn; tauto.
  - intros projectID out Hdo Htr. unfold GetProject in Hdo. split.
    + intros H404. eapply (do_not_found lib c _ _ st out st' req res Hdo Htr); eauto.
    + intros Hn404 Hn200. eexists.
      eapply (do_unexpected_status lib c _ st out st' req res Hdo Htr); cbn; tauto.
Qed.

End ClientProperties.

Lemma C9_unexpected_status_witness :
  fst (posthog.do (T := unit) double.lib (double.answering 500 "Server Error")
         (posthog.mkApiRequest "DELETE" "/projects/42" http.StatusNoContent None None false)
         double.start)
  = (None, Some (ErrUnexpectedStatus 204 500 "Server Error")).
Proof.
  eapply (C9_unexpected_status double.lib (double.answering 500 "Server Error")
            (posthog.mkApiRequest "DELETE" "/projects/42" http.StatusNoContent None None false)
            double.start _ _ _ (http.mkResponse 500 "Server Error")).
  - apply surjective_pairing.
  - reflexivity.
  - cbn. discriminate.
  - cbn. intros [Hnil _]. discriminate Hnil.
Defined.

Lemma C2_read_absence_witness :
  fst (posthog.GetAction double.lib (double.answering 404 "Not found.") 42 7 double.start)
  = (None, None)
  /\ (exists err,
       fst (posthog.GetProject double.lib (double.answering 403 "Forbidden") 42 double.start)
       = (None, Some err)).
Proof.
  split.
  - epose proof (C2_read_absence double.lib (double.answering 404 "Not found.") double.start
                   _ _ (http.mkResponse 404 "Not found.")) as [HA _].
    edestruct (HA 42 7) as [H404 _]; [apply surjective_pairing|reflexivity|].
    apply H404. reflexivity.
  - epose proof (C2_read_absence double.lib (double.answering 403 "Forbidden") double.start
                   _ _ (http.mkResponse 403 "Forbidden")) as [_ HP].
    edestruct (HP 42) as [_ Herr]; [apply surjective_pairing|reflexivity|].
    apply Herr; cbn; discriminate.
Defined.

(** ** Projects: the toolbar mode *)

Section Toolbar.
Import posthog provider.

Lemma decodeOutput_some {T : Type} (r : apiRequest T) body v :
  decodeOutput r body = (Some v, None) ->
  exists decode, Output r = Some decode /\ decode body = (Some v, None).
Proof.
  unfold decodeOutput. destruct (Output r) as [decode|]; [|discriminate].
  destruct (decode body) as [v' [e|]] eqn:Hd; [discriminate|].
  intros [= ->]. now exists decode.
Qed.

(** A value [do] hands back without error was decoded from some body by the
    decoder of the request. *)
Lemma do_some {W T : Type} lib (c : Client W) (r : apiRequest T) st v st' :
  do lib c r st = ((Some v, None), st') ->
  exists decode body, Output r = Some decode /\ decode body = (Some v, None).
Proof.
  intros [[_ [e [=]]]|(req & res & _ & _ & _ & _ & _ & Hout)]%do_exchange.
  unfold answerTo in Hout. destruct res as [e|res]; [discriminate|].
  destruct (OutputNilIf404 r && (http.StatusCode res =? 404)%Z).
  - symmetry in Hout. apply decodeOutput_some in Hout as (decode & Ho & Hd). eauto.
  - destruct (negb (http.StatusCode res =? ExpectedCode r)%Z); [discriminate|].
    symmetry in Hout. apply decodeOutput_some in Hout as (decode & Ho & Hd). eauto.
Qed.

(** A value a pointer decoder stores without error is what [unmarshal] made
    of the first value of the stream. *)
Lemma decodePointer_some {T : Type} lib (unmarshal : string -> T * option string) body v :
  decodePointer lib unmarshal body = (Some v, None) ->
  exists value, ReadValue lib body = inr value /\ unmarshal value = (v, None).
Proof.
  unfold decodePointer. destruct (firstValueIsNull body); [discriminate|].
  destruct (ReadValue lib body) as [e|value]; [discriminate|].
  destruct (unmarshal value) as [v' err] eqn:Hu. intros [= -> ->]. now exists value.
Qed.

(** [Project.UnmarshalJSON] succeeds exactly when the plain decoding does,
    and then changes the toolbar mode only, and only when it is empty. *)
Lemma Project_UnmarshalJSON_ok lib b p :
  Project_UnmarshalJSON lib b = (p, None) <->
  exists raw, UnmarshalRawProject lib b = (raw, None)
    /\ p = if String.eqb (Project.ToolbarMode raw) ""
           then Project.setToolbarMode ProjectToolbarModeToolbar raw else raw.
Proof.
  unfold Project_UnmarshalJSON. destruct (UnmarshalRawProject lib b) as [raw [e|]].
  - split; [discriminate|]. now intros (raw' & [=] & _).
  - split.
    + intros H. exists raw. split; [reflexivity|].
      destruct (String.eqb (Project.ToolbarMode raw) ""); now injection H as <-.
    + intros (raw' & [= <-] & ->). now destruct (String.eqb (Project.ToolbarMode raw) "").
Qed.

(** When the plain decoding reports an error, the project is returned as the
    decoding left it, next to the error. *)
Lemma Project_UnmarshalJSON_error lib b :
  snd (UnmarshalRawProject lib b) <> None ->
  Project_UnmarshalJSON lib b = UnmarshalRawProject lib b.
Proof.
  unfold Project_UnmarshalJSON. now destruct (UnmarshalRawProject lib b) as [raw [e|]].
Qed.

Lemma backfilled_toolbar raw :
  Project.ToolbarMode
    (if String.eqb (Project.ToolbarMode raw) ""
     then Project.setToolbarMode ProjectToolbarModeToolbar raw else raw)
  = if String.eqb (Project.ToolbarMode raw) "" then "toolbar" else Project.ToolbarMode raw.
Proof. now destruct (String.eqb (Project.ToolbarMode raw) ""). Qed.

Lemma EnableToolbar_eqb model p :
  projectResourceModel.EnableToolbar (fst (updateProjectModel model p))
  = types.BoolValue (String.eqb (Project.ToolbarMode p) "toolbar").
Proof. reflexivity. Qed.

Lemma EnableToolbar_iff model p :
  projectResourceModel.EnableToolbar (fst (updateProjectModel model p)) = types.BoolValue true
  <-> Project.ToolbarMode p = ProjectToolbarModeToolbar.
Proof.
  cbn. split.
  - intros [= H]. now apply String.eqb_eq.
  - intros ->. reflexivity.
Qed.

(** C3: a project decoded without error from the text of a value: its
    toolbar mode is never empty; when the reply left the field out (or
    empty) the decoded project is the plain one with the mode "toolbar", so
    that the local [enable_toolbar] is true; when the reply has a mode, the
    decoded project is the plain one, mode included, and [enable_toolbar] is
    true for the mode "toolbar" and false for any other one, "disabled"
    included.  The same holds of the project a read returns without error.
    [enable_toolbar] is true exactly when the mode of the project is
    "toolbar". *)
Theorem C3_toolbar_mode lib :
  (forall b p, Project_UnmarshalJSON lib b = (p, None) ->
     exists raw,
       UnmarshalRawProject lib b = (raw, None)
       /\ Project.ToolbarMode p <> ""
       /\ (Project.ToolbarMode raw = "" ->
           p = Project.setToolbarMode "toolbar" raw
           /\ Project.ToolbarMode p = "toolbar"
           /\ forall model,
                projectResourceModel.EnableToolbar (fst (updateProjectModel model p))
                = types.BoolValue true)
       /\ (Project.ToolbarMode raw <> "" ->
           p = raw
           /\ forall model,
                projectResourceModel.EnableToolbar (fst (updateProjectModel model p))
                = types.BoolValue (String.eqb (Project.ToolbarMode raw) "toolbar")))
  /\ (forall b raw, UnmarshalRawProject lib b = (raw, None) ->
        exists p, Project_UnmarshalJSON lib b = (p, None))
  /\ (forall W (c : Client W) projectID st p st',
        GetProject lib c projectID st = ((Some p, None), st') ->
        Project.ToolbarMode p <> ""
        /\ exists value raw,
             UnmarshalRawProject lib value = (raw, None)
             /\ Project.ToolbarMode p
                = (if String.eqb (Project.ToolbarMode raw) "" then "toolbar"
                   else Project.ToolbarMode raw)
             /\ forall model,
                  projectResourceModel.EnableToolbar (fst (updateProjectModel model p))
                  = types.BoolValue (String.eqb (Project.ToolbarMode raw) ""
                                     || String.eqb (Project.ToolbarMode raw) "toolbar"))
  /\ (forall model p,
        (projectResourceModel.EnableToolbar (fst (updateProjectModel model p))
         = types.BoolValue true <-> Project.ToolbarMode p = "toolbar")
        /\ (Project.ToolbarMode p <> "toolbar" ->
            projectResourceModel.EnableToolbar (fst (updateProjectModel model p))
            = types.BoolValue false)).
Proof.
  split; [|split; [|split]].
  - intros b p (raw & Hraw & ->)%Project_UnmarshalJSON_ok. exists raw.
    split; [exact Hraw|]. split; [|split].
    + rewrite backfilled_toolbar.
      destruct (String.eqb_spec (Project.ToolbarMode raw) ""); [discriminate|assumption].
    + intros Hempty. apply String.eqb_eq in Hempty. rewrite Hempty. repeat split.
    + intros Hmode. apply String.eqb_neq in Hmode. rewrite Hmode. repeat split.
  - intros b raw Hraw. eexists. apply Project_UnmarshalJSON_ok. eauto.
  - intros W c projectID st p st' Hget. unfold GetProject in Hget.
    apply do_some in Hget as (decode & body & [= <-] & Hd).
    apply decodePointer_some in Hd as (value & _ & Hp).
    apply Project_UnmarshalJSON_ok in Hp as (raw & Hraw & ->).
    rewrite backfilled_toolbar. split.
    + destruct (String.eqb_spec (Project.ToolbarMode raw) ""); [discriminate|assumption].
    + exists value, raw. split; [exact Hraw|]. split; [reflexivity|].
      intros model. rewrite EnableToolbar_eqb, backfilled_toolbar.
      now destruct (String.eqb (Project.ToolbarMode raw) "").
  - intros model p. split; [apply EnableToolbar_iff|].
    intros Hne. apply String.eqb_neq in Hne.
    rewrite EnableToolbar_eqb. now rewrite Hne.
Qed.

End Toolbar.

Lemma C3_toolbar_mode_witness :
  exists p,
    posthog.Project_UnmarshalJSON double.lib "{}" = (p, None)
    /\ posthog.Project.ToolbarMode p = "toolbar"
    /\ forall model,
         provider.projectResourceModel.EnableToolbar (fst (provider.updateProjectModel model p))
         = types.BoolValue true.
Proof.
  destruct (C3_toolbar_mode double.lib) as (Hdecode & _ & _).
  eexists. split; [reflexivity|].
  edestruct (Hdecode "{}") as (raw & Hraw & _ & Hfill & _); [reflexivity|].
  injection Hraw as <-.
  destruct (Hfill eq_refl) as (_ & Hmode & Hflag). split; [exact Hmode|exact Hflag].
Defined.

(** ** Import *)

Section ImportFacts.
Import strconv posthog provider.

(** [cut] splits at the first separator: what comes before holds none. *)
Lemma cut_first sep s :
  match cut sep s with
  | None => ~ In sep (list_ascii_of_string s)
  | Some (before, after) =>
      s = before +:+ String sep after /\ ~ In sep (list_ascii_of_string before)
  end.
Proof.
  induction s as [|c s IH]; cbn [cut list_ascii_of_string]; [tauto|].
  destruct (Ascii.eqb_spec c sep) as [->|Hne].
  - split; [reflexivity|cbn; tauto].
  - destruct (cut sep s) as [[before after]|].
    + destruct IH as [-> Hnot]. split; [reflexivity|]. cbn. intros [H|H]; [congruence|tauto].
    + cbn. intros [H|H]; [congruence|tauto].
Qed.

Lemma strings_SplitN_2 s sep :
  strings_SplitN s sep 2 =
  match cut sep s with
  | None => [s]
  | Some (before, after) => [before; after]
  end.
Proof. cbn. destruct (cut sep s) as [[before after]|]; reflexivity. Qed.

Lemma parseImportID_no_separator s :
  cut "/" s = None -> parseImportID s = (0, 0, Some ErrImportIDForm).
Proof. intros H. unfold parseImportID. now rewrite strings_SplitN_2, H. Qed.

Lemma parseImportID_halves s before after :
  cut "/" s = Some (before, after) ->
  parseImportID s =
  match ProjectIDFromString before with
  | (_, Some e) => (0, 0, Some (ErrInvalidProjectID e))
  | (projectID, None) =>
      match ActionIDFromString after with
      | (_, Some e) => (0, 0, Some (ErrInvalidActionID e))
      | (actionID, None) => (projectID, actionID, None)
      end
  end.
Proof.
  intros H. unfold parseImportID. rewrite strings_SplitN_2, H.
  destruct (ProjectIDFromString before) as [p [e|]]; [reflexivity|].
  destruct (ActionIDFromString after) as [a [e|]]; reflexivity.
Qed.

(** The import identifier is accepted exactly when it has a separator and
    both halves, cut at the first separator, parse. *)
Lemma parseImportID_ok s projectID actionID :
  parseImportID s = (projectID, actionID, None)
  <-> exists before after,
        cut "/" s = Some (before, after)
        /\ ProjectIDFromString before = (projectID, None)
        /\ ActionIDFromString after = (actionID, None).
Proof.
  split.
  - destruct (cut "/" s) as [[before after]|] eqn:Hcut.
    + rewrite (parseImportID_halves _ _ _ Hcut).
      destruct (ProjectIDFromString before) as [p [e|]] eqn:Hp; [discriminate|].
      destruct (ActionIDFromString after) as [a [e|]] eqn:Ha; [discriminate|].
      intros [= -> ->]. now exists before, after.
    + rewrite (parseImportID_no_separator _ Hcut). discriminate.
  - intros (before & after & Hcut & Hp & Ha).
    now rewrite (parseImportID_halves _ _ _ Hcut), Hp, Ha.
Qed.

Lemma SetAttribute_Diagnostics name value resp :
  ip_Diagnostics (SetAttribute name value resp) = ip_Diagnostics resp.
Proof. reflexivity. Qed.

Lemma SetAttribute_State name value resp :
  ip_State (SetAttribute name value resp) = <[name := value]> (ip_State resp).
Proof. reflexivity. Qed.

Lemma parseImportID_failure s projectID actionID err :
  parseImportID s = (projectID, actionID, Some err) -> projectID = 0 /\ actionID = 0.
Proof.
  destruct (cut "/" s) as [[before after]|] eqn:Hcut.
  - rewrite (parseImportID_halves _ _ _ Hcut).
    destruct (ProjectIDFromString before) as [p [e|]]; [intros [= <- <- _]; now split|].
    destruct (ActionIDFromString after) as [a [e|]]; [intros [= <- <- _]; now split|].
    discriminate.
  - rewrite (parseImportID_no_separator _ Hcut). intros [= <- <- _]. now split.
Qed.

End ImportFacts.

(** C5: the import identifier of an action is cut at its first "/"; it is
    accepted exactly when the separator is there and both halves parse as
    identifiers, and is rejected otherwise: without a separator with the
    error about the form PROJECT_ID/ACTION_ID, else with the error of the
    half that failed.  Importing "42/7" sets [project_id] to "42" and [id]
    to "7" without a diagnostic; importing "42" reports the error about the
    form.  (The import takes no client: it cannot reach the network.) *)
Theorem C5_import_identifier :
  (forall s, match cut "/" s with
             | None => ~ In "/"%char (list_ascii_of_string s)
             | Some (before, after) =>
                 s = before +:+ String "/" after
                 /\ ~ In "/"%char (list_ascii_of_string before)
             end)
  /\ (forall s projectID actionID,
        provider.parseImportID s = (projectID, actionID, None)
        <-> exists before after,
              cut "/" s = Some (before, after)
              /\ posthog.ProjectIDFromString before = (projectID, None)
              /\ posthog.ActionIDFromString after = (actionID, None))
  /\ (forall s, cut "/" s = None ->
        provider.parseImportID s = (0, 0, Some ErrImportIDForm))
  /\ (forall s before after v e, cut "/" s = Some (before, after) ->
        (posthog.ProjectIDFromString before = (v, Some e) ->
         provider.parseImportID s = (0, 0, Some (ErrInvalidProjectID e)))
        /\ (snd (posthog.ProjectIDFromString before) = None ->
            posthog.ActionIDFromString after = (v, Some e) ->
            provider.parseImportID s = (0, 0, Some (ErrInvalidActionID e))))
  /\ (let resp := provider.actionResource_ImportState
                    (provider.mkImportStateRequest "42/7")
                    (provider.mkImportStateResponse [] ∅) in
      provider.ip_Diagnostics resp = []
      /\ provider.ip_State resp !! "project_id" = Some "42"
      /\ provider.ip_State resp !! "id" = Some "7")
  /\ (let resp := provider.actionResource_ImportState
                    (provider.mkImportStateRequest "42")
                    (provider.mkImportStateResponse [] ∅) in
      provider.ip_Diagnostics resp
      = [diag.mkDiagnostic diag.SeverityError "Invalid import ID"
           (diag.ErrorText ErrImportIDForm)]).
Proof.
  split; [exact (cut_first "/")|].
  split; [exact parseImportID_ok|].
  split; [exact parseImportID_no_separator|].
  split.
  { intros s before after v e Hcut. rewrite (parseImportID_halves _ _ _ Hcut). split.
    - now intros ->.
    - destruct (posthog.ProjectIDFromString before) as [p [e'|]]; [discriminate|].
      now intros _ ->. }
  split; vm_compute; repeat split.
Qed.

Lemma C5_import_identifier_witness :
  provider.parseImportID "42/7" = (42, 7, None)
  /\ provider.parseImportID "42" = (0, 0, Some ErrImportIDForm)
  /\ provider.parseImportID "42/x" = (0, 0, Some (ErrInvalidActionID (strconv.syntaxError "x"))).
Proof.
  destruct C5_import_identifier as (_ & Hok & Hform & Hhalf & _).
  split; [|split].
  - apply Hok. exists "42", "7". repeat split.
  - apply Hform. reflexivity.
  - apply (Hhalf "42/x" "42" "x" 0 (strconv.syntaxError "x")); reflexivity.
Defined.

(** C10 (as stated, refuted): after the failed import of "42" into an action
    the attribute [project_id] is not set at all, and after the failed
    import of a number beyond 64 bits into a project the attribute [id]
    holds the largest identifier, not "0". *)
Lemma C10_not_always_zero :
  (let resp := provider.actionResource_ImportState
                 (provider.mkImportStateRequest "42")
                 (provider.mkImportStateResponse [] ∅) in
   provider.ip_State resp !! "id" = Some "0"
   /\ provider.ip_State resp !! "project_id" = None
   /\ provider.ip_State resp !! "project_id" <> Some "0")
  /\ (let resp := provider.projectResource_ImportState
                    (provider.mkImportStateRequest "18446744073709551616")
                    (provider.mkImportStateResponse [] ∅) in
      provider.ip_State resp !! "id" = Some "18446744073709551615"
      /\ provider.ip_State resp !! "id" <> Some "0").
Proof.
  split; vm_compute; repeat split; discriminate.
Qed.

(** C10 (amended): when the identifier given to ImportState fails to parse,
    an error diagnostic is added and the import goes on to write [id].  For
    an action, [id] is set to "0" and the import stops there, because the
    diagnostics already hold an error: [project_id] is not written.  For a
    project, [id] is set to the rendering of the value the parser returned
    next to its error: "0" after a syntax error, "18446744073709551615"
    after a range error. *)
Theorem C10_import_state_on_error :
  (forall req resp projectID actionID err,
     provider.parseImportID (provider.ir_ID req) = (projectID, actionID, Some err) ->
     let resp' := provider.actionResource_ImportState req resp in
     diag.HasError (provider.ip_Diagnostics resp') = true
     /\ provider.ip_State resp' = <["id" := "0"]> (provider.ip_State resp))
  /\ (forall req resp v e,
        posthog.ProjectIDFromString (provider.ir_ID req) = (v, Some e) ->
        let resp' := provider.projectResource_ImportState req resp in
        diag.HasError (provider.ip_Diagnostics resp') = true
        /\ provider.ip_State resp' = <["id" := posthog.ProjectID_String v]> (provider.ip_State resp)
        /\ ((strconv.Err e = strconv.ErrSyntax /\ posthog.ProjectID_String v = "0")
            \/ (strconv.Err e = strconv.ErrRange
                /\ posthog.ProjectID_String v = "18446744073709551615"))).
Proof.
  split.
  - intros req resp projectID actionID err Hparse. cbn zeta.
    destruct (parseImportID_failure _ _ _ _ Hparse) as [-> ->].
    unfold provider.actionResource_ImportState. rewrite Hparse.
    rewrite SetAttribute_Diagnostics. cbn [provider.ip_Diagnostics].
    rewrite HasError_AddError, SetAttribute_Diagnostics, SetAttribute_State.
    split; [apply HasError_AddError|reflexivity].
  - intros req resp v e Hparse. cbn zeta.
    unfold provider.projectResource_ImportState. rewrite Hparse.
    rewrite SetAttribute_Diagnostics, SetAttribute_State.
    split; [apply HasError_AddError|]. split; [reflexivity|].
    unfold posthog.ProjectIDFromString in Hparse.
    destruct (strconv.ParseUint (provider.ir_ID req)) as [v' e'] eqn:Hp.
    injection Hparse as -> ->.
    destruct (ParseUint_failure _ _ _ Hp) as [[He ->]|[He ->]]; [left|right]; now split.
Qed.

Lemma C10_import_state_on_error_witness :
  provider.ip_State (provider.actionResource_ImportState
                       (provider.mkImportStateRequest "42/x")
                       (provider.mkImportStateResponse [] ∅))
  = <["id" := "0"]> ∅
  /\ provider.ip_State (provider.projectResource_ImportState
                          (provider.mkImportStateRequest "abc")
                          (provider.mkImportStateResponse [] ∅))
     = <["id" := "0"]> ∅.
Proof.
  destruct C10_import_state_on_error as [Haction Hproject]. split.
  - apply (Haction (provider.mkImportStateRequest "42/x")
             (provider.mkImportStateResponse [] ∅) 0 0
             (ErrInvalidActionID (strconv.syntaxError "x"))).
    reflexivity.
  - apply (Hproject (provider.mkImportStateRequest "abc")
             (provider.mkImportStateResponse [] ∅) 0 (strconv.syntaxError "abc")).
    reflexivity.
Defined.

(** ** Requests *)

Section Requests.
Import strconv posthog.
Context {W : Type} (lib : Lib).

(** The request of the one round trip a call of [do] made. *)
Lemma do_request {T : Type} (c : Client W) (r : apiRequest T) st out st' req res :
  do lib c r st = (out, st') ->
  transcript st' = transcript st ++ [mkExchange req res] ->
  http.Method req = Method r
  /\ http.URL req = Host c +:+ "/api" +:+ Path r
  /\ http.Body req = option_map json_Marshal (Input r).
Proof.
  intros Hdo Htr.
  apply do_exchange in Hdo as [[Hsame _]|(req' & res' & Htr' & Hm & Hu & Hb & _ & _)].
  - rewrite Hsame in Htr. symmetry in Htr. now apply transcript_grows in Htr.
  - rewrite Htr' in Htr. apply app_inj_tail in Htr as [_ [= -> _]]. repeat split; assumption.
Qed.

(** When the request can be built, [do] makes its round trip. *)
Lemma do_sends {T : Type} (c : Client W) (r : apiRequest T) st :
  NewRequestError lib (Method r) (Host c +:+ "/api" +:+ Path r) = None ->
  exists req res,
    transcript (snd (do lib c r st)) = transcript st ++ [mkExchange req res].
Proof.
  intros Hok. unfold do, NewRequestWithContext. rewrite Hok.
  unfold bind, HTTPClient_Do.
  match goal with |- context [HTTPClient c ?q (world st)] => set (req := q) end.
  destruct (HTTPClient c req (world st)) as [res w']. exists req, res.
  destruct res as [err|res]; [reflexivity|].
  destruct (OutputNilIf404 r && (http.StatusCode res =? 404)%Z);
    [|destruct (negb (http.StatusCode res =? ExpectedCode r)%Z)]; reflexivity.
Qed.

Lemma formatBits_digits fuel : forall u acc,
  Forall (fun c => isDigit c = true) acc ->
  Forall (fun c => isDigit c = true) (formatBits fuel u acc).
Proof.
  induction fuel as [|fuel IH]; intros u acc Hacc; cbn [formatBits]; [exact Hacc|].
  destruct (u <? 10) eqn:Hu.
  - apply N.ltb_lt in Hu. constructor; [|exact Hacc].
    apply isDigit_bounds. rewrite N_of_digitChar by assumption. lia.
  - apply IH. constructor; [|exact Hacc].
    assert (Hm := N.mod_lt u 10 ltac:(lia)).
    set (m := u mod 10) in *. clearbody m.
    apply isDigit_bounds. rewrite N_of_digitChar by assumption. lia.
Qed.

Lemma escape_digits s :
  Forall (fun c => isDigit c = true) (list_ascii_of_string s) -> url.escape s = s.
Proof.
  induction s as [|c s IH]; cbn [list_ascii_of_string url.escape]; [reflexivity|].
  intros H. apply Forall_cons_iff in H as [Hc Hs]. rewrite (IH Hs).
  apply isDigit_bounds in Hc. unfold url.shouldEscape.
  replace ((48 <=? N_of_ascii c) && (N_of_ascii c <=? 57)) with true.
  - now rewrite orb_true_r.
  - symmetry. apply andb_true_iff. split; apply N.leb_le; lia.
Qed.

(** An identifier is embedded in a path as its decimal digits. *)
Lemma PathEscape_FormatUint u : url.PathEscape (FormatUint u) = FormatUint u.
Proof.
  apply escape_digits. unfold FormatUint.
  rewrite list_ascii_of_string_of_list_ascii. apply formatBits_digits. constructor.
Qed.

Lemma marshalSlice_nilSliceToEmpty {A : Type} (f : A -> JSON) (v : slice A) :
  marshalSlice f (nilSliceToEmpty v) = JArray (map f (elems v)).
Proof. destruct v; reflexivity. Qed.


End Requests.

Section CreateProperties.
Import posthog.
Context {W : Type} (lib : Lib) (c : Client W).


End CreateProperties.


(** ** Deleting an action *)

Section DeleteProperties.
Import posthog provider.
Context {W : Type} (lib : Lib) (r : actionResource (W := W)).

(** Once the state is read and translated, [Delete] is one call of
    [UpdateAction] whose result is dropped but for its error. *)
Lemma Delete_run req resp st projectID action diags :
  diag.HasError (diag.Append (dp_Diagnostics resp) (State_GetDiags (dr_State req))) = false ->
  actionFromModel (State_Get (dr_State req)) = (projectID, action, diags) ->
  diag.HasError diags = false ->
  Delete lib r req resp st =
  let ds := diag.Append (diag.Append (dp_Diagnostics resp) (State_GetDiags (dr_State req)))
              diags in
  let '(out, st') := UpdateAction lib (client r) projectID (markedDeleted action) st in
  (match snd out with
   | Some err =>
       mkDeleteResponse
         (diag.AddError "Client Error"
            (diag.Sprintf "Error deleting action %s: %s" (ActionID_String (Action.ID action)) err)
            ds)
   | None => mkDeleteResponse ds
   end, st').
Proof.
  intros Hget Hmodel Hdiags. unfold Delete. cbn [dp_Diagnostics]. rewrite Hget, Hmodel.
  cbn [dp_Diagnostics]. rewrite HasError_Append, Hget, Hdiags. cbn [orb].
  unfold bind, markedDeleted.
  destruct (UpdateAction lib (client r) projectID _ st) as [out st'].
  destruct (snd out); reflexivity.
Qed.

(** Whatever the state, [Delete] makes no round trip or one, a PATCH. *)
Lemma Delete_only_patches req resp st :
  transcript (snd (Delete lib r req resp st)) = transcript st
  \/ exists hreq hres,
       transcript (snd (Delete lib r req resp st)) = transcript st ++ [mkExchange hreq hres]
       /\ http.Method hreq = "PATCH".
Proof.
  unfold Delete.
  destruct (diag.HasError _); [now left|].
  destruct (actionFromModel (State_Get (dr_State req))) as [[projectID action] diags].
  destruct (diag.HasError _); [now left|].
  unfold bind.
  match goal with |- context [UpdateAction lib (client r) projectID ?a st] => set (a' := a) end.
  destruct (UpdateAction lib (client r) projectID a' st) as [out st'] eqn:Hupd.
  unfold UpdateAction in Hupd.
  apply do_exchange in Hupd as [[Hsame _]|(hreq & hres & Hgrow & Hm & _)].
  - left. cbn. destruct (snd out); cbn; exact Hsame.
  - right. exists hreq, hres. split; [|exact Hm].
    cbn. destruct (snd out); cbn; exact Hgrow.
Qed.

(** C6: deleting an action never issues a DELETE: whatever the state, the
    operation makes no round trip or exactly one, a PATCH.  When the state
    is read and translates to project [projectID] and an action, and the
    request can be built, it makes exactly one round trip: a PATCH to
    /api/projects/<projectID>/actions/<action id> whose body is the whole
    action with "deleted" set to true.  The reply is decoded and dropped:
    after a 200 whose body decodes, whatever it holds, the response of the
    operation carries the diagnostics gathered before the call and nothing
    else. *)
Theorem C6_delete_is_a_patch req resp st :
  (transcript (snd (Delete lib r req resp st)) = transcript st
   \/ exists hreq hres,
        transcript (snd (Delete lib r req resp st)) = transcript st ++ [mkExchange hreq hres]
        /\ http.Method hreq = "PATCH")
  /\ forall projectID action diags,
       diag.HasError (diag.Append (dp_Diagnostics resp) (State_GetDiags (dr_State req)))
         = false ->
       actionFromModel (State_Get (dr_State req)) = (projectID, action, diags) ->
       diag.HasError diags = false ->
       NewRequestError lib "PATCH"
         (Host (client r) +:+ "/api" +:+ "/projects/" +:+ ProjectID_String projectID
          +:+ "/actions/" +:+ ActionID_String (Action.ID action)) = None ->
       exists hreq hres body,
         transcript (snd (Delete lib r req resp st)) = transcript st ++ [mkExchange hreq hres]
         /\ http.Method hreq = "PATCH"
         /\ http.URL hreq
            = Host (client r) +:+ "/api" +:+ "/projects/" +:+ ProjectID_String projectID
              +:+ "/actions/" +:+ ActionID_String (Action.ID action)
         /\ http.Body hreq = Some body
         /\ body = Action.MarshalJSON
                     (Action.mk (Action.ID action) (Action.Name action)
                        (Action.Description action) (nilSliceToEmpty (Action.Tags action))
                        (Action.PostToSlack action) (Action.SlackMessageFormat action)
                        (nilSliceToEmpty (Action.Steps action)) true
                        (Action.IsCalculating action) (Action.CreatedAt action)
                        (Action.LastCalculatedAt action))
         /\ member "deleted" body = Some (JBool true)
         /\ member "id" body = Some (JNumber (Action.ID action))
         /\ (forall res v,
               hres = inr res -> http.StatusCode res = 200%Z ->
               decodePointer lib (UnmarshalAction lib) (http.ResponseBody res) = (v, None) ->
               fst (Delete lib r req resp st)
               = mkDeleteResponse
                   (diag.Append
                      (diag.Append (dp_Diagnostics resp) (State_GetDiags (dr_State req)))
                      diags)).
Proof.
  split; [apply Delete_only_patches|].
  intros projectID action diags Hget Hmodel Hdiags Hnew.
  rewrite (Delete_run req resp st projectID action diags Hget Hmodel Hdiags). cbn zeta.
  unfold UpdateAction, markedDeleted.
  cbn [Action.ID Action.Name Action.Description Action.Tags Action.PostToSlack
       Action.SlackMessageFormat Action.Steps Action.Deleted Action.IsCalculating
       Action.CreatedAt Action.LastCalculatedAt].
  unfold ProjectID_String, ActionID_String in *. rewrite !PathEscape_FormatUint.
  match goal with |- context [do lib (client r) ?q st] => set (r0 := q) end.
  destruct (do_sends lib (client r) r0 st Hnew) as (hreq & hres & Htr).
  destruct (do lib (client r) r0 st) as [out st'] eqn:Hdo. cbn [snd] in Htr.
  destruct (do_request lib (client r) r0 st out st' hreq hres Hdo Htr) as (Hm & Hu & Hb).
  exists hreq, hres. eexists.
  split; [cbn [snd]; exact Htr|]. split; [exact Hm|]. split; [exact Hu|].
  split; [exact Hb|]. split; [reflexivity|]. split; [reflexivity|]. split; [reflexivity|].
  intros res v -> H200 Hdecode. cbn [fst].
  rewrite (do_answer lib (client r) r0 st out st' hreq (inr res) Hdo Htr).
  unfold answerTo, decodeOutput. subst r0.
  cbn [OutputNilIf404 ExpectedCode Output andb]. rewrite H200. cbn. now rewrite Hdecode.
Qed.

End DeleteProperties.

Lemma C6_delete_is_a_patch_witness :
  exists hreq hres body,
    posthog.transcript
      (snd (provider.Delete double.lib
              (provider.mkActionResource (double.answering 200 "{}"))
              (provider.mkDeleteRequest (mkTfState double.sampleModel []))
              (provider.mkDeleteResponse []) double.start))
    = [posthog.mkExchange hreq hres]
    /\ http.Method hreq = "PATCH"
    /\ http.URL hreq = "https://app.posthog.com/api/projects/42/actions/5"
    /\ http.Body hreq = Some body
    /\ member "deleted" body = Some (JBool true)
    /\ member "id" body = Some (JNumber 5).
Proof.
  destruct (C6_delete_is_a_patch double.lib
              (provider.mkActionResource (double.answering 200 "{}"))
              (provider.mkDeleteRequest (mkTfState double.sampleModel []))
              (provider.mkDeleteResponse []) double.start) as [_ Hpatch].
  destruct (Hpatch 42 (snd (fst (provider.actionFromModel double.sampleModel))) [])
    as (hreq & hres & body & Htr & Hm & Hu & Hb & _ & Hdeleted & Hid & _);
    [reflexivity|reflexivity|reflexivity|reflexivity|].
  exists hreq, hres, body. repeat split; assumption.
Defined.

(** * Further properties *)

(** ** The client: one request, its headers, its failures *)

Section RoundTrip.
Import posthog.
Context {W : Type} (lib : Lib) (c : Client W).

(** [do] either cannot build the request, and then leaves the transcript as
    it is, or hands [requestOf c r] to the transport once. *)
Lemma do_run {T : Type} (r : apiRequest T) st :
  match NewRequestError lib (Method r) (Host c +:+ "/api" +:+ Path r) with
  | Some err => do lib c r st = ((None, Some (ErrCreatingRequest err)), st)
  | None =>
      let '(res, w') := HTTPClient c (requestOf c r) (world st) in
      do lib c r st
      = (answerTo r res, mkNetState w' (transcript st ++ [mkExchange (requestOf c r) res]))
  end.
Proof.
  unfold do, NewRequestWithContext, requestOf.
  destruct (NewRequestError lib (Method r) (Host c +:+ "/api" +:+ Path r)) as [err|];
    [reflexivity|].
  unfold bind, HTTPClient_Do, http.Header_Add, answerTo, ret.
  destruct (Input r), (Output r);
    cbn [option_map app http.Method http.URL http.Body http.Header];
    match goal with
    | |- context [HTTPClient c ?q (world st)] =>
        destruct (HTTPClient c q (world st)) as [[err|res] w']
    end; try reflexivity;
    destruct (OutputNilIf404 r && (http.StatusCode res =? 404)%Z);
    try reflexivity;
    destruct (negb (http.StatusCode res =? ExpectedCode r)%Z); reflexivity.
Qed.

(** The request of a round trip [do] made is [requestOf c r]. *)
Lemma do_sent {T : Type} (r : apiRequest T) st out st' req res :
  do lib c r st = (out, st') ->
  transcript st' = transcript st ++ [mkExchange req res] ->
  req = requestOf c r.
Proof.
  intros Hdo Htr. pose proof (do_run r st) as Hrun.
  destruct (NewRequestError lib (Method r) (Host c +:+ "/api" +:+ Path r)) as [err|].
  - rewrite Hrun in Hdo. injection Hdo as _ <-. symmetry in Htr.
    now apply transcript_grows in Htr.
  - destruct (HTTPClient c (requestOf c r) (world st)) as [res' w'].
    rewrite Hrun in Hdo. injection Hdo as _ <-. cbn [transcript] in Htr.
    now apply app_inj_tail in Htr as [_ [= <- _]].
Qed.

(** X1.  The request of a round trip: the method and the URL of the call, the
    marshalled input as body when there is one, and the headers in this
    order: Content-Type when there is a body, Accept when an output is
    expected, Authorization with the key of the client, always. *)
Theorem do_request_shape {T : Type} (r : apiRequest T) st out st' req res :
  do lib c r st = (out, st') ->
  transcript st' = transcript st ++ [mkExchange req res] ->
  http.Method req = Method r
  /\ http.URL req = Host c +:+ "/api" +:+ Path r
  /\ http.Body req = option_map json_Marshal (Input r)
  /\ http.Header req
     = (match Input r with
        | Some _ => [("Content-Type", "application/json")]
        | None => []
        end)
       ++ (match Output r with
           | Some _ => [("Accept", "application/json")]
           | None => []
           end)
       ++ [("Authorization", "Bearer " +:+ APIKey c)].
Proof.
  intros Hdo Htr. rewrite (do_sent r st out st' req res Hdo Htr). repeat split.
Qed.

(** X2.  A call makes no round trip when the request cannot be built, and
    reports that; otherwise it makes exactly one, and a failure of the
    transport is reported without a second attempt and without a result. *)
Theorem do_single_attempt {T : Type} (r : apiRequest T) st out st' :
  do lib c r st = (out, st') ->
  (exists err,
     NewRequestError lib (Method r) (Host c +:+ "/api" +:+ Path r) = Some err
     /\ out = (None, Some (ErrCreatingRequest err)) /\ st' = st)
  \/ (exists res,
        NewRequestError lib (Method r) (Host c +:+ "/api" +:+ Path r) = None
        /\ transcript st' = transcript st ++ [mkExchange (requestOf c r) res]
        /\ forall err, res = inl err -> out = (None, Some (ErrDoingRequest err))).
Proof.
  intros Hdo. pose proof (do_run r st) as Hrun.
  destruct (NewRequestError lib (Method r) (Host c +:+ "/api" +:+ Path r)) as [err|].
  - left. exists err. rewrite Hrun in Hdo. injection Hdo as <- <-. repeat split.
  - right. destruct (HTTPClient c (requestOf c r) (world st)) as [res w'].
    rewrite Hrun in Hdo. injection Hdo as <- <-. exists res. repeat split.
    now intros err ->.
Qed.

(** What a pointer decoder makes of a body. *)
Lemma decodeOutput_pointer {T : Type} (r : apiRequest T) unmarshal body :
  Output r = Some (decodePointer lib unmarshal) ->
  decodeOutput r body =
  if firstValueIsNull body then (None, None)
  else match ReadValue lib body with
       | inl err => (None, Some (ErrDecodingReply err))
       | inr value =>
           (Some (fst (unmarshal value)),
            option_map ErrDecodingReply (snd (unmarshal value)))
       end.
Proof.
  intros Ho. unfold decodeOutput. rewrite Ho. unfold decodePointer.
  destruct (firstValueIsNull body); [reflexivity|].
  destruct (ReadValue lib body) as [err|value]; [reflexivity|].
  now destruct (unmarshal value).
Qed.

Lemma skipSpace_cons (a : ascii) (s : string) :
  skipSpace (String a s) = if isSpace a then skipSpace s else String a s.
Proof. reflexivity. Qed.

Lemma skipSpace_padded (ws : list ascii) (t : string) :
  forallb isSpace ws = true -> skipSpace (string_of_list_ascii ws +:+ t) = skipSpace t.
Proof.
  induction ws as [|a ws IH]; cbn [forallb string_of_list_ascii].
  - reflexivity.
  - intros [Ha Hws]%andb_true_iff.
    change (skipSpace (String a (string_of_list_ascii ws +:+ t)) = skipSpace t).
    rewrite skipSpace_cons, Ha. now apply IH.
Qed.

(** White space before the literal [null], and anything after it, do not
    matter. *)
Lemma firstValueIsNull_padded (ws : list ascii) (rest : string) :
  forallb isSpace ws = true ->
  firstValueIsNull (string_of_list_ascii ws +:+ "null" +:+ rest) = true.
Proof.
  intros Hws. unfold firstValueIsNull. now rewrite skipSpace_padded.
Qed.

(** X3.  A read answered 200 decodes the first JSON value of the body.  When
    that value is the literal [null], white space around it or not, the
    read reports absence; a syntax error is returned with a nil result; any
    other value is decoded into a fresh object, which is returned, next to
    the error when the decoding reports one. *)
Theorem read_ok_reply st st' req res :
  http.StatusCode res = 200%Z ->
  (forall projectID actionID out,
     GetAction lib c projectID actionID st = (out, st') ->
     transcript st' = transcript st ++ [mkExchange req (inr res)] ->
     out = if firstValueIsNull (http.ResponseBody res) then (None, None)
           else match ReadValue lib (http.ResponseBody res) with
                | inl err => (None, Some (ErrDecodingReply err))
                | inr value =>
                    (Some (fst (UnmarshalAction lib value)),
                     option_map ErrDecodingReply (snd (UnmarshalAction lib value)))
                end)
  /\ (forall projectID out,
        GetProject lib c projectID st = (out, st') ->
        transcript st' = transcript st ++ [mkExchange req (inr res)] ->
        out = if firstValueIsNull (http.ResponseBody res) then (None, None)
              else match ReadValue lib (http.ResponseBody res) with
                   | inl err => (None, Some (ErrDecodingReply err))
                   | inr value =>
                       (Some (fst (Project_UnmarshalJSON lib value)),
                        option_map ErrDecodingReply (snd (Project_UnmarshalJSON lib value)))
                   end)
  /\ (forall ws rest,
        forallb isSpace ws = true ->
        firstValueIsNull (string_of_list_ascii ws +:+ "null" +:+ rest) = true).
Proof.
  intros H200. split; [|split].
  - intros projectID actionID out Hdo Htr. unfold GetAction in Hdo.
    rewrite (do_answer lib c _ st out st' req (inr res) Hdo Htr). unfold answerTo.
    cbn [OutputNilIf404 ExpectedCode]. rewrite H200. cbn [andb Z.eqb negb].
    change (200 =? 404)%Z with false. change (negb (200 =? http.StatusOK)%Z) with false.
    cbn iota. now apply decodeOutput_pointer.
  - intros projectID out Hdo Htr. unfold GetProject in Hdo.
    rewrite (do_answer lib c _ st out st' req (inr res) Hdo Htr). unfold answerTo.
    cbn [OutputNilIf404 ExpectedCode]. rewrite H200.
    change (200 =? 404)%Z with false. change (negb (200 =? http.StatusOK)%Z) with false.
    cbn [andb]. now apply decodeOutput_pointer.
  - apply firstValueIsNull_padded.
Qed.

(** X4.  Absence is for reads only: a create, an update or the deletion of
    a project answered 404 fails with the unexpected-status error. *)
Theorem not_found_is_an_error_for_writes st st' req res :
  http.StatusCode res = 404%Z ->
  (forall projectID a out,
     CreateAction lib c projectID a st = (out, st') ->
     transcript st' = transcript st ++ [mkExchange req (inr res)] ->
     out = (None, Some (ErrUnexpectedStatus 201 404 (http.ResponseBody res))))
  /\ (forall projectID a out,
        UpdateAction lib c projectID a st = (out, st') ->
        transcript st' = transcript st ++ [mkExchange req (inr res)] ->
        out = (None, Some (ErrUnexpectedStatus 200 404 (http.ResponseBody res))))
  /\ (forall p out,
        CreateProject lib c p st = (out, st') ->
        transcript st' = transcript st ++ [mkExchange req (inr res)] ->
        out = (None, Some (ErrUnexpectedStatus 201 404 (http.ResponseBody res))))
  /\ (forall p out,
        UpdateProject lib c p st = (out, st') ->
        transcript st' = transcript st ++ [mkExchange req (inr res)] ->
        out = (None, Some (ErrUnexpectedStatus 200 404 (http.ResponseBody res))))
  /\ (forall projectID err,
        DeleteProject lib c projectID st = (err, st') ->
        transcript st' = transcript st ++ [mkExchange req (inr res)] ->
        err = Some (ErrUnexpectedStatus 204 404 (http.ResponseBody res))).
Proof.
  intros H404.
  assert (Hwrite : forall T (r : apiRequest T) out,
    OutputNilIf404 r = false -> ExpectedCode r <> 404%Z ->
    do lib c r st = (out, st') ->
    transcript st' = transcript st ++ [mkExchange req (inr res)] ->
    out = (None, Some (ErrUnexpectedStatus (ExpectedCode r) 404 (http.ResponseBody res)))).
  { intros T r out Hnil Hexp Hdo Htr. rewrite <- H404.
    apply (do_unexpected_status lib c r st out st' req res Hdo Htr).
    - rewrite H404. congruence.
    - rewrite Hnil. intros [[=] _]. }
  repeat split.
  - intros projectID a out. apply Hwrite; [reflexivity|discriminate].
  - intros projectID a out. apply Hwrite; [reflexivity|discriminate].
  - intros p out. apply Hwrite; [reflexivity|discriminate].
  - intros p out. apply Hwrite; [reflexivity|discriminate].
  - intros projectID err Hdel Htr. unfold DeleteProject, bind, ret in Hdel.
    match type of Hdel with context [do lib c ?q st] => set (r0 := q) in * end.
    destruct (do lib c r0 st) as [out st1] eqn:Hdo. injection Hdel as <- <-.
    now rewrite (Hwrite _ r0 out eq_refl ltac:(discriminate) Hdo Htr).
Qed.

End RoundTrip.

Lemma do_request_shape_witness :
  let c := double.answering 204 "" in
  let r := posthog.mkApiRequest (T := unit) "DELETE" "/projects/42"
             http.StatusNoContent None None false in
  http.URL (requestOf c r) = "https://app.posthog.com/api/projects/42"
  /\ http.Header (requestOf c r) = [("Authorization", "Bearer phx_key")].
Proof.
  intros c r.
  destruct (do_request_shape double.lib c r double.start
              (fst (posthog.do double.lib c r double.start))
              (snd (posthog.do double.lib c r double.start))
              (requestOf c r) (inr (http.mkResponse 204 ""))
              (surjective_pairing _) eq_refl) as (_ & Hurl & _ & Hheader).
  split; [exact Hurl|exact Hheader].
Defined.

Lemma do_single_attempt_witness :
  let c := posthog.mkClient (W := unit) (fun _ w => (inl "connection refused", w))
             "https://app.posthog.com" "phx_key" in
  let r := posthog.mkApiRequest (T := unit) "DELETE" "/projects/42"
             http.StatusNoContent None None false in
  fst (posthog.do double.lib c r double.start)
  = (None, Some (ErrDoingRequest "connection refused"))
  /\ length (posthog.transcript (snd (posthog.do double.lib c r double.start))) = 1%nat.
Proof.
  intros c r.
  destruct (do_single_attempt double.lib c r double.start
              (fst (posthog.do double.lib c r double.start))
              (snd (posthog.do double.lib c r double.start))
              (surjective_pairing _)) as [(err & Hnew & _)|(res & _ & Htr & Hfail)].
  - discriminate Hnew.
  - split; [|reflexivity].
    apply Hfail. vm_compute in Htr. now injection Htr as <-.
Defined.

Lemma read_ok_reply_witness :
  fst (posthog.GetAction double.lib (double.answering 200 " null ") 42 7 double.start)
  = (None, None)
  /\ fst (posthog.GetProject double.lib (double.answering 200 "{}") 1 double.start)
     = (Some (posthog.Project.mk 1 "t" false "UTC" None None None "" false "toolbar"
                false false true "v2" None false "phc_token" true
                posthog.zeroTime posthog.zeroTime), None).
Proof.
  split.
  - pose proof (read_ok_reply double.lib (double.answering 200 " null ") double.start
                  (snd (posthog.GetAction double.lib (double.answering 200 " null ") 42 7
                          double.start))
                  (requestOf (double.answering 200 " null ")
                     (posthog.mkApiRequest "GET" "/projects/42/actions/7" http.StatusOK None
                        (Some (posthog.decodePointer double.lib (posthog.UnmarshalAction double.lib)))
                        true))
                  (http.mkResponse 200 " null ") eq_refl) as [Haction _].
    apply (Haction 42 7); [apply surjective_pairing|reflexivity].
  - pose proof (read_ok_reply double.lib (double.answering 200 "{}") double.start
                  (snd (posthog.GetProject double.lib (double.answering 200 "{}") 1
                          double.start))
                  (requestOf (double.answering 200 "{}")
                     (posthog.mkApiRequest "GET" "/projects/1" http.StatusOK None
                        (Some (posthog.decodePointer double.lib (posthog.Project_UnmarshalJSON double.lib)))
                        true))
                  (http.mkResponse 200 "{}") eq_refl) as (_ & Hproject & _).
    apply (Hproject 1); [apply surjective_pairing|reflexivity].
Defined.

Lemma not_found_is_an_error_for_writes_witness :
  fst (posthog.UpdateAction double.lib (double.answering 404 "Not found.") 42
         double.sampleAction double.start)
  = (None, Some (ErrUnexpectedStatus 200 404 "Not found.")).
Proof.
  pose proof (not_found_is_an_error_for_writes double.lib (double.answering 404 "Not found.")
                double.start
                (snd (posthog.UpdateAction double.lib (double.answering 404 "Not found.") 42
                        double.sampleAction double.start))
                (requestOf (double.answering 404 "Not found.")
                   (posthog.mkApiRequest "PATCH" "/projects/42/actions/7" http.StatusOK
                      (Some (posthog.InAction double.sampleAction))
                      (Some (posthog.decodePointer double.lib (posthog.UnmarshalAction double.lib)))
                      false))
                (http.mkResponse 404 "Not found.") eq_refl) as (_ & Hupdate & _).
  apply (Hupdate 42 double.sampleAction); [apply surjective_pairing|reflexivity].
Defined.

(** ** The client: what each operation sends *)

Section Operations.
Import posthog.
Context {W : Type} (lib : Lib) (c : Client W).

(** X5.  An update sends arrays, never null, for the lists of its object:
    the tags and the steps of an action, the four list settings of a
    project. *)
Theorem update_sends_empty_lists st st' req res :
  (forall projectID a out,
     UpdateAction lib c projectID a st = (out, st') ->
     transcript st' = transcript st ++ [mkExchange req res] ->
     exists body,
       http.Body req = Some body
       /\ member "tags" body = Some (JArray (map JString (elems (Action.Tags a))))
       /\ member "steps" body
          = Some (JArray (map ActionStep.MarshalJSON (elems (Action.Steps a)))))
  /\ (forall p out,
        UpdateProject lib c p st = (out, st') ->
        transcript st' = transcript st ++ [mkExchange req res] ->
        exists body,
          http.Body req = Some body
          /\ member "app_urls" body
             = Some (JArray (map JString (elems (Project.AppURLs p))))
          /\ member "data_attributes" body
             = Some (JArray (map JString (elems (Project.DataAttributes p))))
          /\ member "person_display_name_properties" body
             = Some (JArray (map JString (elems (Project.PersonDisplayNameProperties p))))
          /\ member "recording_domains" body
             = Some (JArray (map JString (elems (Project.RecordingDomains p))))).
Proof.
  split.
  - intros projectID a out Hdo Htr. unfold UpdateAction in Hdo.
    destruct (do_request lib c _ st out st' req res Hdo Htr) as (_ & _ & Hb).
    cbn [option_map Input] in Hb. eexists. split; [exact Hb|].
    unfold json_Marshal, Action.MarshalJSON. cbn [Action.Tags Action.Steps].
    rewrite !marshalSlice_nilSliceToEmpty. split; reflexivity.
  - intros p out Hdo Htr. unfold UpdateProject in Hdo.
    destruct (do_request lib c _ st out st' req res Hdo Htr) as (_ & _ & Hb).
    cbn [option_map Input] in Hb. eexists. split; [exact Hb|].
    unfold json_Marshal, Project.MarshalJSON.
    cbn [Project.AppURLs Project.DataAttributes Project.PersonDisplayNameProperties
         Project.RecordingDomains].
    rewrite !marshalSlice_nilSliceToEmpty. repeat split.
Qed.

(** X6.  The request line of each operation: identifiers appear in the path
    as their decimal digits, unescaped; reads and the deletion have no
    body. *)
Theorem request_lines st st' req res :
  (forall projectID a out,
     CreateAction lib c projectID a st = (out, st') ->
     transcript st' = transcript st ++ [mkExchange req res] ->
     http.Method req = "POST"
     /\ http.URL req
        = Host c +:+ "/api" +:+ "/projects/" +:+ ProjectID_String projectID +:+ "/actions")
  /\ (forall projectID a out,
        UpdateAction lib c projectID a st = (out, st') ->
        transcript st' = transcript st ++ [mkExchange req res] ->
        http.Method req = "PATCH"
        /\ http.URL req
           = Host c +:+ "/api" +:+ "/projects/" +:+ ProjectID_String projectID
             +:+ "/actions/" +:+ ActionID_String (Action.ID a))
  /\ (forall projectID actionID out,
        GetAction lib c projectID actionID st = (out, st') ->
        transcript st' = transcript st ++ [mkExchange req res] ->
        http.Method req = "GET" /\ http.Body req = None
        /\ http.URL req
           = Host c +:+ "/api" +:+ "/projects/" +:+ ProjectID_String projectID
             +:+ "/actions/" +:+ ActionID_String actionID)
  /\ (forall p out,
        CreateProject lib c p st = (out, st') ->
        transcript st' = transcript st ++ [mkExchange req res] ->
        http.Method req = "POST" /\ http.URL req = Host c +:+ "/api" +:+ "/projects/")
  /\ (forall p out,
        UpdateProject lib c p st = (out, st') ->
        transcript st' = transcript st ++ [mkExchange req res] ->
        http.Method req = "PATCH"
        /\ http.URL req
           = Host c +:+ "/api" +:+ "/projects/" +:+ ProjectID_String (Project.ID p))
  /\ (forall projectID out,
        GetProject lib c projectID st = (out, st') ->
        transcript st' = transcript st ++ [mkExchange req res] ->
        http.Method req = "GET" /\ http.Body req = None
        /\ http.URL req = Host c +:+ "/api" +:+ "/projects/" +:+ ProjectID_String projectID)
  /\ (forall projectID err,
        DeleteProject lib c projectID st = (err, st') ->
        transcript st' = transcript st ++ [mkExchange req res] ->
        http.Method req = "DELETE" /\ http.Body req = None
        /\ http.URL req = Host c +:+ "/api" +:+ "/projects/" +:+ ProjectID_String projectID).
Proof.
  assert (Hline : forall T (r : apiRequest T) out,
    do lib c r st = (out, st') ->
    transcript st' = transcript st ++ [mkExchange req res] ->
    http.Method req = Method r /\ http.Body req = option_map json_Marshal (Input r)
    /\ http.URL req = Host c +:+ "/api" +:+ Path r).
  { intros T r out Hdo Htr.
    destruct (do_request lib c r st out st' req res Hdo Htr) as (Hm & Hu & Hb). tauto. }
  repeat apply conj.
  - intros projectID a out Hdo Htr. destruct (Hline _ _ _ Hdo Htr) as (Hm & _ & Hu).
    split; [exact Hm|]. rewrite Hu. cbn [Path]. unfold ProjectID_String.
    now rewrite PathEscape_FormatUint.
  - intros projectID a out Hdo Htr. destruct (Hline _ _ _ Hdo Htr) as (Hm & _ & Hu).
    split; [exact Hm|]. rewrite Hu. cbn [Path Action.ID].
    unfold ProjectID_String, ActionID_String. now rewrite !PathEscape_FormatUint.
  - intros projectID actionID out Hdo Htr. destruct (Hline _ _ _ Hdo Htr) as (Hm & Hb & Hu).
    split; [exact Hm|]. split; [exact Hb|]. rewrite Hu. cbn [Path].
    unfold ProjectID_String, ActionID_String. now rewrite !PathEscape_FormatUint.
  - intros p out Hdo Htr. destruct (Hline _ _ _ Hdo Htr) as (Hm & _ & Hu).
    split; [exact Hm|exact Hu].
  - intros p out Hdo Htr. destruct (Hline _ _ _ Hdo Htr) as (Hm & _ & Hu).
    split; [exact Hm|]. rewrite Hu. cbn [Path Project.ID]. unfold ProjectID_String.
    now rewrite PathEscape_FormatUint.
  - intros projectID out Hdo Htr. destruct (Hline _ _ _ Hdo Htr) as (Hm & Hb & Hu).
    split; [exact Hm|]. split; [exact Hb|]. rewrite Hu. cbn [Path].
    unfold ProjectID_String. now rewrite PathEscape_FormatUint.
  - intros projectID err Hdel Htr. unfold DeleteProject, bind, ret in Hdel.
    match type of Hdel with context [do lib c ?q st] => set (r0 := q) in * end.
    destruct (do lib c r0 st) as [out st0] eqn:Hdo. injection Hdel as _ <-.
    destruct (Hline _ _ _ Hdo Htr) as (Hm & Hb & Hu).
    split; [exact Hm|]. split; [exact Hb|]. rewrite Hu. unfold r0. cbn [Path].
    unfold ProjectID_String. now rewrite PathEscape_FormatUint.
Qed.

(** X7.  Deleting a project succeeds exactly when the answer is 204; the
    body of the answer is not looked at. *)
Theorem DeleteProject_succeeds_on_204 projectID st err st' req res :
  DeleteProject lib c projectID st = (err, st') ->
  transcript st' = transcript st ++ [mkExchange req (inr res)] ->
  (err = None <-> http.StatusCode res = 204%Z)
  /\ (http.StatusCode res <> 204%Z ->
      err = Some (ErrUnexpectedStatus 204 (http.StatusCode res) (http.ResponseBody res))).
Proof.
  intros Hdel Htr. unfold DeleteProject, bind, ret in Hdel.
  match type of Hdel with context [do lib c ?q st] => set (r0 := q) in * end.
  destruct (do lib c r0 st) as [out st0] eqn:Hdo. injection Hdel as <- <-.
  rewrite (do_answer lib c r0 st out st0 req (inr res) Hdo Htr).
  unfold answerTo, decodeOutput. subst r0. cbn [OutputNilIf404 ExpectedCode Output andb].
  destruct (Z.eqb_spec (http.StatusCode res) http.StatusNoContent) as [Heq|Hne]; cbn [negb snd].
  - split; [tauto|]. intros Hne. now elim Hne.
  - split; [|reflexivity]. split; [discriminate|]. intros Heq. now elim Hne.
Qed.

End Operations.

Lemma update_sends_empty_lists_witness :
  exists body,
    http.Body (requestOf (double.answering 200 "{}")
                 (posthog.mkApiRequest "PATCH" "/projects/42/actions/5" http.StatusOK
                    (Some (posthog.InAction
                             (posthog.Action.mk 5 "n" "" (Some []) false "" (Some [])
                                false false posthog.zeroTime posthog.zeroTime)))
                    (Some (posthog.decodePointer double.lib (posthog.UnmarshalAction double.lib)))
                    false)) = Some body
    /\ member "tags" body = Some (JArray [])
    /\ member "steps" body = Some (JArray []).
Proof.
  pose proof (update_sends_empty_lists double.lib (double.answering 200 "{}") double.start
                (snd (posthog.UpdateAction double.lib (double.answering 200 "{}") 42
                        (posthog.Action.mk 5 "n" "" None false "" None
                           false false posthog.zeroTime posthog.zeroTime) double.start))
                (requestOf (double.answering 200 "{}")
                   (posthog.mkApiRequest "PATCH" "/projects/42/actions/5" http.StatusOK
                      (Some (posthog.InAction
                               (posthog.Action.mk 5 "n" "" (Some []) false "" (Some [])
                                  false false posthog.zeroTime posthog.zeroTime)))
                      (Some (posthog.decodePointer double.lib (posthog.UnmarshalAction double.lib)))
                      false))
                (inr (http.mkResponse 200 "{}"))) as [Haction _].
  eapply (Haction 42 (posthog.Action.mk 5 "n" "" None false "" None
                        false false posthog.zeroTime posthog.zeroTime));
    [apply surjective_pairing|reflexivity].
Defined.

Lemma request_lines_witness :
  http.URL (requestOf (double.answering 200 "{}")
              (posthog.mkApiRequest "GET" "/projects/42/actions/7" http.StatusOK None
                 (Some (posthog.decodePointer double.lib (posthog.UnmarshalAction double.lib))) true))
  = "https://app.posthog.com/api/projects/42/actions/7".
Proof.
  pose proof (request_lines double.lib (double.answering 200 "{}") double.start
                (snd (posthog.GetAction double.lib (double.answering 200 "{}") 42 7
                        double.start))
                (requestOf (double.answering 200 "{}")
                   (posthog.mkApiRequest "GET" "/projects/42/actions/7" http.StatusOK None
                      (Some (posthog.decodePointer double.lib (posthog.UnmarshalAction double.lib))) true))
                (inr (http.mkResponse 200 "{}"))) as (_ & _ & Hget & _).
  destruct (Hget 42 7 _ (surjective_pairing _) eq_refl) as (_ & _ & Hurl).
  exact Hurl.
Defined.

Lemma DeleteProject_succeeds_on_204_witness :
  fst (posthog.DeleteProject double.lib (double.answering 204 "ignored") 42 double.start)
  = None.
Proof.
  apply (DeleteProject_succeeds_on_204 double.lib (double.answering 204 "ignored") 42
           double.start _
           (snd (posthog.DeleteProject double.lib (double.answering 204 "ignored") 42
                   double.start))
           (requestOf (double.answering 204 "ignored")
              (posthog.mkApiRequest (T := unit) "DELETE" "/projects/42"
                 http.StatusNoContent None None false))
           (http.mkResponse 204 "ignored")
           (surjective_pairing _) eq_refl).
  reflexivity.
Defined.

(** ** Identifiers: which strings are accepted, and what a rendering is *)

Section Acceptance.
Import strconv posthog.

Lemma decimalValueFrom_mono l : forall k, k <= decimalValueFrom k l.
Proof.
  unfold decimalValueFrom. induction l as [|c l IH]; intros k; cbn [fold_left]; [lia|].
  specialize (IH (k * 10 + (N_of_ascii c - 48))). lia.
Qed.

Lemma parseDigits_value s0 l : forall k n,
  k <= maxUint64 ->
  parseDigits s0 l k = (n, None) ->
  Forall (fun c => isDigit c = true) l /\ decimalValueFrom k l = n /\ n <= maxUint64.
Proof.
  induction l as [|c l IH]; intros k n Hk H.
  - cbn in H. injection H as <-. repeat split; [constructor|assumption].
  - apply parseDigits_cons_ok in H as (Hc & Hle & H).
    destruct (IH _ _ Hle H) as (Hall & Hval & Hmax).
    repeat split; [now constructor|exact Hval|exact Hmax].
Qed.

Lemma parseDigits_accepts s0 l : forall k,
  Forall (fun c => isDigit c = true) l ->
  decimalValueFrom k l <= maxUint64 ->
  parseDigits s0 l k = (decimalValueFrom k l, None).
Proof.
  induction l as [|c l IH]; intros k Hall Hval; [reflexivity|].
  apply Forall_cons_iff in Hall as [Hc Hall].
  pose proof (decimalValueFrom_mono l (k * 10 + (N_of_ascii c - 48))) as Hmono.
  change (decimalValueFrom k (c :: l))
    with (decimalValueFrom (k * 10 + (N_of_ascii c - 48)) l) in *.
  rewrite parseDigits_step by (assumption || lia). now apply IH.
Qed.

Lemma parseDigits_overflows s0 l : forall k,
  k <= maxUint64 ->
  Forall (fun c => isDigit c = true) l ->
  maxUint64 < decimalValueFrom k l ->
  parseDigits s0 l k = (maxUint64, Some (rangeError s0)).
Proof.
  induction l as [|c l IH]; intros k Hk Hall Hval.
  - cbn in Hval. lia.
  - apply Forall_cons_iff in Hall as [Hc Hall].
    change (decimalValueFrom k (c :: l))
      with (decimalValueFrom (k * 10 + (N_of_ascii c - 48)) l) in Hval.
    destruct (N.le_gt_cases (k * 10 + (N_of_ascii c - 48)) maxUint64) as [Hfit|Hbig].
    + rewrite parseDigits_step by assumption. now apply IH.
    + cbn [parseDigits]. rewrite Hc.
      destruct (cutoff <=? k) eqn:Hcut; [reflexivity|].
      apply N.leb_gt in Hcut. rewrite cutoff_val in Hcut.
      apply isDigit_bounds in Hc.
      rewrite (wrap64_small (k * 10)) by (rewrite maxUint64_val; lia).
      assert (Hwrap : wrap64 (k * 10 + (N_of_ascii c - 48))
                      = k * 10 + (N_of_ascii c - 48) - 18446744073709551616).
      { unfold wrap64. change (2 ^ 64) with 18446744073709551616.
        rewrite maxUint64_val in Hbig. symmetry. apply (N.mod_unique _ _ 1); lia. }
      rewrite Hwrap.
      replace (k * 10 + (N_of_ascii c - 48) - 18446744073709551616 <? k * 10) with true
        by (symmetry; apply N.ltb_lt; rewrite maxUint64_val in Hbig; lia).
      reflexivity.
Qed.

Lemma zero_le_maxUint64 : 0 <= maxUint64.
Proof. rewrite maxUint64_val. lia. Qed.

(** X8.  Which strings name an identifier: [ProjectIDFromString] and
    [ActionIDFromString] accept a string exactly when it is a non-empty
    sequence of decimal digits whose value fits 64 bits, and return that
    value; digits whose value does not fit give a range error next to the
    largest identifier. *)
Theorem IDFromString_accepts s :
  (forall n,
     ProjectIDFromString s = (n, None)
     <-> s <> ""
         /\ Forall (fun c => isDigit c = true) (list_ascii_of_string s)
         /\ decimalValue s = n /\ n <= maxUint64)
  /\ (forall n, ActionIDFromString s = (n, None) <-> ProjectIDFromString s = (n, None))
  /\ (s <> "" ->
      Forall (fun c => isDigit c = true) (list_ascii_of_string s) ->
      maxUint64 < decimalValue s ->
      ProjectIDFromString s = (maxUint64, Some (rangeError s))
      /\ ActionIDFromString s = (maxUint64, Some (rangeError s))).
Proof.
  assert (Hsame : forall n, ActionIDFromString s = (n, None)
                            <-> ProjectIDFromString s = (n, None)) by (intros n; reflexivity).
  split; [|split; [exact Hsame|]].
  - intros n. unfold ProjectIDFromString.
    destruct (ParseUint s) as [v e] eqn:Hp. split.
    + intros [= -> ->]. destruct s as [|c s]; [discriminate|].
      rewrite ParseUint_nonempty in Hp by discriminate.
      apply parseDigits_value in Hp as (Hall & Hval & Hmax); [|apply zero_le_maxUint64].
      repeat split; [discriminate|assumption|assumption|assumption].
    + intros (Hne & Hall & Hval & Hmax).
      rewrite ParseUint_nonempty in Hp by assumption.
      unfold decimalValue in Hval. subst n.
      rewrite parseDigits_accepts in Hp by assumption. now injection Hp as <- <-.
  - intros Hne Hall Hbig.
    unfold ProjectIDFromString, ActionIDFromString.
    rewrite ParseUint_nonempty by assumption.
    rewrite parseDigits_overflows; [split; reflexivity|apply zero_le_maxUint64|assumption|].
    exact Hbig.
Qed.

Lemma FormatUint_digits u :
  Forall (fun c => isDigit c = true) (list_ascii_of_string (FormatUint u)).
Proof.
  unfold FormatUint. rewrite list_ascii_of_string_of_list_ascii.
  apply formatBits_digits. constructor.
Qed.

Lemma digitChar_nonzero d : 1 <= d -> d < 10 -> digitChar d <> "0"%char.
Proof.
  intros H1 H10 Heq. apply (f_equal N_of_ascii) in Heq.
  rewrite N_of_digitChar in Heq by assumption. cbn in Heq. lia.
Qed.

Lemma formatBits_head fuel : forall u acc,
  1 <= u -> u < 10 ^ N.of_nat fuel ->
  exists c rest, formatBits fuel u acc = c :: rest /\ c <> "0"%char.
Proof.
  induction fuel as [|fuel IH]; intros u acc H1 Hfuel; [cbn in Hfuel; lia|].
  cbn [formatBits]. destruct (u <? 10) eqn:Hu.
  - apply N.ltb_lt in Hu. eexists _, _. split; [reflexivity|]. now apply digitChar_nonzero.
  - apply N.ltb_ge in Hu. rewrite Nat2N.inj_succ, N.pow_succ_r' in Hfuel.
    assert (Hdm := N.div_mod u 10 ltac:(lia)).
    assert (Hm := N.mod_lt u 10 ltac:(lia)).
    set (q := u / 10) in *. set (m := u mod 10) in *. clearbody q m.
    apply IH; lia.
Qed.

Lemma FormatUint_noLeadingZero u : u <= maxUint64 -> noLeadingZero (FormatUint u) = true.
Proof.
  intros Hu. unfold noLeadingZero, FormatUint. rewrite list_ascii_of_string_of_list_ascii.
  destruct (N.eq_dec u 0) as [->|Hnz]; [reflexivity|].
  destruct (formatBits_head maxDigits u []) as (c & rest & -> & Hc).
  - lia.
  - rewrite maxUint64_val in Hu. unfold maxDigits.
    change (10 ^ N.of_nat 20) with 100000000000000000000. lia.
  - cbn. destruct rest; [reflexivity|]. now apply negb_true_iff, Ascii.eqb_neq.
Qed.

(** X9.  The rendering of an identifier is a non-empty sequence of decimal
    digits without a superfluous leading zero, and two identifiers with the
    same rendering are the same. *)
Theorem ID_String_canonical (id : N) :
  id <= maxUint64 ->
  ProjectID_String id <> ""
  /\ Forall (fun c => isDigit c = true) (list_ascii_of_string (ProjectID_String id))
  /\ noLeadingZero (ProjectID_String id) = true
  /\ decimalValue (ProjectID_String id) = id
  /\ ActionID_String id = ProjectID_String id
  /\ (forall id', id' <= maxUint64 -> ProjectID_String id = ProjectID_String id' -> id = id').
Proof.
  intros Hid. unfold ProjectID_String, ActionID_String.
  pose proof (ParseUint_FormatUint id Hid) as Hround.
  assert (Hne : FormatUint id <> "").
  { intros Heq. rewrite Heq in Hround. discriminate. }
  repeat split.
  - exact Hne.
  - apply FormatUint_digits.
  - now apply FormatUint_noLeadingZero.
  - rewrite ParseUint_nonempty in Hround by assumption.
    apply parseDigits_value in Hround as (_ & Hval & _); [exact Hval|apply zero_le_maxUint64].
  - intros id' Hid' Heq. pose proof (ParseUint_FormatUint id' Hid') as Hround'.
    rewrite <- Heq, Hround in Hround'. now injection Hround'.
Qed.

End Acceptance.

Lemma IDFromString_accepts_witness :
  posthog.ProjectIDFromString "0042" = (42, None)
  /\ posthog.ActionIDFromString "99999999999999999999"
     = (strconv.maxUint64, Some (strconv.rangeError "99999999999999999999")).
Proof.
  split.
  - apply (proj1 (IDFromString_accepts "0042")).
    repeat split; [discriminate|repeat constructor|vm_compute; discriminate].
  - apply (proj2 (proj2 (IDFromString_accepts "99999999999999999999")));
      [discriminate|repeat constructor|reflexivity].
Defined.

Lemma ID_String_canonical_witness :
  noLeadingZero (posthog.ProjectID_String 1024) = true
  /\ decimalValue (posthog.ProjectID_String 1024) = 1024.
Proof.
  destruct (ID_String_canonical 1024) as (_ & _ & Hz & Hv & _).
  - vm_compute. discriminate.
  - split; assumption.
Defined.

(** ** Import: the identifier an import accepts *)

Section ImportRoundTrip.
Import strconv posthog provider.

Lemma cut_append sep before after :
  ~ In sep (list_ascii_of_string before) ->
  cut sep (before +:+ String sep after) = Some (before, after).
Proof.
  induction before as [|c before IH]; intros Hnot.
  - change (EmptyString +:+ String sep after) with (String sep after). cbn [cut].
    destruct (Ascii.eqb_spec sep sep); [reflexivity|congruence].
  - change (String c before +:+ String sep after)
      with (String c (before +:+ String sep after)).
    cbn [cut]. cbn [list_ascii_of_string] in Hnot.
    destruct (Ascii.eqb_spec c sep) as [->|Hne]; [cbn in Hnot; tauto|].
    rewrite IH; [reflexivity|]. cbn in Hnot. tauto.
Qed.

Lemma digits_without_slash s :
  Forall (fun c => isDigit c = true) (list_ascii_of_string s) ->
  ~ In "/"%char (list_ascii_of_string s).
Proof.
  intros Hall Hin. rewrite List.Forall_forall in Hall. apply Hall in Hin. discriminate Hin.
Qed.

(** X10.  The identifier under which an action is imported is the one its
    identifiers render to: for every project and action identifier,
    [parseImportID] of "<project>/<action>" gives the two back. *)
Theorem parseImportID_of_renderings (projectID actionID : N) :
  projectID <= maxUint64 -> actionID <= maxUint64 ->
  parseImportID (ProjectID_String projectID +:+ "/" +:+ ActionID_String actionID)
  = (projectID, actionID, None).
Proof.
  intros Hp Ha. apply parseImportID_ok.
  exists (ProjectID_String projectID), (ActionID_String actionID). repeat split.
  - apply cut_append, digits_without_slash, FormatUint_digits.
  - now apply IDFromString_String.
  - now apply IDFromString_String.
Qed.

(** X11.  A successful import writes the canonical renderings of the
    identifiers it parsed, [id] and then [project_id] for an action, [id]
    for a project, and adds no diagnostic. *)
Theorem ImportState_success req resp :
  diag.HasError (ip_Diagnostics resp) = false ->
  (forall projectID actionID,
     parseImportID (ir_ID req) = (projectID, actionID, None) ->
     actionResource_ImportState req resp
     = mkImportStateResponse (ip_Diagnostics resp)
         (<["project_id" := ProjectID_String projectID]>
            (<["id" := ActionID_String actionID]> (ip_State resp))))
  /\ (forall projectID,
        ProjectIDFromString (ir_ID req) = (projectID, None) ->
        projectResource_ImportState req resp
        = mkImportStateResponse (ip_Diagnostics resp)
            (<["id" := ProjectID_String projectID]> (ip_State resp))).
Proof.
  intros Hclean. split.
  - intros projectID actionID Hparse. unfold actionResource_ImportState. rewrite Hparse.
    rewrite SetAttribute_Diagnostics, Hclean. reflexivity.
  - intros projectID Hparse. unfold projectResource_ImportState. now rewrite Hparse.
Qed.

End ImportRoundTrip.

Lemma parseImportID_of_renderings_witness :
  provider.parseImportID "42/7" = (42, 7, None).
Proof.
  apply (parseImportID_of_renderings 42 7); vm_compute; discriminate.
Defined.

Lemma ImportState_success_witness :
  provider.ip_State
    (provider.actionResource_ImportState (provider.mkImportStateRequest "042/007")
       (provider.mkImportStateResponse [] ∅))
  = <["project_id" := "42"]> (<["id" := "7"]> ∅).
Proof.
  destruct (ImportState_success (provider.mkImportStateRequest "042/007")
              (provider.mkImportStateResponse [] ∅) eq_refl) as [Haction _].
  rewrite (Haction 42 7 eq_refl). reflexivity.
Defined.

(** ** Actions: the local model of a remote action *)

Section ActionModel.
Import posthog provider.

Lemma isKind_cases ev :
  (isKind CustomEvent ev = true /\ isKind PageView ev = false
   /\ isKind Autocapture ev = false)
  \/ (isKind CustomEvent ev = false /\ isKind PageView ev = true
      /\ isKind Autocapture ev = false)
  \/ (isKind CustomEvent ev = false /\ isKind PageView ev = false
      /\ isKind Autocapture ev = true).
Proof. unfold isKind. destruct (stepKind ev); tauto. Qed.

Lemma regroup_Permutation l :
  List.filter (isKind CustomEvent) l ++ List.filter (isKind PageView) l
    ++ List.filter (isKind Autocapture) l ≡ₚ l.
Proof.
  induction l as [|ev l IH]; [reflexivity|]. cbn [List.filter].
  destruct (isKind_cases ev) as [(-> & -> & ->)|[(-> & -> & ->)|(-> & -> & ->)]];
    cbn beta iota.
  - cbn. apply perm_skip, IH.
  - change ((ev :: List.filter (isKind PageView) l) ++ List.filter (isKind Autocapture) l)
      with (ev :: List.filter (isKind PageView) l ++ List.filter (isKind Autocapture) l).
    rewrite <- Permutation_middle. apply perm_skip, IH.
  - rewrite app_assoc, <- Permutation_middle, <- app_assoc. apply perm_skip, IH.
Qed.

Lemma stepKind_keptFields ev : stepKind (keptFields ev) = stepKind ev.
Proof.
  unfold keptFields. destruct (stepKind ev) eqn:Hk; [| |exact Hk];
    unfold stepKind in *; cbn [ActionStep.Event]; exact Hk.
Qed.

Lemma keptFields_idempotent ev : keptFields (keptFields ev) = keptFields ev.
Proof.
  unfold keptFields at 1. rewrite stepKind_keptFields. unfold keptFields.
  destruct (stepKind ev); reflexivity.
Qed.

Lemma Forall_kind_filter k l :
  Forall (fun ev => stepKind ev = k) (map keptFields (List.filter (isKind k) l)).
Proof.
  apply List.Forall_forall. intros ev' Hin. apply in_map_iff in Hin as (ev & <- & Hin).
  apply filter_In in Hin as [_ Hk]. rewrite stepKind_keptFields.
  unfold isKind in Hk. destruct k, (stepKind ev); congruence.
Qed.

Lemma regrouped_convention l : followsConvention (regrouped l).
Proof.
  unfold regrouped. rewrite !map_app.
  eexists _, _, _. split; [reflexivity|]. repeat split; apply Forall_kind_filter.
Qed.

(** X12.  Through the local model and back, in whatever order the remote
    steps come: no step is lost or added, each comes back with the fields of
    its kind, and the list that comes back follows the convention custom
    events, page views, autocaptures. *)
Theorem steps_through_the_model model a projectID :
  Action.ID a <= strconv.maxUint64 ->
  ProjectIDFromString (types.ValueString (actionResourceModel.ProjectID model))
    = (projectID, None) ->
  exists a',
    actionFromModel (fst (updateActionModel model a)) = (projectID, a', [])
    /\ elems (Action.Steps a') ≡ₚ map keptFields (elems (Action.Steps a))
    /\ followsConvention (elems (Action.Steps a'))
    /\ Action.ID a' = Action.ID a
    /\ elems (Action.Tags a') ≡ₚ elems (Action.Tags a).
Proof.
  intros Hid Hpid.
  destruct (actionFromModel_updateActionModel model a projectID Hid Hpid)
    as (a' & Heq & Hida & _ & _ & Htags & Hsteps).
  exists a'. split; [exact Heq|]. rewrite Hsteps, Htags. repeat split.
  - unfold regrouped. now rewrite regroup_Permutation.
  - apply regrouped_convention.
  - exact Hida.
  - apply sortedStrings_Permutation.
Qed.

Lemma partition_fold_slices l : forall acc,
  let r := fold_left partitionStep l acc in
  matchCustomEventSteps r
    = match map toCustom (List.filter (isKind CustomEvent) l) with
      | [] => matchCustomEventSteps acc
      | evs => Some (elems (matchCustomEventSteps acc) ++ evs)
      end
  /\ matchPageViewEventSteps r
    = match map toPageView (List.filter (isKind PageView) l) with
      | [] => matchPageViewEventSteps acc
      | evs => Some (elems (matchPageViewEventSteps acc) ++ evs)
      end
  /\ matchAutocaptureEventSteps r
    = match map toAutocapture (List.filter (isKind Autocapture) l) with
      | [] => matchAutocaptureEventSteps acc
      | evs => Some (elems (matchAutocaptureEventSteps acc) ++ evs)
      end.
Proof.
  induction l as [|ev l IH]; intros acc; cbn zeta; [repeat split|].
  cbn [fold_left List.filter]. specialize (IH (partitionStep acc ev)). cbn zeta in IH.
  destruct IH as (Hc & Hp & Ha). rewrite Hc, Hp, Ha. clear Hc Hp Ha.
  rewrite partitionStep_kind.
  destruct (isKind_cases ev) as [(H1 & H2 & H3)|[(H1 & H2 & H3)|(H1 & H2 & H3)]];
    rewrite H1, H2, H3; cbn beta iota; unfold isKind in H1, H2, H3;
    destruct (stepKind ev); try discriminate;
    cbn [matchCustomEventSteps matchPageViewEventSteps
      matchAutocaptureEventSteps append elems map]; repeat split;
    match goal with
    | |- context [match ?m with [] => _ | _ :: _ => _ end] =>
        destruct m; cbn [app]; rewrite <- ?app_assoc; reflexivity
    end.
Qed.

(** X13.  The model [updateActionModel] fills: the identifier in decimal,
    the project identifier untouched, the tags in increasing order, and for
    each kind the steps of that kind in their remote order; a kind without
    step, like an action without tag, gives a null list, not an empty one. *)
Theorem updateActionModel_fills model a :
  let model' := fst (updateActionModel model a) in
  let steps := elems (Action.Steps a) in
  snd (updateActionModel model a) = []
  /\ actionResourceModel.ID model' = types.StringValue (ActionID_String (Action.ID a))
  /\ actionResourceModel.ProjectID model' = actionResourceModel.ProjectID model
  /\ actionResourceModel.Tags model'
     = listOrNull (merge_sort string_le (elems (Action.Tags a)))
  /\ actionResourceModel.MatchCustomEvents model'
     = listOrNull (map toCustom (List.filter (isKind CustomEvent) steps))
  /\ actionResourceModel.MatchPageViews model'
     = listOrNull (map toPageView (List.filter (isKind PageView) steps))
  /\ actionResourceModel.MatchAutocaptures model'
     = listOrNull (map toAutocapture (List.filter (isKind Autocapture) steps))
  /\ actionResourceModel.PostToWebhook model' = types.BoolValue (Action.PostToSlack a)
  /\ actionResourceModel.WebhookMessageFormat model'
     = types.StringValue (Action.SlackMessageFormat a).
Proof.
  cbn zeta. unfold updateActionModel, partitionSteps.
  cbn [fst snd actionResourceModel.ID actionResourceModel.ProjectID actionResourceModel.Tags
       actionResourceModel.MatchCustomEvents actionResourceModel.MatchPageViews
       actionResourceModel.MatchAutocaptures actionResourceModel.PostToWebhook
       actionResourceModel.WebhookMessageFormat].
  destruct (partition_fold_slices (elems (Action.Steps a)) (mkStepLists None None None))
    as (Hc & Hp & Ha). cbn zeta in Hc, Hp, Ha. rewrite Hc, Hp, Ha.
  cbn [matchCustomEventSteps matchPageViewEventSteps matchAutocaptureEventSteps elems app].
  repeat split.
  - rewrite sortedStrings_unfold. destruct (elems (Action.Tags a)) as [|x l] eqn:Ht;
      [reflexivity|].
    destruct (merge_sort string_le (x :: l)) eqn:Hs; [|reflexivity].
    apply merge_sort_nil_inv in Hs. discriminate.
  - now destruct (map toCustom _).
  - now destruct (map toPageView _).
  - now destruct (map toAutocapture _).
Qed.

End ActionModel.

Lemma steps_through_the_model_witness :
  exists a',
    provider.actionFromModel (fst (provider.updateActionModel double.sampleModel
      (posthog.Action.mk 7 "n" "" None false ""
         (Some [posthog.ActionStep.mk "s3" "$autocapture" "" "" "" "" "" "" ".b";
                posthog.ActionStep.mk "s1" "signup" "" "" "" "" "" "" ""])
         false false posthog.zeroTime posthog.zeroTime)))
    = (42, a', [])
    /\ followsConvention (elems (posthog.Action.Steps a')).
Proof.
  destruct (steps_through_the_model double.sampleModel
    (posthog.Action.mk 7 "n" "" None false ""
       (Some [posthog.ActionStep.mk "s3" "$autocapture" "" "" "" "" "" "" ".b";
              posthog.ActionStep.mk "s1" "signup" "" "" "" "" "" "" ""])
       false false posthog.zeroTime posthog.zeroTime) 42)
    as (a' & Heq & _ & Hconv & _).
  - vm_compute. discriminate.
  - reflexivity.
  - exists a'. split; assumption.
Defined.

(** ** The action resource: create, read, update *)

Section ActionOperations.
Import posthog provider.
Context {W : Type} (lib : Lib) (fmt : Fmt).

Lemma ElementsAs_unhandled {A : Type} (l : types.List A) :
  types.ElementsAs l true = (match l with types.ListValue l => Some l | _ => None end, []).
Proof. now destruct l. Qed.

Lemma ElementsAs_handled {A : Type} (l : types.List A) :
  types.ElementsAs l false
  = if isUnknownList l
    then (None, [diag.mkDiagnostic diag.SeverityError "Value Conversion Error"
                   (diag.Text "Received unknown value, however the target type cannot handle unknown values.")])
    else (match l with types.ListValue l => Some l | _ => None end, []).
Proof. now destruct l. Qed.

Lemma elems_known {A : Type} (l : types.List A) :
  elems (match l with types.ListValue l => Some l | _ => None end) = listElems l.
Proof. now destruct l. Qed.

Lemma HasError_unknown ds :
  diag.HasError
    (diag.Append ds
       [diag.mkDiagnostic diag.SeverityError "Value Conversion Error"
          (diag.Text "Received unknown value, however the target type cannot handle unknown values.")])
  = true.
Proof. rewrite HasError_Append. cbn. apply orb_true_r. Qed.

(** The action [actionFromModel] builds never carries the webhook settings
    of the model, and is never marked deleted. *)
Lemma actionFromModel_blank data :
  let action := snd (fst (actionFromModel data)) in
  Action.PostToSlack action = false
  /\ Action.SlackMessageFormat action = ""
  /\ Action.Deleted action = false.
Proof.
  cbn zeta. unfold actionFromModel.
  destruct (ProjectIDFromString _) as [projectID [e|]]; [repeat split|].
  destruct (ActionIDFromString _) as [actionID [e|]]; [repeat split|].
  repeat (match goal with
          | |- context [types.ElementsAs ?l false] =>
              rewrite (ElementsAs_handled l); destruct (isUnknownList l)
          end;
          try (cbn [diag.Append fold_left diag.Contains]; rewrite ?HasError_unknown);
          cbn [diag.HasError existsb diag.Append fold_left]);
    repeat split.
Qed.

(** Either [actionFromModel] reports an error, and returns zero values, or
    it reports nothing. *)
Lemma actionFromModel_outcome data :
  (diag.HasError (snd (actionFromModel data)) = true
   /\ fst (actionFromModel data) = (0, Action.zero))
  \/ (snd (actionFromModel data) = []
      /\ ProjectIDFromString (types.ValueString (actionResourceModel.ProjectID data))
         = (fst (fst (actionFromModel data)), None)
      /\ ActionIDFromString (types.ValueString (actionResourceModel.ID data))
         = (Action.ID (snd (fst (actionFromModel data))), None)).
Proof.
  unfold actionFromModel.
  destruct (ProjectIDFromString _) as [projectID [e|]];
    [left; split; [apply HasError_AddError|reflexivity]|].
  destruct (ActionIDFromString _) as [actionID [e|]];
    [left; split; [apply HasError_AddError|reflexivity]|].
  repeat (match goal with
          | |- context [types.ElementsAs ?l false] =>
              rewrite (ElementsAs_handled l); destruct (isUnknownList l)
          end;
          try (cbn [diag.Append fold_left diag.Contains]; rewrite ?HasError_unknown);
          cbn [diag.HasError existsb diag.Append fold_left]);
    try (left; split; reflexivity).
  right. repeat split.
Qed.

(** [Update], step by step. *)
Lemma Update_run (r : actionResource (W := W)) req resp st :
  let data := State_Get (resource.uq_Plan req) in
  let diags := diag.Append (resource.Diagnostics resp) (State_GetDiags (resource.uq_Plan req)) in
  action_resource.Update lib r req resp st =
  if diag.HasError diags then (Returns (resource.mkResponse diags (resource.State resp)), st)
  else
    let '(projectID, action, d) := actionFromModel data in
    if diag.HasError (diag.Append diags d)
    then (Returns (resource.mkResponse (diag.Append diags d) (resource.State resp)), st)
    else
      let '(out, st') := UpdateAction lib (client r) projectID action st in
      (settle updateActionModel data (diag.Append diags d) (resource.State resp)
         (diag.Sprintf "Error updating action %s: %s" (ActionID_String (Action.ID action)))
         out, st').
Proof.
  cbn zeta. unfold action_resource.Update.
  destruct (diag.HasError _); [reflexivity|].
  destruct (actionFromModel _) as [[projectID action] d].
  destruct (diag.HasError _); [reflexivity|].
  unfold bind, settle, ret. destruct (UpdateAction lib (client r) projectID action st) as [out st'].
  destruct (snd out); [reflexivity|]. destruct (fst out) as [res|]; [|reflexivity].
  destruct (updateActionModel _ res) as [data' d']. cbn [fst snd].
  now destruct (diag.HasError _).
Qed.

(** X14.  Whatever the plan, the object an update of an action sends has
    [post_to_slack] false, an empty [slack_message_format] and [deleted]
    false: [actionFromModel] does not read the webhook settings of the
    model.  The name and the description are those of the plan. *)
Theorem Update_sends_no_webhook_settings (r : actionResource (W := W)) req resp st hreq hres :
  transcript (snd (action_resource.Update lib r req resp st))
  = transcript st ++ [mkExchange hreq hres] ->
  http.Method hreq = "PATCH"
  /\ exists body,
       http.Body hreq = Some body
       /\ member "post_to_slack" body = Some (JBool false)
       /\ member "slack_message_format" body = Some (JString "")
       /\ member "deleted" body = Some (JBool false)
       /\ member "name" body
          = Some (JString (types.ValueString
                             (actionResourceModel.Name (State_Get (resource.uq_Plan req)))))
       /\ member "description" body
          = Some (JString (types.ValueString
                             (actionResourceModel.Description
                                (State_Get (resource.uq_Plan req))))).
Proof.
  rewrite Update_run. cbn zeta.
  destruct (diag.HasError _); [intros Htr; symmetry in Htr; now apply transcript_grows in Htr|].
  pose proof (actionFromModel_blank (State_Get (resource.uq_Plan req))) as Hblank.
  pose proof (actionFromModel_outcome (State_Get (resource.uq_Plan req))) as Hout.
  assert (Hname : diag.HasError (snd (actionFromModel (State_Get (resource.uq_Plan req))))
                  = false ->
    Action.Name (snd (fst (actionFromModel (State_Get (resource.uq_Plan req)))))
    = types.ValueString (actionResourceModel.Name (State_Get (resource.uq_Plan req)))
    /\ Action.Description (snd (fst (actionFromModel (State_Get (resource.uq_Plan req)))))
       = types.ValueString (actionResourceModel.Description
                              (State_Get (resource.uq_Plan req)))).
  { unfold actionFromModel.
    destruct (ProjectIDFromString _) as [projectID [e|]];
      [cbn [fst snd]; rewrite HasError_AddError; discriminate|].
    destruct (ActionIDFromString _) as [actionID [e|]];
      [cbn [fst snd]; rewrite HasError_AddError; discriminate|].
    repeat (match goal with
            | |- context [types.ElementsAs ?l false] =>
                rewrite (ElementsAs_handled l); destruct (isUnknownList l)
            end;
            try (cbn [diag.Append fold_left diag.Contains]; rewrite ?HasError_unknown);
            cbn [diag.HasError existsb diag.Append fold_left]);
      try discriminate.
    intros _. split; reflexivity. }
  destruct (actionFromModel _) as [[projectID action] d]. cbn [fst snd] in *.
  destruct (diag.HasError (diag.Append _ d)) eqn:Herr;
    [intros Htr; symmetry in Htr; now apply transcript_grows in Htr|].
  rewrite HasError_Append in Herr. apply orb_false_iff in Herr as [_ Hd].
  destruct (Hname Hd) as [Hn Hdesc]. destruct Hblank as (Hslack & Hformat & Hdeleted).
  destruct (UpdateAction lib (client r) projectID action st) as [out st'] eqn:Hupd.
  cbn [snd]. intros Htr. unfold UpdateAction in Hupd.
  destruct (do_request lib (client r) _ st out st' hreq hres Hupd Htr) as (Hm & _ & Hb).
  split; [exact Hm|]. cbn [option_map Input] in Hb. eexists. split; [exact Hb|].
  unfold json_Marshal, Action.MarshalJSON.
  cbn [Action.ID Action.Name Action.Description Action.Tags Action.PostToSlack
       Action.SlackMessageFormat Action.Steps Action.Deleted].
  rewrite Hslack, Hformat, Hdeleted, Hn, Hdesc. repeat split.
Qed.

(** What a read makes of an answer. *)
Lemma read_answer {T : Type} (r : apiRequest T) unmarshal res :
  OutputNilIf404 r = true -> ExpectedCode r = 200%Z ->
  Output r = Some (decodePointer lib unmarshal) ->
  answerTo r (inr res) =
  if (http.StatusCode res =? 404)%Z then (None, None)
  else if (http.StatusCode res =? 200)%Z then
    if firstValueIsNull (http.ResponseBody res) then (None, None)
    else match ReadValue lib (http.ResponseBody res) with
         | inl err => (None, Some (ErrDecodingReply err))
         | inr value =>
             (Some (fst (unmarshal value)),
              option_map ErrDecodingReply (snd (unmarshal value)))
         end
  else (None, Some (ErrUnexpectedStatus 200 (http.StatusCode res) (http.ResponseBody res))).
Proof.
  intros Hnil Hexp Hout. unfold answerTo. rewrite Hnil, Hexp. cbn [andb].
  destruct (http.StatusCode res =? 404)%Z.
  - unfold decodeOutput. rewrite Hout. reflexivity.
  - destruct (http.StatusCode res =? 200)%Z; cbn [negb]; [|reflexivity].
    now apply (decodeOutput_pointer lib).
Qed.

(** [Read], step by step. *)
Lemma Read_run (r : actionResource (W := W)) req resp st :
  let data := State_Get (resource.rq_State req) in
  let diags := diag.Append (resource.Diagnostics resp) (State_GetDiags (resource.rq_State req)) in
  action_resource.Read lib fmt r req resp st =
  if diag.HasError diags then (Returns (resource.mkResponse diags (resource.State resp)), st)
  else
    match ProjectIDFromString (types.ValueString (actionResourceModel.ProjectID data)) with
    | (_, Some e) =>
        (Returns (resource.mkResponse
                    (diag.AddError "Invalid project ID" (diag.ErrorText (ErrNum e)) diags)
                    (resource.State resp)), st)
    | (projectID, None) =>
        match ActionIDFromString (types.ValueString (actionResourceModel.ID data)) with
        | (_, Some e) =>
            (Returns (resource.mkResponse
                        (diag.AddError "Invalid action ID" (diag.ErrorText (ErrNum e)) diags)
                        (resource.State resp)), st)
        | (actionID, None) =>
            let '(out, st') := GetAction lib (client r) projectID actionID st in
            (Returns
               match out with
               | (_, Some err) =>
                   resource.mkResponse
                     (diag.AddError "Client Error"
                        (diag.Sprintf "Error getting action %s: %s"
                           (String_String fmt (actionResourceModel.ID data)) err)
                        diags)
                     (resource.State resp)
               | (None, None) => resource.mkResponse diags None
               | (Some res, None) =>
                   if Action.Deleted res then resource.mkResponse diags None
                   else resource.mkResponse diags (Some (fst (updateActionModel data res)))
               end, st')
        end
    end.
Proof.
  cbn zeta. unfold action_resource.Read.
  destruct (diag.HasError _) eqn:Hclean; [reflexivity|].
  destruct (ProjectIDFromString _) as [projectID [e|]]; [reflexivity|].
  destruct (ActionIDFromString _) as [actionID [e|]]; [reflexivity|].
  unfold bind, ret. destruct (GetAction lib (client r) projectID actionID st) as [[res err] st'].
  cbn [fst snd]. destruct res as [res|], err; try reflexivity.
  destruct (updateActionModel _ res) as [data' d] eqn:Hupd.
  assert (d = []) as -> by (unfold updateActionModel in Hupd; now inversion Hupd).
  cbn [diag.Append fold_left fst]. rewrite Hclean.
  now destruct (Action.Deleted res).
Qed.

(** X15.  Reading an action that the remote answers for.  The resource is
    removed from the state, and no diagnostic is added, after a 404, after
    a 200 whose first JSON value is the literal [null] (white space around
    it or not), and after a 200 whose action decodes without error and is
    marked deleted; after a 200 with a live action the state is the model
    filled from it.  After any other status, a syntax error, or a decoding
    that reports an error, the state is left as it was and the error is
    reported: the partly decoded action is not used. *)
Theorem Read_action_outcomes (r : actionResource (W := W)) req resp st hreq res :
  let data := State_Get (resource.rq_State req) in
  let diags := diag.Append (resource.Diagnostics resp) (State_GetDiags (resource.rq_State req)) in
  let failed err :=
    resource.mkResponse
      (diag.AddError "Client Error"
         (diag.Sprintf "Error getting action %s: %s"
            (String_String fmt (actionResourceModel.ID data)) err) diags)
      (resource.State resp) in
  transcript (snd (action_resource.Read lib fmt r req resp st))
  = transcript st ++ [mkExchange hreq (inr res)] ->
  fst (action_resource.Read lib fmt r req resp st) =
  Returns
    (if (http.StatusCode res =? 404)%Z then resource.mkResponse diags None
     else if (http.StatusCode res =? 200)%Z then
       if firstValueIsNull (http.ResponseBody res) then resource.mkResponse diags None
       else match ReadValue lib (http.ResponseBody res) with
            | inl err => failed (ErrDecodingReply err)
            | inr value =>
                match UnmarshalAction lib value with
                | (_, Some err) => failed (ErrDecodingReply err)
                | (a, None) =>
                    if Action.Deleted a then resource.mkResponse diags None
                    else resource.mkResponse diags (Some (fst (updateActionModel data a)))
                end
            end
     else failed (ErrUnexpectedStatus 200 (http.StatusCode res) (http.ResponseBody res))).
Proof.
  cbn zeta. rewrite Read_run. cbn zeta.
  destruct (diag.HasError _); [intros Htr; symmetry in Htr; now apply transcript_grows in Htr|].
  destruct (ProjectIDFromString _) as [projectID [e|]];
    [intros Htr; symmetry in Htr; now apply transcript_grows in Htr|].
  destruct (ActionIDFromString _) as [actionID [e|]];
    [intros Htr; symmetry in Htr; now apply transcript_grows in Htr|].
  destruct (GetAction lib (client r) projectID actionID st) as [out st'] eqn:Hget.
  cbn [fst snd]. intros Htr. unfold GetAction in Hget.
  rewrite (do_answer lib (client r) _ st out st' hreq (inr res) Hget Htr).
  erewrite (read_answer _ (UnmarshalAction lib) res); [|reflexivity..].
  destruct (http.StatusCode res =? 404)%Z; [reflexivity|].
  destruct (http.StatusCode res =? 200)%Z; [|reflexivity].
  destruct (firstValueIsNull (http.ResponseBody res)); [reflexivity|].
  destruct (ReadValue lib (http.ResponseBody res)) as [err|value]; [reflexivity|].
  destruct (UnmarshalAction lib value) as [a [err|]]; reflexivity.
Qed.

(** What a write makes of an answer. *)
Lemma write_answer {T : Type} (r : apiRequest T) unmarshal res :
  OutputNilIf404 r = false ->
  Output r = Some (decodePointer lib unmarshal) ->
  answerTo r (inr res) =
  if (http.StatusCode res =? ExpectedCode r)%Z then
    if firstValueIsNull (http.ResponseBody res) then (None, None)
    else match ReadValue lib (http.ResponseBody res) with
         | inl err => (None, Some (ErrDecodingReply err))
         | inr value =>
             (Some (fst (unmarshal value)),
              option_map ErrDecodingReply (snd (unmarshal value)))
         end
  else (None, Some (ErrUnexpectedStatus (ExpectedCode r) (http.StatusCode res)
                      (http.ResponseBody res))).
Proof.
  intros Hnil Hout. unfold answerTo. rewrite Hnil. cbn [andb].
  destruct (http.StatusCode res =? ExpectedCode r)%Z; cbn [negb]; [|reflexivity].
  now apply (decodeOutput_pointer lib).
Qed.

(** The steps the three loops of [Create] collect. *)
Lemma createCustomEvents_elems steps evs :
  elems (action_resource.createCustomEvents steps evs)
  = elems steps
    ++ map (fun ev => CreateActionStepRequest.mk (ce_Event ev) "" "" "" "" "" "" "")
         (elems evs).
Proof.
  unfold action_resource.createCustomEvents. revert steps.
  induction (elems evs) as [|ev l IH]; intros steps; cbn [fold_left map].
  - now rewrite app_nil_r.
  - rewrite IH. cbn [append elems]. now rewrite <- app_assoc.
Qed.

Lemma createPageViews_elems steps evs :
  elems (action_resource.createPageViews steps evs)
  = elems steps
    ++ map (fun ev => CreateActionStepRequest.mk "$pageview"
                        (Value (pv_URL ev)) (Matching (pv_URL ev)) "" "" "" "" "")
         (elems evs).
Proof.
  unfold action_resource.createPageViews. revert steps.
  induction (elems evs) as [|ev l IH]; intros steps; cbn [fold_left map].
  - now rewrite app_nil_r.
  - rewrite IH. cbn [append elems]. now rewrite <- app_assoc.
Qed.

Lemma createAutocaptures_elems steps evs :
  elems (action_resource.createAutocaptures steps evs)
  = elems steps
    ++ map (fun ev => CreateActionStepRequest.mk "$autocapture"
                        (Value (ac_URL ev)) (Matching (ac_URL ev))
                        (Value (ac_ElementText ev)) (Matching (ac_ElementText ev))
                        (Value (ac_LinkHref ev)) (Matching (ac_LinkHref ev))
                        (ac_Selector ev))
         (elems evs).
Proof.
  unfold action_resource.createAutocaptures. revert steps.
  induction (elems evs) as [|ev l IH]; intros steps; cbn [fold_left map].
  - now rewrite app_nil_r.
  - rewrite IH. cbn [append elems]. now rewrite <- app_assoc.
Qed.

Lemma created_elems cs ps acs :
  elems (action_resource.createAutocaptures
           (action_resource.createPageViews
              (action_resource.createCustomEvents None cs) ps) acs)
  = createdSteps (elems cs) (elems ps) (elems acs).
Proof.
  rewrite createAutocaptures_elems, createPageViews_elems, createCustomEvents_elems.
  unfold createdSteps. cbn [elems app]. now rewrite <- app_assoc.
Qed.

(** [Create], step by step. *)
Lemma Create_run (r : actionResource (W := W)) req resp st :
  let data := State_Get (resource.cq_Plan req) in
  let diags := diag.Append (resource.Diagnostics resp) (State_GetDiags (resource.cq_Plan req)) in
  exists steps,
    elems steps
    = createdSteps (listElems (actionResourceModel.MatchCustomEvents data))
        (listElems (actionResourceModel.MatchPageViews data))
        (listElems (actionResourceModel.MatchAutocaptures data))
    /\ action_resource.Create lib fmt r req resp st =
       if diag.HasError diags then (Returns (resource.mkResponse diags (resource.State resp)), st)
       else if isUnknownList (actionResourceModel.Tags data)
       then (Returns (resource.mkResponse
                        (diag.Append diags
                           [diag.mkDiagnostic diag.SeverityError "Value Conversion Error"
                              (diag.Text "Received unknown value, however the target type cannot handle unknown values.")])
                        (resource.State resp)), st)
       else
         match ProjectIDFromString (types.ValueString (actionResourceModel.ProjectID data)) with
         | (_, Some e) =>
             (Returns (resource.mkResponse
                         (diag.AddError "Invalid project ID" (diag.ErrorText (ErrNum e)) diags)
                         (resource.State resp)), st)
         | (projectID, None) =>
             let '(out, st') :=
               CreateAction lib (client r) projectID
                 (CreateActionRequest.mk
                    (types.ValueString (actionResourceModel.Name data))
                    (types.ValueString (actionResourceModel.Description data))
                    (match actionResourceModel.Tags data with
                     | types.ListValue l => Some l
                     | _ => None
                     end)
                    (types.ValueBool (actionResourceModel.PostToWebhook data))
                    (types.ValueString (actionResourceModel.WebhookMessageFormat data))
                    steps) st in
             (settle updateActionModel data diags (resource.State resp)
                (fun err => diag.Text (Sprintf_err fmt "Error creating action: %s" err))
                out, st')
         end.
Proof.
  cbn zeta.
  exists (action_resource.createAutocaptures
            (action_resource.createPageViews
               (action_resource.createCustomEvents None
                  (match actionResourceModel.MatchCustomEvents (State_Get (resource.cq_Plan req)) with
                   | types.ListValue l => Some l
                   | _ => None
                   end))
               (match actionResourceModel.MatchPageViews (State_Get (resource.cq_Plan req)) with
                | types.ListValue l => Some l
                | _ => None
                end))
            (match actionResourceModel.MatchAutocaptures (State_Get (resource.cq_Plan req)) with
             | types.ListValue l => Some l
             | _ => None
             end)).
  split; [|unfold action_resource.Create].
  2: { destruct (diag.HasError _) eqn:Hclean; [reflexivity|].
       rewrite ElementsAs_handled.
       destruct (isUnknownList _);
         [cbn beta iota; rewrite HasError_unknown; reflexivity|].
       rewrite !ElementsAs_unhandled. cbn [diag.Append fold_left]. cbn beta iota.
       rewrite Hclean.
       destruct (ProjectIDFromString _) as [projectID [e|]]; [reflexivity|].
       unfold bind, settle, ret.
       match goal with
       | |- ?lhs = ?rhs =>
           match lhs with
           | context [CreateAction lib (client r) projectID ?q1 st] =>
               match rhs with
               | context [CreateAction lib (client r) projectID ?q2 st] =>
                   change q1 with q2;
                   destruct (CreateAction lib (client r) projectID q2 st) as [out st']
               end
           end
       end.
       destruct (snd out); [reflexivity|]. destruct (fst out) as [res|]; [|reflexivity].
       destruct (updateActionModel _ res) as [data' d']. cbn [fst snd].
       destruct (diag.HasError (diag.Append _ d')); reflexivity. }
  rewrite created_elems, !elems_known. reflexivity.
Qed.

(** X16.  The object [Create] posts for a plan: the name, the tags and the
    webhook flag of the plan, and as steps those of the custom events, then
    of the page views, then of the autocaptures, each list in its order; no
    step carries an identifier. *)
Theorem Create_sends_the_plan (r : actionResource (W := W)) req resp st hreq hres :
  let data := State_Get (resource.cq_Plan req) in
  transcript (snd (action_resource.Create lib fmt r req resp st))
  = transcript st ++ [mkExchange hreq hres] ->
  http.Method hreq = "POST"
  /\ exists body,
       http.Body hreq = Some body
       /\ member "name" body
          = Some (JString (types.ValueString (actionResourceModel.Name data)))
       /\ member "tags" body
          = Some (JArray (map JString (listElems (actionResourceModel.Tags data))))
       /\ member "post_to_slack" body
          = Some (JBool (types.ValueBool (actionResourceModel.PostToWebhook data)))
       /\ member "steps" body
          = Some (JArray
                    (map CreateActionStepRequest.MarshalJSON
                       (createdSteps
                          (listElems (actionResourceModel.MatchCustomEvents data))
                          (listElems (actionResourceModel.MatchPageViews data))
                          (listElems (actionResourceModel.MatchAutocaptures data))))).
Proof.
  cbn zeta. destruct (Create_run r req resp st) as (steps & Hsteps & ->).
  destruct (diag.HasError _); [intros Htr; symmetry in Htr; now apply transcript_grows in Htr|].
  destruct (isUnknownList _); [intros Htr; symmetry in Htr; now apply transcript_grows in Htr|].
  destruct (ProjectIDFromString _) as [projectID [e|]];
    [intros Htr; symmetry in Htr; now apply transcript_grows in Htr|].
  match goal with
  | |- context [CreateAction lib (client r) projectID ?q st] =>
      destruct (CreateAction lib (client r) projectID q st) as [out st'] eqn:Hcreate
  end.
  cbn [snd]. intros Htr. unfold CreateAction in Hcreate.
  destruct (do_request lib (client r) _ st out st' hreq hres Hcreate Htr) as (Hm & _ & Hb).
  split; [exact Hm|]. cbn [option_map Input] in Hb. eexists. split; [exact Hb|].
  unfold json_Marshal, CreateActionRequest.MarshalJSON.
  cbn [CreateActionRequest.Name CreateActionRequest.Description CreateActionRequest.Tags
       CreateActionRequest.PostToSlack CreateActionRequest.SlackMessageFormat
       CreateActionRequest.Steps].
  rewrite !marshalSlice_nilSliceToEmpty, Hsteps, elems_known.
  unfold omitempty.
  destruct (String.eqb (types.ValueString (actionResourceModel.Description _)) "");
    destruct (String.eqb (types.ValueString (actionResourceModel.WebhookMessageFormat _)) "");
    repeat split.
Qed.

(** X17.  [Create] answered 201.  When the first JSON value of the body is
    the literal [null], white space around it or not, the client returns a
    nil action and no error, and the operation stops on its dereference.
    A value that decodes without error is translated and stored as the new
    state, without any diagnostic added.  A syntax error, or a decoding
    that reports an error, is reported and the state is left as it was. *)
Theorem Create_outcomes (r : actionResource (W := W)) req resp st hreq res :
  let data := State_Get (resource.cq_Plan req) in
  let diags := diag.Append (resource.Diagnostics resp) (State_GetDiags (resource.cq_Plan req)) in
  let failed err :=
    resource.mkResponse
      (diag.AddError "Client Error"
         (diag.Text (Sprintf_err fmt "Error creating action: %s" (ErrDecodingReply err)))
         diags)
      (resource.State resp) in
  transcript (snd (action_resource.Create lib fmt r req resp st))
  = transcript st ++ [mkExchange hreq (inr res)] ->
  http.StatusCode res = 201%Z ->
  fst (action_resource.Create lib fmt r req resp st) =
  if firstValueIsNull (http.ResponseBody res) then Panics
  else match ReadValue lib (http.ResponseBody res) with
       | inl err => Returns (failed err)
       | inr value =>
           match UnmarshalAction lib value with
           | (_, Some err) => Returns (failed err)
           | (a, None) =>
               Returns (resource.mkResponse diags (Some (fst (updateActionModel data a))))
           end
       end.
Proof.
  cbn zeta. destruct (Create_run r req resp st) as (steps & _ & ->).
  destruct (diag.HasError _) eqn:Hclean;
    [intros Htr; symmetry in Htr; now apply transcript_grows in Htr|].
  destruct (isUnknownList _); [intros Htr; symmetry in Htr; now apply transcript_grows in Htr|].
  destruct (ProjectIDFromString _) as [projectID [e|]];
    [intros Htr; symmetry in Htr; now apply transcript_grows in Htr|].
  match goal with
  | |- context [CreateAction lib (client r) projectID ?q st] =>
      destruct (CreateAction lib (client r) projectID q st) as [out st'] eqn:Hcreate
  end.
  cbn [fst snd]. intros Htr Hstatus. unfold CreateAction in Hcreate.
  rewrite (do_answer lib (client r) _ st out st' hreq (inr res) Hcreate Htr).
  erewrite (write_answer _ (UnmarshalAction lib) res); [|reflexivity..].
  cbn [ExpectedCode]. rewrite Hstatus. cbn [Z.eqb http.StatusCreated Pos.eqb].
  unfold settle.
  destruct (firstValueIsNull (http.ResponseBody res)); [reflexivity|].
  destruct (ReadValue lib (http.ResponseBody res)) as [err|value]; [reflexivity|].
  destruct (UnmarshalAction lib value) as [a [err|]]; [reflexivity|].
  cbn [fst snd option_map updateActionModel diag.Append fold_left]. now rewrite Hclean.
Qed.

(** X18.  [Update] answered 200: as for a creation, a first value [null]
    stops the operation on a nil dereference, a value that decodes without
    error becomes the new state without any diagnostic added, and a syntax
    error or a decoding that reports an error is reported with the state
    left as it was. *)
Theorem Update_outcomes (r : actionResource (W := W)) req resp st hreq res :
  let data := State_Get (resource.uq_Plan req) in
  let diags := diag.Append (resource.Diagnostics resp) (State_GetDiags (resource.uq_Plan req)) in
  let failed err :=
    resource.mkResponse
      (diag.AddError "Client Error"
         (diag.Sprintf "Error updating action %s: %s"
            (ActionID_String
               (fst (ActionIDFromString (types.ValueString (actionResourceModel.ID data)))))
            (ErrDecodingReply err)) diags)
      (resource.State resp) in
  transcript (snd (action_resource.Update lib r req resp st))
  = transcript st ++ [mkExchange hreq (inr res)] ->
  http.StatusCode res = 200%Z ->
  fst (action_resource.Update lib r req resp st) =
  if firstValueIsNull (http.ResponseBody res) then Panics
  else match ReadValue lib (http.ResponseBody res) with
       | inl err => Returns (failed err)
       | inr value =>
           match UnmarshalAction lib value with
           | (_, Some err) => Returns (failed err)
           | (a, None) =>
               Returns (resource.mkResponse diags (Some (fst (updateActionModel data a))))
           end
       end.
Proof.
  cbn zeta. rewrite Update_run. cbn zeta.
  destruct (diag.HasError _) eqn:Hclean;
    [intros Htr; symmetry in Htr; now apply transcript_grows in Htr|].
  pose proof (actionFromModel_outcome (State_Get (resource.uq_Plan req))) as Hout.
  destruct (actionFromModel _) as [[projectID action] d]. cbn [fst snd] in Hout.
  destruct (diag.HasError (diag.Append _ d)) eqn:Herr;
    [intros Htr; symmetry in Htr; now apply transcript_grows in Htr|].
  rewrite HasError_Append in Herr. apply orb_false_iff in Herr as [_ Hd].
  destruct Hout as [[Hbad _]|(-> & _ & Hid)]; [congruence|].
  destruct (UpdateAction lib (client r) projectID action st) as [out st'] eqn:Hupd.
  cbn [fst snd]. intros Htr Hstatus. unfold UpdateAction in Hupd.
  rewrite (do_answer lib (client r) _ st out st' hreq (inr res) Hupd Htr).
  erewrite (write_answer _ (UnmarshalAction lib) res); [|reflexivity..].
  cbn [ExpectedCode]. rewrite Hstatus. cbn [Z.eqb http.StatusOK Pos.eqb].
  unfold settle. cbn [diag.Append fold_left]. rewrite Hid. cbn [fst].
  destruct (firstValueIsNull (http.ResponseBody res)); [reflexivity|].
  destruct (ReadValue lib (http.ResponseBody res)) as [err|value]; [reflexivity|].
  destruct (UnmarshalAction lib value) as [a [err|]]; [reflexivity|].
  cbn [fst snd option_map updateActionModel diag.Append fold_left]. now rewrite Hclean.
Qed.

(** X19.  A model whose project identifier does not parse stops
    the creation, the reading and the update of an action before anything
    is sent: the remote is not contacted, the state is left as it was and an
    error is reported. *)
Theorem unparsable_project_id_stops (r : actionResource (W := W))
  (s : tfState actionResourceModel.t) resp st :
  snd (ProjectIDFromString (types.ValueString (actionResourceModel.ProjectID (State_Get s))))
  <> None ->
  stopsBeforeTheWire
    (action_resource.Create lib fmt r (resource.mkCreateRequest s) resp st)
    st (resource.State resp)
  /\ stopsBeforeTheWire
       (action_resource.Read lib fmt r (resource.mkReadRequest s) resp st)
       st (resource.State resp)
  /\ stopsBeforeTheWire
       (action_resource.Update lib r (resource.mkUpdateRequest s) resp st)
       st (resource.State resp).
Proof.
  intros Hbad. unfold stopsBeforeTheWire. repeat split.
  - destruct (Create_run r (resource.mkCreateRequest s) resp st) as (steps & _ & ->).
    cbn [resource.cq_Plan]. destruct (diag.HasError _); [reflexivity|].
    destruct (isUnknownList _); [reflexivity|].
    now destruct (ProjectIDFromString _) as [projectID [e|]].
  - destruct (Create_run r (resource.mkCreateRequest s) resp st) as (steps & _ & ->).
    cbn [resource.cq_Plan]. destruct (diag.HasError _) eqn:Hclean; [now eexists|].
    destruct (isUnknownList _); [eexists; split; [reflexivity|apply HasError_unknown]|].
    destruct (ProjectIDFromString _) as [projectID [e|]]; [|now cbn in Hbad].
    eexists. split; [reflexivity|apply HasError_AddError].
  - rewrite Read_run. cbn [resource.rq_State]. cbn zeta.
    destruct (diag.HasError _); [reflexivity|].
    now destruct (ProjectIDFromString _) as [projectID [e|]].
  - rewrite Read_run. cbn [resource.rq_State]. cbn zeta.
    destruct (diag.HasError _) eqn:Hclean; [now eexists|].
    destruct (ProjectIDFromString _) as [projectID [e|]]; [|now cbn in Hbad].
    eexists. split; [reflexivity|apply HasError_AddError].
  - rewrite Update_run. cbn [resource.uq_Plan]. cbn zeta.
    destruct (diag.HasError _); [reflexivity|].
    destruct (actionFromModel_outcome (State_Get s)) as [[Herr _]|(_ & Hok & _)];
      [|rewrite Hok in Hbad; now cbn in Hbad].
    destruct (actionFromModel _) as [[projectID action] d]. cbn [snd] in Herr.
    now rewrite HasError_Append, Herr, orb_true_r.
  - rewrite Update_run. cbn [resource.uq_Plan]. cbn zeta.
    destruct (diag.HasError _) eqn:Hclean; [now eexists|].
    destruct (actionFromModel_outcome (State_Get s)) as [[Herr _]|(_ & Hok & _)];
      [|rewrite Hok in Hbad; now cbn in Hbad].
    destruct (actionFromModel _) as [[projectID action] d]. cbn [snd] in Herr.
    assert (Hall : diag.HasError
                     (diag.Append (diag.Append (resource.Diagnostics resp) (State_GetDiags s)) d)
                   = true) by now rewrite HasError_Append, Herr, orb_true_r.
    rewrite Hall. now eexists.
Qed.

End ActionOperations.

Lemma Update_sends_no_webhook_settings_witness :
  exists hreq hres body,
    posthog.transcript
      (snd (action_resource.Update double.lib
              (provider.mkActionResource (double.answering 200 "{}"))
              (resource.mkUpdateRequest (mkTfState fixture.webhookModel []))
              (resource.mkResponse [] None) double.start))
    = [posthog.mkExchange hreq hres]
    /\ http.Body hreq = Some body
    /\ member "post_to_slack" body = Some (JBool false).
Proof.
  eexists _, _. 
  edestruct (Update_sends_no_webhook_settings double.lib
               (provider.mkActionResource (double.answering 200 "{}"))
               (resource.mkUpdateRequest (mkTfState fixture.webhookModel []))
               (resource.mkResponse [] None) double.start)
    as (_ & body & Hb & Hslack & _); [reflexivity|].
  exists body. split; [reflexivity|]. split; assumption.
Defined.

Lemma Read_action_outcomes_witness :
  fst (action_resource.Read double.lib fixture.fmt
         (provider.mkActionResource (double.answering 200 " null "))
         (resource.mkReadRequest (mkTfState double.sampleModel []))
         (resource.mkResponse [] (Some double.sampleModel)) double.start)
  = Returns (resource.mkResponse [] None).
Proof.
  eapply eq_trans; [eapply Read_action_outcomes; reflexivity|reflexivity].
Defined.


Lemma Create_sends_the_plan_witness :
  exists hreq hres body,
    posthog.transcript
      (snd (action_resource.Create double.lib fixture.fmt
              (provider.mkActionResource (double.answering 201 "{}"))
              (resource.mkCreateRequest (mkTfState fixture.pendingModel []))
              (resource.mkResponse [] None) double.start))
    = [posthog.mkExchange hreq hres]
    /\ http.Body hreq = Some body
    /\ member "steps" body
       = Some (JArray
                 (map posthog.CreateActionStepRequest.MarshalJSON
                    [posthog.CreateActionStepRequest.mk "signup" "" "" "" "" "" "" "";
                     posthog.CreateActionStepRequest.mk "$pageview" "/signup" "contains"
                       "" "" "" "" ""])).
Proof.
  eexists _, _.
  edestruct (Create_sends_the_plan double.lib fixture.fmt
               (provider.mkActionResource (double.answering 201 "{}"))
               (resource.mkCreateRequest (mkTfState fixture.pendingModel []))
               (resource.mkResponse [] None) double.start)
    as (_ & body & Hb & _ & _ & _ & Hsteps); [reflexivity|].
  exists body. split; [reflexivity|]. split; assumption.
Defined.

Lemma Create_outcomes_witness :
  fst (action_resource.Create double.lib fixture.fmt
         (provider.mkActionResource (double.answering 201 " null "))
         (resource.mkCreateRequest (mkTfState fixture.pendingModel []))
         (resource.mkResponse [] None) double.start)
  = Panics.
Proof.
  eapply eq_trans; [eapply Create_outcomes; reflexivity|reflexivity].
Defined.

Lemma Update_outcomes_witness :
  fst (action_resource.Update double.lib
         (provider.mkActionResource (double.answering 200 " null "))
         (resource.mkUpdateRequest (mkTfState fixture.webhookModel []))
         (resource.mkResponse [] (Some fixture.webhookModel)) double.start)
  = Panics.
Proof.
  eapply eq_trans; [eapply Update_outcomes; reflexivity|reflexivity].
Defined.

Lemma unparsable_project_id_stops_witness :
  stopsBeforeTheWire
    (action_resource.Read double.lib fixture.fmt
       (provider.mkActionResource (double.answering 200 "{}"))
       (resource.mkReadRequest (mkTfState fixture.unsavedModel []))
       (resource.mkResponse [] (Some fixture.unsavedModel)) double.start)
    double.start (Some fixture.unsavedModel).
Proof.
  refine (proj1 (proj2 (unparsable_project_id_stops double.lib fixture.fmt
                          (provider.mkActionResource (double.answering 200 "{}"))
                          (mkTfState fixture.unsavedModel [])
                          (resource.mkResponse [] (Some fixture.unsavedModel)) double.start _))).
  vm_compute. discriminate.
Defined.

(** ** The project resource *)

Section ProjectModel.
Import posthog provider project_resource.

Lemma ListValueFrom_sortedStrings strs :
  types.ListValueFrom (sortedStrings strs) = listOrNull (merge_sort string_le (elems strs)).
Proof.
  rewrite sortedStrings_unfold. destruct (elems strs) as [|x l]; [reflexivity|].
  destruct (merge_sort string_le (x :: l)) eqn:Hs; [|reflexivity].
  apply merge_sort_nil_inv in Hs. discriminate.
Qed.

(** The project [projectFromModel] builds when it reports no error. *)
Lemma projectFromModel_fields data :
  diag.HasError (snd (projectFromModel data)) = false ->
  let p := fst (projectFromModel data) in
  snd (projectFromModel data) = []
  /\ ProjectIDFromString (types.ValueString (projectResourceModel.ID data))
     = (Project.ID p, None)
  /\ Project.Name p = types.ValueString (projectResourceModel.Name data)
  /\ Project.Timezone p = types.ValueString (projectResourceModel.Timezone data)
  /\ elems (Project.AppURLs p) = listElems (projectResourceModel.AuthorizedURLs data)
  /\ elems (Project.DataAttributes p) = listElems (projectResourceModel.DataAttributes data)
  /\ elems (Project.PersonDisplayNameProperties p)
     = listElems (projectResourceModel.PersonDisplayNameProperties data)
  /\ elems (Project.RecordingDomains p)
     = listElems (projectResourceModel.AuthorizedSessionRecordingURLs data)
  /\ Project.ToolbarMode p
     = (if types.ValueBool (projectResourceModel.EnableToolbar data)
        then ProjectToolbarModeToolbar else ProjectToolbarModeDisabled)
  /\ Project.SessionRecordingVersion p
     = (if types.ValueBool (projectResourceModel.UseSessionRecorderV2 data)
        then ProjectSessionRecordingVersionV2 else ProjectSessionRecordingVersionV1)
  /\ Project.SessionRecordingOptIn p
     = types.ValueBool (projectResourceModel.RecordUserSessions data)
  /\ Project.CapturePerformanceOptIn p
     = types.ValueBool (projectResourceModel.CaptureNetworkPerformance data)
  /\ Project.CaptureConsoleLogOptIn p = false
  /\ Project.CompletedSnippetOnboarding p = false.
Proof.
  unfold projectFromModel.
  destruct (ProjectIDFromString _) as [projectID [e|]];
    [cbn [fst snd]; rewrite HasError_AddError; discriminate|].
  repeat (match goal with
          | |- context [types.ElementsAs ?l false] =>
              rewrite (ElementsAs_handled l); destruct (isUnknownList l)
          end;
          try (cbn [diag.Append fold_left diag.Contains]; rewrite ?HasError_unknown);
          cbn [diag.HasError existsb diag.Append fold_left]);
    try discriminate.
  intros _. cbn zeta. cbn [fst snd Project.ID Project.Name Project.Timezone Project.AppURLs
    Project.DataAttributes Project.PersonDisplayNameProperties Project.RecordingDomains
    Project.ToolbarMode Project.SessionRecordingVersion Project.SessionRecordingOptIn
    Project.CapturePerformanceOptIn Project.CaptureConsoleLogOptIn
    Project.CompletedSnippetOnboarding].
  repeat split;
    match goal with
    | |- elems (match ?l with types.ListValue _ => _ | _ => _ end) = _ => now destruct l
    end.
Qed.

(** X20.  A project model sent to the remote and read back, when the remote
    stores what it is sent: the flags of the toolbar, of the recorder
    version, of session recording and of network performance come back as
    they were, each list comes back sorted, and [capture_console_logs] comes
    back false whatever it was, since [projectFromModel] does not carry
    it. *)
Theorem project_through_the_remote data model :
  diag.HasError (snd (projectFromModel data)) = false ->
  let m := fst (updateProjectModel model (fst (projectFromModel data))) in
  projectResourceModel.EnableToolbar m
  = types.BoolValue (types.ValueBool (projectResourceModel.EnableToolbar data))
  /\ projectResourceModel.UseSessionRecorderV2 m
     = types.BoolValue (types.ValueBool (projectResourceModel.UseSessionRecorderV2 data))
  /\ projectResourceModel.RecordUserSessions m
     = types.BoolValue (types.ValueBool (projectResourceModel.RecordUserSessions data))
  /\ projectResourceModel.CaptureNetworkPerformance m
     = types.BoolValue (types.ValueBool (projectResourceModel.CaptureNetworkPerformance data))
  /\ projectResourceModel.CaptureConsoleLogs m = types.BoolValue false
  /\ projectResourceModel.Name m
     = types.StringValue (types.ValueString (projectResourceModel.Name data))
  /\ projectResourceModel.AuthorizedURLs m
     = listOrNull (merge_sort string_le (listElems (projectResourceModel.AuthorizedURLs data)))
  /\ projectResourceModel.DataAttributes m
     = listOrNull (merge_sort string_le (listElems (projectResourceModel.DataAttributes data)))
  /\ projectResourceModel.PersonDisplayNameProperties m
     = listOrNull (merge_sort string_le
                     (listElems (projectResourceModel.PersonDisplayNameProperties data)))
  /\ projectResourceModel.AuthorizedSessionRecordingURLs m
     = listOrNull (merge_sort string_le
                     (listElems (projectResourceModel.AuthorizedSessionRecordingURLs data))).
Proof.
  intros Hok.
  destruct (projectFromModel_fields data Hok)
    as (_ & _ & Hname & _ & Hurls & Hattrs & Hprops & Hdomains & Htoolbar & Hversion
        & Hsessions & Hperf & Hlogs & _).
  cbn zeta in *. unfold updateProjectModel.
  cbn [fst projectResourceModel.EnableToolbar projectResourceModel.UseSessionRecorderV2
       projectResourceModel.RecordUserSessions projectResourceModel.CaptureNetworkPerformance
       projectResourceModel.CaptureConsoleLogs projectResourceModel.Name
       projectResourceModel.AuthorizedURLs projectResourceModel.DataAttributes
       projectResourceModel.PersonDisplayNameProperties
       projectResourceModel.AuthorizedSessionRecordingURLs].
  rewrite !ListValueFrom_sortedStrings, Hname, Hurls, Hattrs, Hprops, Hdomains, Htoolbar,
    Hversion, Hsessions, Hperf, Hlogs.
  repeat split.
  - now destruct (types.ValueBool (projectResourceModel.EnableToolbar data)).
  - now destruct (types.ValueBool (projectResourceModel.UseSessionRecorderV2 data)).
Qed.

End ProjectModel.

Lemma project_through_the_remote_witness :
  provider.projectResourceModel.CaptureConsoleLogs
    (fst (provider.updateProjectModel fixture.sampleProjectModel
            (fst (project_resource.projectFromModel fixture.sampleProjectModel))))
  = types.BoolValue false
  /\ provider.projectResourceModel.AuthorizedURLs
       (fst (provider.updateProjectModel fixture.sampleProjectModel
               (fst (project_resource.projectFromModel fixture.sampleProjectModel))))
     = types.ListValue ["https://a.example"; "https://b.example"].
Proof.
  destruct (project_through_the_remote fixture.sampleProjectModel fixture.sampleProjectModel
              eq_refl) as (_ & _ & _ & _ & Hlogs & _ & Hurls & _).
  split; [exact Hlogs|]. rewrite Hurls. vm_compute. reflexivity.
Defined.

Section ProjectOperations.
Import posthog provider project_resource.
Context {W : Type} (lib : Lib) (fmt : Fmt).

Local Ltac no_exchange :=
  let Htr := fresh "Htr" in
  intros Htr; symmetry in Htr; now apply transcript_grows in Htr.

(** [Update], step by step. *)
Lemma project_Update_run (r : projectResource (W := W)) req resp st :
  let data := State_Get (resource.uq_Plan req) in
  let diags := diag.Append (resource.Diagnostics resp) (State_GetDiags (resource.uq_Plan req)) in
  project_resource.Update lib r req resp st =
  if diag.HasError diags then (Returns (resource.mkResponse diags (resource.State resp)), st)
  else
    let '(project, d) := projectFromModel data in
    if diag.HasError (diag.Append diags d)
    then (Returns (resource.mkResponse (diag.Append diags d) (resource.State resp)), st)
    else
      let '(out, st') := UpdateProject lib (client r) project st in
      (settle updateProjectModel data (diag.Append diags d) (resource.State resp)
         (diag.Sprintf "Error updating project %s: %s" (ProjectID_String (Project.ID project)))
         out, st').
Proof.
  cbn zeta. unfold project_resource.Update.
  destruct (diag.HasError _); [reflexivity|].
  destruct (projectFromModel _) as [project d].
  destruct (diag.HasError (diag.Append _ d)); [reflexivity|].
  unfold bind, settle, ret. destruct (UpdateProject lib (client r) project st) as [out st'].
  destruct (snd out); [reflexivity|]. destruct (fst out) as [res|]; [|reflexivity].
  destruct (updateProjectModel _ res) as [data' d']. cbn [fst snd].
  destruct (diag.HasError (diag.Append _ d')); reflexivity.
Qed.

(** X21.  Whatever the plan, the object an update of a project sends has
    [capture_console_log_opt_in] and [completed_snippet_onboarding] false;
    the toolbar mode and the recorder version are the two texts the flags
    of the plan select, and the authorized URLs and the recording domains
    are sent as arrays. *)
Theorem project_Update_request (r : projectResource (W := W)) req resp st hreq hres :
  let data := State_Get (resource.uq_Plan req) in
  transcript (snd (project_resource.Update lib r req resp st))
  = transcript st ++ [mkExchange hreq hres] ->
  http.Method hreq = "PATCH"
  /\ exists body,
       http.Body hreq = Some body
       /\ member "capture_console_log_opt_in" body = Some (JBool false)
       /\ member "completed_snippet_onboarding" body = Some (JBool false)
       /\ member "toolbar_mode" body
          = Some (JString (if types.ValueBool (projectResourceModel.EnableToolbar data)
                           then "toolbar" else "disabled"))
       /\ member "session_recording_version" body
          = Some (JString (if types.ValueBool (projectResourceModel.UseSessionRecorderV2 data)
                           then "v2" else "v1"))
       /\ member "app_urls" body
          = Some (JArray (map JString (listElems (projectResourceModel.AuthorizedURLs data))))
       /\ member "recording_domains" body
          = Some (JArray (map JString
                            (listElems (projectResourceModel.AuthorizedSessionRecordingURLs
                                          data)))).
Proof.
  cbn zeta. rewrite project_Update_run. cbn zeta.
  destruct (diag.HasError _); [no_exchange|].
  pose proof (projectFromModel_fields (State_Get (resource.uq_Plan req))) as Hfields.
  destruct (projectFromModel _) as [project d]. cbn [fst snd] in Hfields.
  destruct (diag.HasError (diag.Append _ d)) eqn:Herr; [no_exchange|].
  rewrite HasError_Append in Herr. apply orb_false_iff in Herr as [_ Hd].
  destruct (Hfields Hd)
    as (_ & _ & _ & _ & Hurls & _ & _ & Hdomains & Htoolbar & Hversion & _ & _ & Hlogs & Hdone).
  destruct (UpdateProject lib (client r) project st) as [out st'] eqn:Hupd.
  cbn [snd]. intros Htr. unfold UpdateProject in Hupd.
  destruct (do_request lib (client r) _ st out st' hreq hres Hupd Htr) as (Hm & _ & Hb).
  split; [exact Hm|]. cbn [option_map Input] in Hb. eexists. split; [exact Hb|].
  unfold json_Marshal, Project.MarshalJSON.
  cbn [Project.ID Project.Name Project.Timezone Project.AppURLs
    Project.DataAttributes Project.PersonDisplayNameProperties Project.RecordingDomains
    Project.ToolbarMode Project.SessionRecordingVersion Project.SessionRecordingOptIn
    Project.CapturePerformanceOptIn Project.CaptureConsoleLogOptIn
    Project.CompletedSnippetOnboarding].
  rewrite !marshalSlice_nilSliceToEmpty, Hurls, Hdomains, Htoolbar, Hversion, Hlogs, Hdone.
  repeat split.
Qed.

(** X22.  The object [Create] posts for a project: [completed_snippet_onboarding]
    is always true, [capture_console_log_opt_in] is the flag of the plan,
    the toolbar mode is the text the flag of the plan selects, and the
    authorized URLs and the data attributes are sent as arrays, empty when
    the plan has none. *)
Theorem project_Create_request (r : projectResource (W := W)) req resp st hreq hres :
  let data := State_Get (resource.cq_Plan req) in
  transcript (snd (project_resource.Create lib fmt r req resp st))
  = transcript st ++ [mkExchange hreq hres] ->
  http.Method hreq = "POST"
  /\ exists body,
       http.Body hreq = Some body
       /\ member "completed_snippet_onboarding" body = Some (JBool true)
       /\ member "capture_console_log_opt_in" body
          = Some (JBool (types.ValueBool (projectResourceModel.CaptureConsoleLogs data)))
       /\ member "toolbar_mode" body
          = Some (JString (if types.ValueBool (projectResourceModel.EnableToolbar data)
                           then "toolbar" else "disabled"))
       /\ member "name" body
          = Some (JString (types.ValueString (projectResourceModel.Name data)))
       /\ member "app_urls" body
          = Some (JArray (map JString (listElems (projectResourceModel.AuthorizedURLs data))))
       /\ member "data_attributes" body
          = Some (JArray (map JString (listElems (projectResourceModel.DataAttributes data)))).
Proof.
  cbn zeta. unfold project_resource.Create.
  destruct (diag.HasError _) eqn:Hclean; [no_exchange|].
  repeat (match goal with
          | |- context [types.ElementsAs ?l false] =>
              rewrite (ElementsAs_handled l); destruct (isUnknownList l); cbn beta iota zeta;
              [rewrite HasError_unknown; no_exchange
              |cbn [diag.Append fold_left]; rewrite Hclean]
          end).
  unfold bind.
  match goal with
  | |- context [CreateProject lib (client r) ?q st] =>
      destruct (CreateProject lib (client r) q st) as [out st'] eqn:Hcreate
  end.
  intros Htr.
  assert (Htr' : transcript st' = transcript st ++ [mkExchange hreq hres]).
  { rewrite <- Htr. unfold ret. destruct (snd out); [reflexivity|].
    destruct (fst out) as [res|]; [|reflexivity].
    destruct (updateProjectModel _ res) as [data' d'].
    destruct (diag.HasError (diag.Append _ d')); reflexivity. }
  unfold CreateProject in Hcreate.
  destruct (do_request lib (client r) _ st out st' hreq hres Hcreate Htr') as (Hm & _ & Hb).
  split; [exact Hm|]. cbn [option_map Input] in Hb. eexists. split; [exact Hb|].
  unfold json_Marshal, CreateProjectRequest.MarshalJSON.
  cbn [CreateProjectRequest.Name CreateProjectRequest.AppURLs
    CreateProjectRequest.DataAttributes CreateProjectRequest.PersonDisplayNameProperties
    CreateProjectRequest.RecordingDomains CreateProjectRequest.ToolbarMode
    CreateProjectRequest.CaptureConsoleLogOptIn
    CreateProjectRequest.CompletedSnippetOnboarding].
  rewrite !marshalSlice_nilSliceToEmpty.
  repeat split.
  - destruct (projectResourceModel.AuthorizedURLs _); reflexivity.
  - destruct (projectResourceModel.DataAttributes _); reflexivity.
Qed.

(** What the deletion of a project makes of an answer. *)
Lemma delete_answer (r : apiRequest unit) res :
  OutputNilIf404 r = false -> Output r = None ->
  answerTo r (inr res) =
  if (http.StatusCode res =? ExpectedCode r)%Z then (None, None)
  else (None, Some (ErrUnexpectedStatus (ExpectedCode r) (http.StatusCode res)
                      (http.ResponseBody res))).
Proof.
  intros Hnil Hout. unfold answerTo, decodeOutput. rewrite Hnil, Hout. cbn [andb].
  now destruct (http.StatusCode res =? ExpectedCode r)%Z.
Qed.

(** X23.  Deleting a project that the remote answers for: one [DELETE]
    without a body was sent; after a 204 nothing is added to the
    diagnostics, whatever the body, and after any other status, a 404
    included, an error is reported.  The state is left to the framework in
    both cases. *)
Theorem project_Delete_outcomes (r : projectResource (W := W)) req resp st hreq res :
  let data := State_Get (resource.dq_State req) in
  let diags := diag.Append (resource.Diagnostics resp) (State_GetDiags (resource.dq_State req)) in
  transcript (snd (project_resource.Delete lib r req resp st))
  = transcript st ++ [mkExchange hreq (inr res)] ->
  http.Method hreq = "DELETE" /\ http.Body hreq = None
  /\ fst (project_resource.Delete lib r req resp st) =
     if (http.StatusCode res =? 204)%Z then resource.mkResponse diags (resource.State resp)
     else resource.mkResponse
            (diag.AddError "Client Error"
               (diag.Sprintf "Error deleting project %s: %s"
                  (ProjectID_String
                     (fst (ProjectIDFromString
                             (types.ValueString (projectResourceModel.ID data)))))
                  (ErrUnexpectedStatus 204 (http.StatusCode res) (http.ResponseBody res)))
               diags)
            (resource.State resp).
Proof.
  cbn zeta. unfold project_resource.Delete.
  destruct (diag.HasError _) eqn:Hclean; [no_exchange|].
  pose proof (projectFromModel_fields (State_Get (resource.dq_State req))) as Hfields.
  destruct (projectFromModel _) as [project d]. cbn [fst snd] in Hfields.
  destruct (diag.HasError (diag.Append _ d)) eqn:Herr; [no_exchange|].
  rewrite HasError_Append in Herr. apply orb_false_iff in Herr as [_ Hd].
  destruct (Hfields Hd) as (-> & -> & _). cbn [diag.Append fold_left fst].
  unfold bind, DeleteProject, bind, ret.
  match goal with
  | |- context [do lib (client r) ?q st] =>
      destruct (do lib (client r) q st) as [out st'] eqn:Hdo
  end.
  assert (Hsame : forall (b : option error) (x y : resource.Response projectResourceModel.t),
             snd ((match b with Some _ => fun s : NetState W => (x, s)
                           | None => fun s => (y, s) end) st') = st')
    by (now intros []).
  cbn [fst snd].
  destruct (snd out) as [err|] eqn:Herrout; cbn [snd]; intros Htr;
    destruct (do_request lib (client r) _ st out st' hreq (inr res) Hdo Htr) as (Hm & _ & Hb);
    (split; [exact Hm|]); (split; [exact Hb|]);
    rewrite (do_answer lib (client r) _ st out st' hreq (inr res) Hdo Htr) in Herrout;
    rewrite delete_answer in Herrout by reflexivity; cbn [ExpectedCode] in Herrout;
    change http.StatusNoContent with 204%Z in Herrout;
    destruct (http.StatusCode res =? 204)%Z; cbn [snd] in Herrout; try discriminate;
    [now injection Herrout as <-|reflexivity].
Qed.

(** [Read], step by step. *)
Lemma project_Read_run (r : projectResource (W := W)) req resp st :
  let data := State_Get (resource.rq_State req) in
  let diags := diag.Append (resource.Diagnostics resp) (State_GetDiags (resource.rq_State req)) in
  project_resource.Read lib fmt r req resp st =
  if diag.HasError diags then (Returns (resource.mkResponse diags (resource.State resp)), st)
  else
    match ProjectIDFromString (types.ValueString (projectResourceModel.ID data)) with
    | (_, Some e) =>
        (Returns (resource.mkResponse
                    (diag.AddError "Invalid project ID" (diag.ErrorText (ErrNum e)) diags)
                    (resource.State resp)), st)
    | (projectID, None) =>
        let '(out, st') := GetProject lib (client r) projectID st in
        (Returns
           match out with
           | (_, Some err) =>
               resource.mkResponse
                 (diag.AddError "Client Error"
                    (diag.Sprintf "Error getting project %s: %s"
                       (String_String fmt (projectResourceModel.ID data)) err)
                    diags)
                 (resource.State resp)
           | (None, None) => resource.mkResponse diags None
           | (Some res, None) =>
               resource.mkResponse diags (Some (fst (updateProjectModel data res)))
           end, st')
    end.
Proof.
  cbn zeta. unfold project_resource.Read.
  destruct (diag.HasError _) eqn:Hclean; [reflexivity|].
  destruct (ProjectIDFromString _) as [projectID [e|]]; [reflexivity|].
  unfold bind, ret. destruct (GetProject lib (client r) projectID st) as [[res err] st'].
  cbn [fst snd]. destruct res as [res|], err; try reflexivity.
  unfold updateProjectModel. cbn [diag.Append fold_left fst]. now rewrite Hclean.
Qed.

(** X24.  Reading a project that the remote answers for.  The resource is
    removed from the state after a 404 and after a 200 whose first JSON
    value is the literal [null], white space around it or not.  After a 200
    whose value decodes without error the state is the model filled from
    the project, with the mode "toolbar" when the reply has none.  After
    any other status, a syntax error, or a decoding that reports an error,
    the state is left as it was and the error is reported. *)
Theorem project_Read_outcomes (r : projectResource (W := W)) req resp st hreq res :
  let data := State_Get (resource.rq_State req) in
  let diags := diag.Append (resource.Diagnostics resp) (State_GetDiags (resource.rq_State req)) in
  let failed err :=
    resource.mkResponse
      (diag.AddError "Client Error"
         (diag.Sprintf "Error getting project %s: %s"
            (String_String fmt (projectResourceModel.ID data)) err) diags)
      (resource.State resp) in
  transcript (snd (project_resource.Read lib fmt r req resp st))
  = transcript st ++ [mkExchange hreq (inr res)] ->
  fst (project_resource.Read lib fmt r req resp st) =
  Returns
    (if (http.StatusCode res =? 404)%Z then resource.mkResponse diags None
     else if (http.StatusCode res =? 200)%Z then
       if firstValueIsNull (http.ResponseBody res) then resource.mkResponse diags None
       else match ReadValue lib (http.ResponseBody res) with
            | inl err => failed (ErrDecodingReply err)
            | inr value =>
                match UnmarshalRawProject lib value with
                | (_, Some err) => failed (ErrDecodingReply err)
                | (p, None) =>
                    resource.mkResponse diags
                      (Some (fst (updateProjectModel data
                                    (if String.eqb (Project.ToolbarMode p) ""
                                     then Project.setToolbarMode ProjectToolbarModeToolbar p
                                     else p))))
                end
            end
     else failed (ErrUnexpectedStatus 200 (http.StatusCode res) (http.ResponseBody res))).
Proof.
  cbn zeta. rewrite project_Read_run. cbn zeta.
  destruct (diag.HasError _); [no_exchange|].
  destruct (ProjectIDFromString _) as [projectID [e|]]; [no_exchange|].
  destruct (GetProject lib (client r) projectID st) as [out st'] eqn:Hget.
  cbn [fst snd]. intros Htr. unfold GetProject in Hget.
  rewrite (do_answer lib (client r) _ st out st' hreq (inr res) Hget Htr).
  erewrite (read_answer lib _ (Project_UnmarshalJSON lib) res); [|reflexivity..].
  destruct (http.StatusCode res =? 404)%Z; [reflexivity|].
  destruct (http.StatusCode res =? 200)%Z; [|reflexivity].
  destruct (firstValueIsNull (http.ResponseBody res)); [reflexivity|].
  destruct (ReadValue lib (http.ResponseBody res)) as [err|value]; [reflexivity|].
  unfold Project_UnmarshalJSON.
  destruct (UnmarshalRawProject lib value) as [p [err|]]; [reflexivity|].
  destruct (String.eqb (Project.ToolbarMode p) ""); reflexivity.
Qed.

(** [Create], step by step, once the lists of the plan are known. *)
Lemma project_Create_outcome_of (r : projectResource (W := W)) req resp st hreq res :
  let data := State_Get (resource.cq_Plan req) in
  let diags := diag.Append (resource.Diagnostics resp) (State_GetDiags (resource.cq_Plan req)) in
  transcript (snd (project_resource.Create lib fmt r req resp st))
  = transcript st ++ [mkExchange hreq (inr res)] ->
  fst (project_resource.Create lib fmt r req resp st) =
  settle updateProjectModel data diags (resource.State resp)
    (fun err => diag.Text (Sprintf_err fmt "Error creating action: %s" err))
    (answerTo (T := Project.t)
       {| Method := "POST"; Path := "/projects/"; Input := None;
          ExpectedCode := http.StatusCreated;
          Output := Some (decodePointer lib (Project_UnmarshalJSON lib));
          OutputNilIf404 := false |} (inr res)).
Proof.
  cbn zeta. unfold project_resource.Create.
  destruct (diag.HasError _) eqn:Hclean; [no_exchange|].
  repeat (match goal with
          | |- context [types.ElementsAs ?l false] =>
              rewrite (ElementsAs_handled l); destruct (isUnknownList l); cbn beta iota zeta;
              [rewrite HasError_unknown; no_exchange
              |cbn [diag.Append fold_left]; rewrite Hclean]
          end).
  unfold bind.
  match goal with
  | |- context [CreateProject lib (client r) ?q st] =>
      destruct (CreateProject lib (client r) q st) as [out st'] eqn:Hcreate
  end.
  intros Htr.
  assert (Htr' : transcript st' = transcript st ++ [mkExchange hreq (inr res)]).
  { rewrite <- Htr. unfold ret. destruct (snd out); [reflexivity|].
    destruct (fst out) as [p|]; [|reflexivity].
    destruct (updateProjectModel _ p) as [data' d'].
    destruct (diag.HasError (diag.Append _ d')); reflexivity. }
  unfold CreateProject in Hcreate.
  pose proof (do_answer lib (client r) _ st out st' hreq (inr res) Hcreate Htr') as ->.
  unfold settle, ret.
  match goal with |- context [answerTo ?q (inr res)] => set (ans := answerTo q (inr res)) end.
  change (answerTo _ (inr res)) with ans.
  destruct (snd ans); [reflexivity|]. destruct (fst ans) as [p|]; [|reflexivity].
  destruct (updateProjectModel _ p) as [data' d']. cbn [fst snd].
  destruct (diag.HasError (diag.Append _ d')); reflexivity.
Qed.

(** X25.  [Create] of a project answered 201.  When the first JSON value of
    the body is the literal [null], white space around it or not, the
    operation stops on a nil dereference.  A value that decodes without
    error becomes the new state, whose identifier is the decimal rendering
    of the one the remote chose and whose toolbar flag is set when the
    reply has no toolbar mode or the mode [toolbar].  A syntax error or a
    decoding that reports an error leaves the state as it was, with an
    error. *)
Theorem project_Create_outcomes (r : projectResource (W := W)) req resp st hreq res :
  let data := State_Get (resource.cq_Plan req) in
  let diags := diag.Append (resource.Diagnostics resp) (State_GetDiags (resource.cq_Plan req)) in
  let failed err :=
    resource.mkResponse
      (diag.AddError "Client Error"
         (diag.Text (Sprintf_err fmt "Error creating action: %s" (ErrDecodingReply err)))
         diags)
      (resource.State resp) in
  transcript (snd (project_resource.Create lib fmt r req resp st))
  = transcript st ++ [mkExchange hreq (inr res)] ->
  http.StatusCode res = 201%Z ->
  (firstValueIsNull (http.ResponseBody res) = true ->
   fst (project_resource.Create lib fmt r req resp st) = Panics)
  /\ (forall err,
        firstValueIsNull (http.ResponseBody res) = false ->
        ReadValue lib (http.ResponseBody res) = inl err ->
        fst (project_resource.Create lib fmt r req resp st) = Returns (failed err))
  /\ (forall value p err,
        firstValueIsNull (http.ResponseBody res) = false ->
        ReadValue lib (http.ResponseBody res) = inr value ->
        UnmarshalRawProject lib value = (p, Some err) ->
        fst (project_resource.Create lib fmt r req resp st) = Returns (failed err))
  /\ (forall value p,
        firstValueIsNull (http.ResponseBody res) = false ->
        ReadValue lib (http.ResponseBody res) = inr value ->
        UnmarshalRawProject lib value = (p, None) ->
        exists m,
          fst (project_resource.Create lib fmt r req resp st)
          = Returns (resource.mkResponse diags (Some m))
          /\ projectResourceModel.ID m = types.StringValue (strconv.FormatUint (Project.ID p))
          /\ projectResourceModel.EnableToolbar m
             = types.BoolValue (String.eqb (Project.ToolbarMode p) ""
                                || String.eqb (Project.ToolbarMode p) "toolbar")).
Proof.
  cbn zeta. intros Htr Hstatus.
  pose proof (project_Create_outcome_of r req resp st hreq res Htr) as Hout.
  cbn zeta in Hout. rewrite Hout.
  assert (Hclean : diag.HasError
                     (diag.Append (resource.Diagnostics resp)
                        (State_GetDiags (resource.cq_Plan req))) = false).
  { revert Htr. unfold project_resource.Create.
    destruct (diag.HasError _); [no_exchange|reflexivity]. }
  erewrite (write_answer lib _ (Project_UnmarshalJSON lib) res); [|reflexivity..].
  cbn [ExpectedCode]. rewrite Hstatus. cbn [Z.eqb http.StatusCreated Pos.eqb].
  unfold settle, Project_UnmarshalJSON. split; [|split; [|split]].
  - intros ->. reflexivity.
  - intros err -> ->. reflexivity.
  - intros value p err -> -> ->. reflexivity.
  - intros value p -> -> ->.
    destruct (String.eqb (Project.ToolbarMode p) "") eqn:Hmode;
      cbn [fst snd option_map updateProjectModel diag.Append fold_left]; rewrite Hclean;
      eexists; (split; [reflexivity|]); split; reflexivity.
Qed.

End ProjectOperations.

Lemma project_Update_request_witness :
  exists hreq hres body,
    posthog.transcript
      (snd (project_resource.Update double.lib
              (project_resource.mkProjectResource (double.answering 200 "{}"))
              (resource.mkUpdateRequest (mkTfState fixture.sampleProjectModel []))
              (resource.mkResponse [] None) double.start))
    = [posthog.mkExchange hreq hres]
    /\ http.Body hreq = Some body
    /\ member "capture_console_log_opt_in" body = Some (JBool false).
Proof.
  eexists _, _.
  edestruct (project_Update_request double.lib
               (project_resource.mkProjectResource (double.answering 200 "{}"))
               (resource.mkUpdateRequest (mkTfState fixture.sampleProjectModel []))
               (resource.mkResponse [] None) double.start)
    as (_ & body & Hb & Hlogs & _); [reflexivity|].
  exists body. split; [reflexivity|]. split; assumption.
Defined.

Lemma project_Create_request_witness :
  exists hreq hres body,
    posthog.transcript
      (snd (project_resource.Create double.lib fixture.fmt
              (project_resource.mkProjectResource (double.answering 201 "{}"))
              (resource.mkCreateRequest (mkTfState fixture.sampleProjectModel []))
              (resource.mkResponse [] None) double.start))
    = [posthog.mkExchange hreq hres]
    /\ http.Body hreq = Some body
    /\ member "completed_snippet_onboarding" body = Some (JBool true).
Proof.
  eexists _, _.
  edestruct (project_Create_request double.lib fixture.fmt
               (project_resource.mkProjectResource (double.answering 201 "{}"))
               (resource.mkCreateRequest (mkTfState fixture.sampleProjectModel []))
               (resource.mkResponse [] None) double.start)
    as (_ & body & Hb & Hdone & _); [reflexivity|].
  exists body. split; [reflexivity|]. split; assumption.
Defined.

Lemma project_Delete_outcomes_witness :
  fst (project_resource.Delete double.lib
         (project_resource.mkProjectResource (double.answering 204 ""))
         (resource.mkDeleteRequest (mkTfState fixture.sampleProjectModel []))
         (resource.mkResponse [] (Some fixture.sampleProjectModel)) double.start)
  = resource.mkResponse [] (Some fixture.sampleProjectModel).
Proof.
  edestruct (project_Delete_outcomes double.lib
               (project_resource.mkProjectResource (double.answering 204 ""))
               (resource.mkDeleteRequest (mkTfState fixture.sampleProjectModel []))
               (resource.mkResponse [] (Some fixture.sampleProjectModel)) double.start)
    as (_ & _ & Hout); [reflexivity|].
  rewrite Hout. reflexivity.
Defined.

Lemma project_Read_outcomes_witness :
  fst (project_resource.Read double.lib fixture.fmt
         (project_resource.mkProjectResource (double.answering 200 " null "))
         (resource.mkReadRequest (mkTfState fixture.sampleProjectModel []))
         (resource.mkResponse [] (Some fixture.sampleProjectModel)) double.start)
  = Returns (resource.mkResponse [] None).
Proof.
  eapply eq_trans; [eapply project_Read_outcomes; reflexivity|reflexivity].
Defined.

Lemma project_Create_outcomes_witness :
  fst (project_resource.Create double.lib fixture.fmt
         (project_resource.mkProjectResource (double.answering 201 " null "))
         (resource.mkCreateRequest (mkTfState fixture.sampleProjectModel []))
         (resource.mkResponse [] None) double.start)
  = Panics.
Proof.
  edestruct (project_Create_outcomes double.lib fixture.fmt
               (project_resource.mkProjectResource (double.answering 201 " null "))
               (resource.mkCreateRequest (mkTfState fixture.sampleProjectModel []))
               (resource.mkResponse [] None) double.start)
    as [Hnull _]; [reflexivity|reflexivity|].
  apply Hnull. reflexivity.
Defined.

(** ** Unset strings, and the configuration of the provider *)

Section Configuration.
Import provider_go.

(** X26.  [NullableStringValue] keeps the text, and gives a value that
    counts as unset exactly for the empty text. *)
Theorem NullableStringValue_unset s :
  types.ValueString (typeutil.NullableStringValue s) = s
  /\ typeutil.IsStringValueUnset (typeutil.NullableStringValue s) = String.eqb s ""
  /\ (typeutil.IsNull (typeutil.NullableStringValue s) = String.eqb s "")
  /\ typeutil.IsUnknown (typeutil.NullableStringValue s) = false.
Proof.
  unfold typeutil.NullableStringValue, typeutil.IsStringValueUnset.
  destruct (String.eqb s "") eqn:Hs.
  - apply String.eqb_eq in Hs as ->. repeat split.
  - cbn. rewrite Hs. repeat split.
Qed.

Lemma provider_HasError_Append ds more :
  HasError (Append ds more) = HasError ds || HasError more.
Proof.
  revert ds. induction more as [|d more IH]; intros ds.
  - cbn. now rewrite orb_false_r.
  - cbn [Append fold_left]. fold (Append (if bool_decide (d ∈ ds) then ds else ds ++ [d]) more).
    rewrite IH. destruct (bool_decide (d ∈ ds)) eqn:Hin.
    + apply bool_decide_eq_true in Hin. cbn [HasError existsb].
      destruct (diag.isError (snd d)) eqn:Hd; [|reflexivity].
      assert (HasError ds = true) as ->; [|reflexivity].
      unfold HasError. apply existsb_exists. exists d. split; [|exact Hd].
      now apply list_elem_of_In.
    + unfold HasError. rewrite existsb_app. cbn [existsb].
      now rewrite orb_false_r, orb_assoc.
Qed.

Lemma elem_Append_one (ds : list PathDiagnostic) d x :
  x ∈ ds \/ x = d -> x ∈ Append ds [d].
Proof.
  unfold Append. cbn [fold_left]. destruct (bool_decide (d ∈ ds)) eqn:Hin.
  - apply bool_decide_eq_true in Hin. now intros [Hx| ->].
  - intros [Hx| ->]; set_solver.
Qed.

(** X27.  Configuring the provider from a configuration that reads without
    error: a missing host and a missing key are each reported on their
    attribute, and do not stop the configuration: resources and data
    sources are handed the same client, built from the texts of the
    configuration, in every case. *)
Theorem Configure_builds_the_client {W : Type}
  (DefaultClient : http.Request -> W -> (string + http.Response) * W) req resp :
  let data := State_Get (Config req) in
  HasError (Append (Diagnostics resp) (map (pair None) (State_GetDiags (Config req)))) = false ->
  let out := Configure DefaultClient req resp in
  ResourceData out
  = Some (posthog.mkClient DefaultClient (types.ValueString (Host data))
            (types.ValueString (APIKey data)))
  /\ DataSourceData out = ResourceData out
  /\ HasError (Diagnostics out)
     = typeutil.IsStringValueUnset (Host data) || typeutil.IsStringValueUnset (APIKey data)
  /\ (typeutil.IsStringValueUnset (Host data) = true ->
      (Some "host",
       diag.mkDiagnostic diag.SeverityError "Missing PostHog host"
         (diag.Text "The host parameter is required for this provider to manage resources."))
      ∈ Diagnostics out)
  /\ (typeutil.IsStringValueUnset (APIKey data) = true ->
      (Some "api_key",
       diag.mkDiagnostic diag.SeverityError "Missing PostHog API key"
         (diag.Text "The api_key parameter is required for this provider to manage resources."))
      ∈ Diagnostics out).
Proof.
  cbn zeta. intros Hclean. unfold Configure. rewrite Hclean.
  cbn [ResourceData DataSourceData Diagnostics]. do 2 (split; [reflexivity|]).
  unfold AddAttributeError. revert Hclean.
  generalize (Append (Diagnostics resp) (map (pair None) (State_GetDiags (Config req)))).
  intros ds Hclean. split; [|split].
  - destruct (typeutil.IsStringValueUnset (Host _)), (typeutil.IsStringValueUnset (APIKey _));
      rewrite ?provider_HasError_Append, ?Hclean; reflexivity.
  - intros ->. destruct (typeutil.IsStringValueUnset (APIKey _));
      repeat (apply elem_Append_one; try (now right); left).
  - intros ->. apply elem_Append_one. now right.
Qed.

End Configuration.

Lemma Configure_builds_the_client_witness :
  provider_go.ResourceData
    (provider_go.Configure (W := unit) (fun _ w => (inl "offline", w))
       (provider_go.mkConfigureRequest
          (mkTfState (provider_go.mkPostHogProviderModel types.StringNull
                        (types.StringValue "phx_key")) []))
       (provider_go.mkConfigureResponse unit [] None None))
  = Some (posthog.mkClient (fun _ w => (inl "offline", w)) "" "phx_key").
Proof.
  refine (proj1 (Configure_builds_the_client (W := unit) (fun _ w => (inl "offline", w))
                   (provider_go.mkConfigureRequest
                      (mkTfState (provider_go.mkPostHogProviderModel types.StringNull
                                    (types.StringValue "phx_key")) []))
                   (provider_go.mkConfigureResponse unit [] None None) _)).
  reflexivity.
Defined.
